(** * scvi-tools (scHANVI fork): loss composition, group classifier and trainers

    A shallow embedding of

    - [src/scvi/data/fields/_mudata.py]  ([BaseMuDataWrapper], [MuDataWrapper]),
    - [src/scvi/inference/semi_supervised_trainer.py]  ([MnistTrainer]),
    - [src/scvi/external/schanvi/module/_schanvae.py]  ([SCHANVAE]).

    Python exceptions are values of [exn] carried by the [result] monad.
    In the model of [SCHANVAE] tensors hold real numbers: a 1-D tensor is
    a [list R], a 2-D tensor a list of rows, and the neural networks
    (encoders, decoders, classifiers) are opaque collaborators: fields of
    the record [Networks].  In the model of [MnistTrainer] tensors are
    opaque but for their shape, and [torch.cat] and the methods of the
    model are the fields of the record [Env]. *)

From Stdlib Require Import List ZArith QArith Qround Reals Lra Lia String Bool Arith.
Import ListNotations.

Close Scope Q_scope.
Open Scope string_scope.
Open Scope list_scope.
Open Scope nat_scope.

Set Implicit Arguments.

(** ** Exceptions and the result monad *)

Inductive exn : Type :=
| ValueError (msg : string)
| AssertionError
| IndexError
| TypeError
| ZeroDivisionError
| AttributeError
| RuntimeError (msg : string)
| KeyError (key : string).

Inductive result (A : Type) : Type :=
| Ok (a : A)
| Raise (e : exn).

Arguments Ok {A} a.
Arguments Raise {A} e.

Definition bind {A B : Type} (r : result A) (k : A -> result B) : result B :=
  match r with
  | Ok a => k a
  | Raise e => Raise e
  end.

Declare Scope result_scope.
Delimit Scope result_scope with result.
Notation "x <- c ;; k" := (bind c (fun x => k))
  (at level 61, c at next level, right associativity) : result_scope.
Notation "' p <- c ;; k" := (bind c (fun x => let p := x in k))
  (at level 61, p pattern, c at next level, right associativity) : result_scope.

(** [assert cond] of Python: raises [AssertionError] when [cond] is false. *)
Definition py_assert (cond : bool) : result unit :=
  if cond then Ok tt else Raise AssertionError.

Definition is_none {A : Type} (o : option A) : bool :=
  match o with
  | None => true
  | Some _ => false
  end.

(** A [for] loop whose body can raise. *)
Fixpoint for_each {A S : Type} (body : A -> S -> result S) (xs : list A) (s : S)
  : result S :=
  match xs with
  | [] => Ok s
  | x :: xs' => bind (body x s) (for_each body xs')
  end.

(** A comprehension whose element expression can raise. *)
Fixpoint mapM {A B : Type} (f : A -> result B) (l : list A) : result (list B) :=
  match l with
  | [] => Ok []
  | x :: l' => bind (f x) (fun y => bind (mapM f l') (fun ys => Ok (y :: ys)))
  end.

(** ** [scvi.data.fields._mudata] *)

Module MuData.

(** What [isinstance(_, type)] looks at: a Python value is a class or an
  instance of one. *)
Inductive pyobj : Type :=
| PyClass (name : string)
| PyInstance (cls : string).

Definition isinstance_type (o : pyobj) : bool :=
  match o with
  | PyClass _ => true
  | PyInstance _ => false
  end.

Definition class_name (o : pyobj) : string :=
  match o with
  | PyClass n => n
  | PyInstance c => c
  end.

Section Wrapper.
(** The type of a user-supplied [preregister_fn]. *)
Variable preregister : Type.

(** The state [BaseMuDataWrapper.__init__] sets up.  [_preregister] is
    [None] while it is the default no-op lambda. *)
Record BaseMuDataWrapper : Type := {
  _mod_key : option string;
  _preregister : option preregister
}.

Definition BaseMuDataWrapper_init (mod_key : option string) (mod_required : bool)
  : result BaseMuDataWrapper :=
  if mod_required && is_none mod_key
  then Raise (ValueError "Modality required for MuDataField but not provided.")
  else Ok {| _mod_key := mod_key; _preregister := None |}.

(** An instance of a class built by [MuDataWrapper]: the base state and
    the wrapped AnnData field (here: the name of its class). *)
Record MuDataField : Type := {
  base : BaseMuDataWrapper;
  _adata_field : string
}.

(** The class [MuDataWrapper] returns: its name and its [__init__]. *)
Record MuDataFieldClass : Type := {
  cls_name : string;
  cls_init : option string -> bool -> result MuDataField
}.

Definition mudata_field_init (adata_field_cls : pyobj)
    (preregister_fn : option preregister)
    (mod_key : option string) (mod_required : bool) : result MuDataField :=
  (b <- BaseMuDataWrapper_init mod_key mod_required ;;
   let b' := match preregister_fn with
             | Some f => {| _mod_key := _mod_key b; _preregister := Some f |}
             | None => b
             end in
   Ok {| base := b'; _adata_field := class_name adata_field_cls |})%result.

Definition MuDataWrapper (adata_field_cls : pyobj)
    (preregister_fn : option preregister) : result MuDataFieldClass :=
  if negb (isinstance_type adata_field_cls)
  then Raise (ValueError "`adata_field_cls` must be a class, not an instance.")
  else Ok {| cls_name := String.append "MuData" (class_name adata_field_cls);
             cls_init := mudata_field_init adata_field_cls preregister_fn |}.
End Wrapper.

End MuData.

(** ** [scvi.inference.semi_supervised_trainer]: the results of [inference] *)

Module MnistInference.

(** A Python [dict] with string keys, in insertion order. *)
Definition dict (V : Type) : Type := list (string * V).

Fixpoint dict_get {V : Type} (key : string) (d : dict V) : option V :=
  match d with
  | [] => None
  | (k, v) :: rest => if String.eqb key k then Some v else dict_get key rest
  end.

(** [d[key] = v]: replaces the value of a key that is there, adds a new
    key at the end. *)
Fixpoint dict_set {V : Type} (key : string) (v : V) (d : dict V) : dict V :=
  match d with
  | [] => [(key, v)]
  | (k, v') :: rest =>
      if String.eqb key k then (k, v) :: rest else (k, v') :: dict_set key v rest
  end.

Definition dict_keys {V : Type} (d : dict V) : list string := map fst d.

(** [d[key]]: [KeyError] when the key is missing. *)
Definition dict_item {V : Type} (key : string) (d : dict V) : result V :=
  match dict_get key d with
  | Some v => Ok v
  | None => Raise (KeyError key)
  end.

(** [key in keys]. *)
Definition mem (key : string) (keys : list string) : bool :=
  existsb (String.eqb key) keys.

(** [{key: val for (key, val) in res.items() if key in keys}]. *)
Definition dict_filter {V : Type} (keys : list string) (res : dict V) : dict V :=
  fold_left (fun d kv => if mem (fst kv) keys then dict_set (fst kv) (snd kv) d else d)
    res [].

(** [dic_update]: appends the values of [new_dic] to the lists of [dic]. *)
Definition dic_update {V : Type} (dic : dict (list V)) (new_dic : dict V) : dict (list V) :=
  fold_left (fun dic kv =>
               match dict_get (fst kv) dic with
               | Some li => dict_set (fst kv) (li ++ [snd kv]) dic
               | None => dict_set (fst kv) [snd kv] dic
               end)
    new_dic dic.

(** The values [new_dic] holds under [k], in the order of its items. *)
Definition values_of {V : Type} (k : string) (new_dic : dict V) : list V :=
  map snd (filter (fun kv => String.eqb k (fst kv)) new_dic).

(** A list of a dictionary of lists, with further values appended. *)
Definition extend {V : Type} (o : option (list V)) (l : list V) : option (list V) :=
  match o with
  | Some l0 => Some (l0 ++ l)
  | None => match l with
            | [] => None
            | _ :: _ => Some l
            end
  end.

Section Inference.
(** Tensors are opaque but for their shape; [torch.cat] and the methods
    of the model are collaborators.  [model_inference x y n_samples] is
    the dictionary [self.model.inference] returns; it holds the seven
    log-densities whose combination is [log_ratios_of]. *)
Variable tensor : Type.
Variable shape : tensor -> list nat.
Variable torch_cat : list tensor -> nat -> result tensor.
Variable model_inference : tensor -> option tensor -> nat -> dict tensor.
Variable log_ratios_of : dict tensor -> tensor.
Variable cubo : tensor -> dict tensor -> tensor.
Variable iwelbo : tensor -> dict tensor -> tensor.

(** [np.where(tensor_shape == batch_size)[0][0]]: the first axis of that
    size, counted from [i]. *)
Fixpoint first_axis (batch_size : nat) (i : nat) (tensor_shape : list nat) : result nat :=
  match tensor_shape with
  | [] => Raise IndexError
  | n :: rest => if n =? batch_size then Ok i else first_axis batch_size (S i) rest
  end.

(** One turn of the loop of [dic_concat]. *)
Definition concat_entry (batch_size : nat) (li : list tensor) : result tensor :=
  match li with
  | [] => Raise IndexError
  | t0 :: _ => bind (first_axis batch_size 0 (shape t0)) (torch_cat li)
  end.

Definition dic_concat (dic : dict (list tensor)) (batch_size : nat) : result (dict tensor) :=
  mapM (fun kv => bind (concat_entry batch_size (snd kv)) (fun t => Ok (fst kv, t))) dic.

(** The dictionary [res] of a batch, with the labels added. *)
Definition batch_res (do_supervised : bool) (n_samples : nat) (tensor_all : tensor * tensor)
  : dict tensor :=
  let (x, y) := tensor_all in
  dict_set "y" y (model_inference x (if do_supervised then Some y else None) n_samples).

(** The body of the loop of [inference] (lines 247-292). *)
Definition inference_batch (do_supervised : bool) (keys : option (list string))
    (n_samples : nat) (tensor_all : tensor * tensor) (all_res : dict (list tensor))
  : result (dict (list tensor)) :=
  let res := batch_res do_supervised n_samples tensor_all in
  let log_ratios := log_ratios_of res in
  match keys with
  | None => Raise TypeError
  | Some ks =>
      let filtered_res := dict_filter ks res in
      let filtered_res :=
        if mem "CUBO" ks then dict_set "CUBO" (cubo log_ratios res) filtered_res
        else filtered_res in
      let filtered_res :=
        if mem "IWELBO" ks then dict_set "IWELBO" (iwelbo log_ratios res) filtered_res
        else filtered_res in
      let filtered_res :=
        if mem "log_ratios" ks then dict_set "log_ratios" log_ratios filtered_res
        else filtered_res in
      Ok (dic_update all_res filtered_res)
  end.

(** The dictionary [inference] returns for a loader of the given
    [batch_size]. *)
Definition inference_results (data_loader : list (tensor * tensor)) (batch_size : nat)
    (do_supervised : bool) (keys : option (list string)) (n_samples : nat)
  : result (dict tensor) :=
  (all_res <- for_each (inference_batch do_supervised keys n_samples) data_loader [] ;;
   dic_concat all_res batch_size)%result.

(** The CUBO of a batch, as [inference] computes it. *)
Definition cubo_of (do_supervised : bool) (n_samples : nat) (tensor_all : tensor * tensor)
  : tensor :=
  let res := batch_res do_supervised n_samples tensor_all in
  cubo (log_ratios_of res) res.

End Inference.

End MnistInference.

(** ** [scvi.inference.semi_supervised_trainer] *)

Module MnistTrainer.

Import MnistInference.

(** Which [self.loss] call of the training loop an event belongs to. *)
Inductive phase : Type := Overall | WakeTheta | WakePhi.

(** The observable steps of a run, newest first in [log].  [ELoss] is
    recorded by the loop when it calls [self.loss] (with the epoch of the
    call), [EInference] when [self.inference] sets the mode of the model,
    [EStep] at [optim.step()] with the value of [model.training] then. *)
Inductive event : Type :=
| ELoss (epoch : nat) (ph : phase) (loss_type : string) (n_samples : option nat)
        (reparam : bool) (mode : string)
| EInference (eval_mode : bool)
| EStep (ph : phase) (training : bool).

(** [self.metrics]: a value appended at iteration [i] is recorded as [i]
    (the floats themselves are opaque). *)
Record Metrics : Type := {
  train_theta_wake : list nat;
  train_phi_wake : list nat;
  train_phi_sleep : list nat;
  train_loss : list nat;
  classification_loss : list nat;
  train_cubo : list nat
}.

Inductive metric_key : Type :=
| KThetaWake | KPhiWake | KPhiSleep | KTrainLoss | KClassification | KCubo.

Definition metrics_append (k : metric_key) (i : nat) (m : Metrics) : Metrics :=
  match k with
  | KThetaWake =>
      {| train_theta_wake := train_theta_wake m ++ [i]; train_phi_wake := train_phi_wake m;
         train_phi_sleep := train_phi_sleep m; train_loss := train_loss m;
         classification_loss := classification_loss m; train_cubo := train_cubo m |}
  | KPhiWake =>
      {| train_theta_wake := train_theta_wake m; train_phi_wake := train_phi_wake m ++ [i];
         train_phi_sleep := train_phi_sleep m; train_loss := train_loss m;
         classification_loss := classification_loss m; train_cubo := train_cubo m |}
  | KPhiSleep =>
      {| train_theta_wake := train_theta_wake m; train_phi_wake := train_phi_wake m;
         train_phi_sleep := train_phi_sleep m ++ [i]; train_loss := train_loss m;
         classification_loss := classification_loss m; train_cubo := train_cubo m |}
  | KTrainLoss =>
      {| train_theta_wake := train_theta_wake m; train_phi_wake := train_phi_wake m;
         train_phi_sleep := train_phi_sleep m; train_loss := train_loss m ++ [i];
         classification_loss := classification_loss m; train_cubo := train_cubo m |}
  | KClassification =>
      {| train_theta_wake := train_theta_wake m; train_phi_wake := train_phi_wake m;
         train_phi_sleep := train_phi_sleep m; train_loss := train_loss m;
         classification_loss := classification_loss m ++ [i]; train_cubo := train_cubo m |}
  | KCubo =>
      {| train_theta_wake := train_theta_wake m; train_phi_wake := train_phi_wake m;
         train_phi_sleep := train_phi_sleep m; train_loss := train_loss m;
         classification_loss := classification_loss m; train_cubo := train_cubo m ++ [i] |}
  end.

(** [int(x)] of a Python float: truncation towards zero. *)
Definition py_int (q : Q) : Z :=
  let (n, d) := q in Z.quot n (Zpos d).

(** [zip(xs, cycle(ys))]: stops with [xs], or at once when [ys] is empty. *)
Fixpoint zip_cycle {A B : Type} (xs : list A) (ys cur : list B) : list (A * B) :=
  match xs with
  | [] => []
  | x :: xs' =>
      match cur with
      | y :: cur' => (x, y) :: zip_cycle xs' ys cur'
      | [] =>
          match ys with
          | [] => []
          | y :: ys' => (x, y) :: zip_cycle xs' ys ys'
          end
      end
  end.

(** The per-epoch choice of the phi objective (lines 146-168 of [train]):
    the pair [(wake_psi_epoch, reparam_epoch)].  [int(n_epochs / 3)] is
    [n_epochs / 3] rounded down, [n_epochs] being a natural number. *)
Definition wake_phi_epoch (wake_psi : string) (reparam_wphi : bool)
    (n_epochs epoch : nat) : string * bool :=
  if String.eqb wake_psi "REVKL+CUBO" then
    if epoch <=? n_epochs / 3 then ("REVKL", false) else ("CUBO", true)
  else if String.eqb wake_psi "ELBO+CUBO" then
    (if epoch <=? n_epochs / 3 then "ELBO" else "CUBO", true)
  else if String.eqb wake_psi "ELBO+REVKL" then
    if epoch <=? n_epochs / 3 then ("ELBO", true) else ("REVKL", false)
  else (wake_psi, reparam_wphi).

(** Lines 74-76 of [train]: the sample counts the loss calls receive. *)
Definition resolve_n_samples (n_samples n_samples_phi n_samples_theta : option nat)
  : option nat * option nat :=
  match n_samples with
  | Some _ => (n_samples, n_samples)
  | None => (n_samples_theta, n_samples_phi)
  end.

(** What the trainer runs against.  Tensors are opaque but for their
    shape; [tensor_cat] is [torch.cat]; [model_inference_at],
    [model_cubo_at] and [model_iwelbo_at] are the methods [inference],
    [cubo] and [iwelbo] of [self.model], and [log_ratios] the combination
    of log-densities of lines 261-269.  The parameters of the model
    change at every optimizer step and its mode at every call of
    [inference]: its methods take the log of the run so far.
    [loader_batch_size] is the [batch_size] the loaders were built with. *)
Record Env (tensor : Type) : Type := {
  tensor_shape : tensor -> list nat;
  tensor_cat : list tensor -> nat -> result tensor;
  model_inference_at : list event -> tensor -> option tensor -> nat -> dict tensor;
  log_ratios : dict tensor -> tensor;
  model_cubo_at : list event -> tensor -> dict tensor -> tensor;
  model_iwelbo_at : list event -> tensor -> dict tensor -> tensor;
  loader_batch_size : nat
}.

Section Trainer.
Variable tensor : Type.
Variable env : Env tensor.

(** The trainer: [dataset.labelled_fraction], the loaders with their
    batches [(x, y)], [self.iterate], [self.metrics], the [training] flag
    of [self.model] and the log. *)
Record MnistTrainer : Type := {
  labelled_fraction : Q;
  train_loader : list (tensor * tensor);
  train_annotated_loader : list (tensor * tensor);
  iterate : nat;
  metrics : Metrics;
  training : bool;
  log : list event
}.

Definition MnistTrainer_init (lf : Q) (train annotated : list (tensor * tensor))
    (model_training : bool) : MnistTrainer :=
  {| labelled_fraction := lf; train_loader := train; train_annotated_loader := annotated;
     iterate := 0;
     metrics := {| train_theta_wake := []; train_phi_wake := []; train_phi_sleep := [];
                   train_loss := []; classification_loss := []; train_cubo := [] |};
     training := model_training; log := [] |}.

Definition record_event (ev : event) (self : MnistTrainer) : MnistTrainer :=
  {| labelled_fraction := labelled_fraction self; train_loader := train_loader self;
     train_annotated_loader := train_annotated_loader self; iterate := iterate self;
     metrics := metrics self; training := training self; log := ev :: log self |}.

Definition set_training (b : bool) (self : MnistTrainer) : MnistTrainer :=
  {| labelled_fraction := labelled_fraction self; train_loader := train_loader self;
     train_annotated_loader := train_annotated_loader self; iterate := iterate self;
     metrics := metrics self; training := b; log := log self |}.

Definition append_metric (k : metric_key) (self : MnistTrainer) : MnistTrainer :=
  {| labelled_fraction := labelled_fraction self; train_loader := train_loader self;
     train_annotated_loader := train_annotated_loader self; iterate := iterate self;
     metrics := metrics_append k (iterate self) (metrics self);
     training := training self; log := log self |}.

Definition incr_iterate (self : MnistTrainer) : MnistTrainer :=
  {| labelled_fraction := labelled_fraction self; train_loader := train_loader self;
     train_annotated_loader := train_annotated_loader self; iterate := S (iterate self);
     metrics := metrics self; training := training self; log := log self |}.

(** Lines 242-245 of [inference]: the model is put in evaluation mode
    ([eval_mode], the default) or in training mode.  Nothing in
    [inference] sets the mode back. *)
Definition inference_mode (eval_mode : bool) (self : MnistTrainer) : MnistTrainer :=
  record_event (EInference eval_mode)
    (set_training (if eval_mode then false else true) self).

(** [inference]: sets the mode of the model, then evaluates the loader
    batch by batch and concatenates what it collected (lines 246-295,
    [MnistInference.inference_results]).  What the loop or [dic_concat]
    raises leaves [inference]. *)
Definition inference (data_loader : list (tensor * tensor)) (do_supervised : bool)
    (keys : option (list string)) (n_samples : nat) (eval_mode : bool)
    (self : MnistTrainer) : result (MnistTrainer * dict tensor) :=
  let self1 := inference_mode eval_mode self in
  (all_res <- inference_results (tensor_shape env) (tensor_cat env)
                (model_inference_at env (log self1)) (log_ratios env)
                (model_cubo_at env (log self1)) (model_iwelbo_at env (log self1))
                data_loader (loader_batch_size env) do_supervised keys n_samples ;;
   Ok (self1, all_res))%result.

(** Which of [l_u], [l_s] make up [j] in [loss]. *)
Inductive objective : Type := JAll | JSupervised | JUnsupervised.

(** The value [loss] returns, [j + classification_ratio * l_class]. *)
Record loss_value : Type := {
  j_term : objective;
  ratio : Q
}.

(** Lines 227-233 of [loss]: every hundredth iteration the classification
    loss is recorded, the training loader is evaluated and the mean of
    its CUBO recorded. *)
Definition record_metrics (self : MnistTrainer) : result MnistTrainer :=
  if iterate self mod 100 =? 0 then
    let self1 := append_metric KClassification self in
    (' (self2, other_metrics) <- inference (train_loader self1) false (Some ["CUBO"]) 10
                                   true self1 ;;
     _ <- dict_item "CUBO" other_metrics ;;
     Ok (append_metric KCubo self2))%result
  else Ok self.

Definition loss (loss_type : string) (n_samples : option nat) (reparam : bool)
    (classification_ratio : Q) (mode : string) (self : MnistTrainer)
  : result (MnistTrainer * loss_value) :=
  (s_every <- (if Qeq_bool (labelled_fraction self) 0 then Raise ZeroDivisionError
               else Ok (py_int (1 / labelled_fraction self)%Q)) ;;
   j <- (if String.eqb mode "all" then Ok JAll
         else if String.eqb mode "alternate" then
           if (s_every =? 0)%Z then Raise ZeroDivisionError
           else if (Z.of_nat (iterate self) mod s_every =? 0)%Z then Ok JSupervised
           else Ok JUnsupervised
         else Raise (ValueError (String.append "Mode "
                                   (String.append mode " not recognized")))) ;;
   self' <- record_metrics self ;;
   Ok (self', {| j_term := j; ratio := classification_ratio |}))%result.

(** *** The trace of a run

    Definitions used to state what [train] logs. *)

(** The trainer after a call of [loss] that returns: every hundredth
    iteration it has recorded two metrics and run [inference]. *)
Definition after_loss (s : MnistTrainer) : MnistTrainer :=
  if iterate s mod 100 =? 0
  then append_metric KCubo (inference_mode true (append_metric KClassification s))
  else s.

(** The evaluation [loss] asks for every hundredth iteration,
    [self.inference(self.train_loader, keys=["CUBO"], n_samples=10)],
    with the model as the run [h] has left it. *)
Definition train_cubo_results (h : list event) (loader : list (tensor * tensor))
  : result (dict tensor) :=
  inference_results (tensor_shape env) (tensor_cat env) (model_inference_at env h)
    (log_ratios env) (model_cubo_at env h) (model_iwelbo_at env h)
    loader (loader_batch_size env) false (Some ["CUBO"]) 10.

(** That evaluation returns a dictionary with a CUBO, whatever the run so
    far. *)
Definition cubo_evaluates (loader : list (tensor * tensor)) : Prop :=
  forall h : list event, exists all_res c,
    train_cubo_results h loader = Ok all_res /\ dict_get "CUBO" all_res = Some c.

(** That evaluation raises [ex], whatever the run so far. *)
Definition cubo_raises (loader : list (tensor * tensor)) (ex : exn) : Prop :=
  forall h : list event, train_cubo_results h loader = Raise ex.

(** [model.training] when the optimizer steps: the loss call before the
    step has run [inference] when the iteration count is a multiple of 100. *)
Definition mode_at_step (s : MnistTrainer) : bool :=
  if iterate s mod 100 =? 0 then false else training s.

(** The events one pass of the loop body adds, newest first. *)
Definition batch_events (n_epochs : nat) (overall_loss : option string)
    (wake_theta wake_psi : string) (n_samples n_samples_phi n_samples_theta : option nat)
    (update_mode : string) (reparam_wphi : bool) (epoch : nat) (s : MnistTrainer) : list event :=
  let inf := if iterate s mod 100 =? 0 then [EInference true] else [] in
  let tr := mode_at_step s in
  match overall_loss with
  | Some ol => [EStep Overall tr] ++ inf ++ [ELoss epoch Overall ol n_samples true update_mode]
  | None =>
      let k := resolve_n_samples n_samples n_samples_phi n_samples_theta in
      let o := wake_phi_epoch wake_psi reparam_wphi n_epochs epoch in
      [EStep WakePhi tr] ++ inf ++ [ELoss epoch WakePhi (fst o) (snd k) (snd o) "all"]
      ++ [EStep WakeTheta tr] ++ inf ++ [ELoss epoch WakeTheta wake_theta (fst k) true "all"]
  end.

Section Train.
Variable n_epochs : nat.
Variable overall_loss : option string.
Variables wake_theta wake_psi : string.
Variables n_samples n_samples_phi n_samples_theta : option nat.
Variable classification_ratio : Q.
Variable update_mode : string.
Variable reparam_wphi : bool.

(** The body of the inner loop of [train] for one pair of batches. *)
Definition train_batch (epoch : nat) (tensors : (tensor * tensor) * (tensor * tensor))
    (self : MnistTrainer) : result MnistTrainer :=
  let (n_samples_theta', n_samples_phi') :=
    resolve_n_samples n_samples n_samples_phi n_samples_theta in
  (match overall_loss with
   | Some ol =>
       ' (self1, _) <- loss ol n_samples true classification_ratio update_mode
                         (record_event (ELoss epoch Overall ol n_samples true update_mode) self) ;;
       let self2 := record_event (EStep Overall (training self1)) self1 in
       let self3 := if iterate self2 mod 100 =? 0
                    then append_metric KTrainLoss self2 else self2 in
       Ok (incr_iterate self3)
   | None =>
       ' (self1, _) <- loss wake_theta n_samples_theta' true classification_ratio "all"
                         (record_event
                            (ELoss epoch WakeTheta wake_theta n_samples_theta' true "all") self) ;;
       let self2 := record_event (EStep WakeTheta (training self1)) self1 in
       let self3 := if iterate self2 mod 100 =? 0
                    then append_metric KThetaWake self2 else self2 in
       let (wake_psi_epoch, reparam_epoch) :=
         wake_phi_epoch wake_psi reparam_wphi n_epochs epoch in
       ' (self4, _) <- loss wake_psi_epoch n_samples_phi' reparam_epoch
                         classification_ratio "all"
                         (record_event
                            (ELoss epoch WakePhi wake_psi_epoch n_samples_phi'
                               reparam_epoch "all") self3) ;;
       let self5 := record_event (EStep WakePhi (training self4)) self4 in
       let self6 := if iterate self5 mod 100 =? 0
                    then append_metric KPhiWake self5 else self5 in
       Ok (incr_iterate self6)
   end)%result.

Definition train_epoch (epoch : nat) (self : MnistTrainer) : result MnistTrainer :=
  for_each (train_batch epoch)
    (zip_cycle (train_loader self) (train_annotated_loader self)
       (train_annotated_loader self)) self.

Definition train (self : MnistTrainer) : result MnistTrainer :=
  (_ <- py_assert (String.eqb update_mode "all" || String.eqb update_mode "alternate") ;;
   _ <- py_assert (Bool.eqb (is_none n_samples_phi) (is_none n_samples_theta)) ;;
   for_each train_epoch (seq 0 n_epochs) self)%result.

End Train.
End Trainer.

(** The schedule of the phi objective as the specification words it: the
    loss type and the reparametrisation flag of epoch [e]. *)
Definition phi_schedule_spec (wake_psi : string) (reparam_wphi : bool) (n_epochs e : nat)
    (loss_type : string) (reparam : bool) : Prop :=
  (wake_psi = "REVKL+CUBO" ->
     (e <= n_epochs / 3 -> loss_type = "REVKL" /\ reparam = false) /\
     (n_epochs / 3 < e -> loss_type = "CUBO" /\ reparam = true)) /\
  (wake_psi = "ELBO+CUBO" ->
     reparam = true /\
     (e <= n_epochs / 3 -> loss_type = "ELBO") /\
     (n_epochs / 3 < e -> loss_type = "CUBO")) /\
  (wake_psi = "ELBO+REVKL" ->
     (e <= n_epochs / 3 -> loss_type = "ELBO" /\ reparam = true) /\
     (n_epochs / 3 < e -> loss_type = "REVKL" /\ reparam = false)) /\
  (wake_psi <> "REVKL+CUBO" -> wake_psi <> "ELBO+CUBO" -> wake_psi <> "ELBO+REVKL" ->
     loss_type = wake_psi /\ reparam = reparam_wphi).

(** Tensors reduced to their shape, loaders of the given batch size and
    a model whose CUBO has one entry per cell of the batch. *)
Definition example_env (batch_size : nat) : Env (list nat) :=
  {| tensor_shape := fun t => t;
     tensor_cat := fun li dim =>
       match li with
       | [] => Raise (RuntimeError "expected a non-empty list of Tensors")
       | t :: _ => Ok (firstn dim t ++ [list_sum (map (fun u => nth dim u 0) li)]
                         ++ skipn (S dim) t)
       end;
     model_inference_at := fun _ _ _ _ => [];
     log_ratios := fun _ => [];
     model_cubo_at := fun _ _ res =>
       match dict_get "y" res with
       | Some y => y
       | None => []
       end;
     model_iwelbo_at := fun _ _ _ => [];
     loader_batch_size := batch_size |}.

(** A batch of two cells: [x] of shape (2, 3), [y] of shape (2). *)
Definition example_batch : list nat * list nat := ([2; 3], [2]).

(** A fresh trainer over two batches and one labelled batch, and its
    state after two epochs of wake-wake training with loaders of batch
    size 2. *)
Definition example_trainer : MnistTrainer (list nat) :=
  MnistTrainer_init (1 # 10) [example_batch; example_batch] [example_batch] true.

Definition example_final : MnistTrainer (list nat) :=
  Eval vm_compute in
    match train (example_env 2) 2 None "ELBO" "ELBO+REVKL" None (Some 3) (Some 4) 50%Q
            "all" true example_trainer with
    | Ok s => s
    | Raise _ => example_trainer
    end.

End MnistTrainer.

(** ** Tensors over the reals

    The part of [torch] and [numpy] the modelled code uses, with exact
    real arithmetic in place of floating point.  Shapes are the lengths
    of the lists; an operation [torch] refuses on a shape mismatch raises
    [RuntimeError]. *)

Module Tensor.

Local Open Scope R_scope.

Definition vec : Type := list R.
Definition mat : Type := list (list R).

(** A tensor that is 0-dimensional ([torch.tensor(0.0)]) or 1-dimensional. *)
Inductive tens01 : Type :=
| T0 (r : R)
| T1 (v : vec).

Definition Rsum (v : vec) : R := fold_right Rplus 0 v.

(** [v.mean()]. *)
Definition mean (v : vec) : R := Rsum v / INR (List.length v).

Definition mean01 (t : tens01) : R :=
  match t with
  | T0 r => r
  | T1 v => mean v
  end.

(** [m.sum(dim=1)]. *)
Definition sum_dim1 (m : mat) : vec := map Rsum m.

Fixpoint map2 {A B C : Type} (f : A -> B -> C) (a : list A) (b : list B) : list C :=
  match a, b with
  | x :: a', y :: b' => f x y :: map2 f a' b'
  | _, _ => []
  end.

Fixpoint map3 {A B C D : Type} (f : A -> B -> C -> D)
    (a : list A) (b : list B) (c : list C) : list D :=
  match a, b, c with
  | x :: a', y :: b', z :: c' => f x y z :: map3 f a' b' c'
  | _, _, _ => []
  end.

(** Broadcasting along one dimension: equal sizes pair up, a size of one
    is repeated, anything else is a shape error. *)
Definition bzip {A B C : Type} (f : A -> B -> result C) (a : list A) (b : list B)
  : result (list C) :=
  if (List.length a =? List.length b)%nat then mapM (fun p => f (fst p) (snd p)) (combine a b)
  else match a, b with
       | [x], _ => mapM (f x) b
       | _, [y] => mapM (fun x => f x y) a
       | _, _ => Raise (RuntimeError "The size of tensor a must match the size of tensor b")
       end.

(** [a + b] on 1-D tensors and [a * b] on 2-D tensors. *)
Definition badd (a b : vec) : result vec := bzip (fun x y => Ok (x + y)) a b.
Definition bmul (a b : mat) : result mat := bzip (bzip (fun x y => Ok (x * y))) a b.

(** [a += b] on 1-D tensors: [b] is broadcast to the shape of [a]. *)
Definition iadd (a b : vec) : result vec :=
  if (List.length b =? List.length a)%nat then Ok (map2 Rplus a b)
  else match b with
       | [y] => Ok (map (fun x => x + y) a)
       | _ => Raise (RuntimeError "output with shape of a doesn't match the broadcast shape")
       end.

Definition iadd01 (a : vec) (b : tens01) : result vec :=
  match b with
  | T0 r => Ok (map (fun x => x + r) a)
  | T1 v => iadd a v
  end.

(** The rows of [v.view(n, -1)], each of [k] entries. *)
Fixpoint chunks (k n : nat) (v : vec) : mat :=
  match n with
  | O => []
  | S n' => firstn k v :: chunks k n' (skipn k v)
  end.

(** [v.view(n, -1)]. *)
Definition view (n : nat) (v : vec) : result mat :=
  if (n =? 0)%nat || (List.length v =? 0)%nat || negb (List.length v mod n =? 0)%nat
  then Raise (RuntimeError "shape is invalid for input")
  else Ok (chunks (List.length v / n) n v).

Definition ncols (m : mat) : nat := List.length (hd [] m).

(** [m.t()]. *)
Definition transpose (m : mat) : mat :=
  map (fun j => map (fun row => nth j row 0) m) (seq 0 (ncols m)).

(** [torch.cat((a, b), dim=-1)]. *)
Definition cat_dim1 (a b : mat) : result mat :=
  if (List.length a =? List.length b)%nat then Ok (map2 (@app R) a b)
  else Raise (RuntimeError "Sizes of tensors must match except in dimension 1").

(** [torch.split(m, 1, dim=1)]: the columns of [m]. *)
Definition split_cols (m : mat) : list mat :=
  map (fun j => map (fun row => [nth j row 0]) m) (seq 0 (ncols m)).

(** [m[:, [i]]]. *)
Definition column (m : mat) (i : nat) : result mat :=
  mapM (fun row => match nth_error row i with
                   | Some v => Ok [v]
                   | None => Raise IndexError
                   end) m.

(** Indexing by a [uint8] mask keeps the entries whose mask byte is not 0. *)
Fixpoint mask_select (row : vec) (mask : list Z) : vec :=
  match row, mask with
  | x :: row', b :: mask' =>
      if (b =? 0)%Z then mask_select row' mask' else x :: mask_select row' mask'
  | _, _ => []
  end.

(** Assignment through a mask: the selected entries take the values of
    [vals], in order. *)
Fixpoint mask_assign (row : vec) (mask : list Z) (vals : vec) : result vec :=
  match row, mask with
  | [], [] => match vals with
              | [] => Ok []
              | _ => Raise (RuntimeError "shape mismatch: value tensor")
              end
  | x :: row', b :: mask' =>
      if (b =? 0)%Z then bind (mask_assign row' mask' vals) (fun r => Ok (x :: r))
      else match vals with
           | v :: vals' => bind (mask_assign row' mask' vals') (fun r => Ok (v :: r))
           | [] => Raise (RuntimeError "shape mismatch: value tensor")
           end
  | _, _ => Raise IndexError
  end.

(** [m[:, mask]]. *)
Definition index_cols (m : mat) (mask : list Z) : result mat :=
  mapM (fun row => if (List.length row =? List.length mask)%nat then Ok (mask_select row mask)
                   else Raise IndexError) m.

(** [m[:, mask] = vals]. *)
Definition assign_cols (m : mat) (mask : list Z) (vals : mat) : result mat :=
  if (List.length m =? List.length vals)%nat
  then mapM (fun p => mask_assign (fst p) mask (snd p)) (combine m vals)
  else Raise (RuntimeError "shape mismatch: value tensor").

(** [torch.zeros_like(m)] and [torch.ones_like(m)]. *)
Definition zeros_like (m : mat) : mat := map (map (fun _ => 0)) m.
Definition ones_like (m : mat) : mat := map (map (fun _ => 1)) m.

(** *** [torch.distributions] *)

(** One entry of [Normal(loc, scale).log_prob(value)]. *)
Definition normal_log_prob (loc scale value : R) : R :=
  - ((value - loc) ^ 2) / (2 * scale ^ 2) - ln scale - ln (sqrt (2 * PI)).

(** One entry of [kl(Normal(m1, s1), Normal(m2, s2))]. *)
Definition normal_kl (m1 s1 m2 s2 : R) : R :=
  let var_ratio := (s1 / s2) ^ 2 in
  let t1 := ((m1 - m2) / s2) ^ 2 in
  (1 / 2) * (var_ratio + t1 - 1 - ln var_ratio).

Definition mat_sqrt (m : mat) : mat := map (map sqrt) m.

(** [Normal(loc, scale).log_prob(value)] on 2-D tensors of one shape. *)
Definition Normal_log_prob (loc scale value : mat) : mat :=
  map3 (map3 normal_log_prob) loc scale value.

(** [kl(Normal(m1, s1), Normal(m2, s2))] on 2-D tensors of one shape. *)
Definition Normal_kl (m1 s1 m2 s2 : mat) : mat :=
  map2 (fun p q => map2 (fun a b => normal_kl (fst a) (snd a) (fst b) (snd b))
                     (combine (fst p) (snd p)) (combine (fst q) (snd q)))
    (combine m1 s1) (combine m2 s2).

(** One term [p * (log p - log q)] of the categorical KL divergence, zero
    where [p] is zero.  The prior weights [q] are taken positive: the
    infinite term [torch] returns for [q = 0 < p] has no real value. *)
Definition kl_term (p q : R) : R :=
  if Req_dec_T p 0 then 0 else p * (ln p - ln q).

(** [Categorical(probs=p)] normalises its argument. *)
Definition normalize (p : vec) : vec := map (fun x => x / Rsum p) p.

(** [kl(Categorical(probs=p), Categorical(probs=q))] for one row. *)
Definition kl_categorical_row (p q : vec) : result R :=
  bind (bzip (fun x y => Ok (kl_term x y)) (normalize p) (normalize q))
       (fun t => Ok (Rsum t)).

(** *** Writing through masks *)

Local Close Scope R_scope.

(** Writing [f] of the entries of [u] through a mask. *)
Definition row_set (f : R -> R) (w : vec) (mask : list Z) (u : vec) : vec :=
  map3 (fun wj mj uj => if (mj =? 0)%Z then wj else f uj) w mask u.

(** Masks that select no common entry. *)
Definition disjoint_masks (m1 m2 : list Z) : Prop :=
  forall j, nth j m1 0%Z <> 0%Z -> nth j m2 0%Z = 0%Z.

End Tensor.

(** ** [scvi.external.schanvi.module._schanvae] *)

Module SCHANVAE.

Import Tensor.
Local Open Scope R_scope.

(** What a classifier call returns: one 2-D tensor, or a sequence of
    per-level 2-D tensors.  [classify] uses the value as a tensor in its
    group branch; [loss] takes item [1] of it. *)
Inductive pred : Type :=
| PTensor (m : mat)
| PLevels (levels : list mat).

(** The batch dictionaries [tensors] and [labelled_tensors]. *)
Record Tensors : Type := {
  X_KEY : mat;
  BATCH_KEY : mat;
  LABELS_KEY : list (list nat);
  CONT_COVS_KEY : option mat;
  CAT_COVS_KEY : option mat
}.

Record InferenceOutputs : Type := {
  qz_m : mat;
  qz_v : mat;
  z : mat;
  ql_m : mat;
  ql_v : mat
}.

Record GenerativeOutputs : Type := {
  px_r : mat;
  px_rate : mat;
  px_dropout : mat
}.

(** The sub-modules and the settings inherited from [VAE].  The networks
    are opaque functions of their inputs; a sampled output stands for one
    fixed draw. *)
Record Networks : Type := {
  log_variational : bool;
  encode_covariates : bool;
  use_observed_lib_size : bool;
  z_encoder : mat -> option mat -> list mat -> mat * mat * mat;
  classifier : mat -> pred;
  classifier_groups : mat -> pred;
  encoder_z2_z1 : mat -> mat -> mat * mat * mat;
  decoder_z1_z2 : mat -> mat -> mat * mat;
  get_reconstruction_loss : mat -> mat -> mat -> mat -> vec;
  _compute_local_library_params : mat -> mat * mat;
  calculate_dloss : pred -> list (list nat) -> R;
  calculate_lloss : pred -> list (list nat) -> R
}.

(** The attributes [__init__] sets.  [groups] holds [n_groups] and
    [groups_index], which exist only when [use_labels_groups] is set. *)
Record SCHANVAE : Type := {
  nets : Networks;
  n_version : Z;
  num_classes : list nat;
  n_labels : nat;
  y_prior : vec;
  use_labels_groups : bool;
  labels_groups : option (list Z);
  groups : option (nat * list (list Z))
}.

(** [np.unique]: the sorted distinct values. *)
Fixpoint insert_unique (x : Z) (l : list Z) : list Z :=
  match l with
  | [] => [x]
  | y :: t =>
      if (x <? y)%Z then x :: l
      else if (x =? y)%Z then l
      else y :: insert_unique x t
  end.

Definition np_unique (l : list Z) : list Z := fold_right insert_unique [] l.

Definition np_arange (n : nat) : list Z := map Z.of_nat (seq 0 n).

(** [(a == b).all()] for arrays of one length. *)
Definition all_eq (a b : list Z) : bool :=
  forallb (fun p => (fst p =? snd p)%Z) (combine a b).

(** [(labels_groups == i).astype(np.uint8)]. *)
Definition group_mask (labels_groups : list Z) (i : nat) : list Z :=
  map (fun g => if (g =? Z.of_nat i)%Z then 1%Z else 0%Z) labels_groups.

(** Lines 166-192 of [__init__]. *)
Definition init_groups (use_labels_groups : bool) (labels_groups : option (list Z))
  : result (option (nat * list (list Z))) :=
  if use_labels_groups then
    match labels_groups with
    | None => Raise (ValueError "Specify label groups")
    | Some lg =>
        let unique_groups := np_unique lg in
        let n_groups := List.length unique_groups in
        if negb (all_eq unique_groups (np_arange n_groups)) then Raise (ValueError "")
        else Ok (Some (n_groups, map (group_mask lg) (seq 0 n_groups)))
    end
  else Ok None.

(** [__init__], after [super().__init__] and with the sub-modules [nw]
    the constructors return. *)
Definition SCHANVAE_init (nw : Networks) (num_classes : list nat) (y_prior : option vec)
    (labels_groups : option (list Z)) (use_labels_groups : bool) (n_version : Z)
  : result SCHANVAE :=
  (n_labels <- match nth_error num_classes (List.length num_classes - 1) with
               | Some n => Ok n
               | None => Raise IndexError
               end ;;
   y_prior' <- match y_prior with
               | Some p => Ok p
               | None => if (n_labels =? 0)%nat then Raise ZeroDivisionError
                         else Ok (repeat (1 / INR n_labels) n_labels)
               end ;;
   g <- init_groups use_labels_groups labels_groups ;;
   Ok {| nets := nw; n_version := n_version; num_classes := num_classes;
         n_labels := n_labels; y_prior := y_prior';
         use_labels_groups := use_labels_groups; labels_groups := labels_groups;
         groups := g |})%result.

(** *** [classify] *)

(** Lines 196-212: the latent mean the classifiers are applied to. *)
Definition classify_latent (self : SCHANVAE) (x : mat) (batch_index cont_covs cat_covs : option mat)
  : result mat :=
  let x := if log_variational (nets self) then map (map (fun v => ln (1 + v))) x else x in
  (encoder_input <- match cont_covs with
                    | Some c => if encode_covariates (nets self) then cat_dim1 x c else Ok x
                    | None => Ok x
                    end ;;
   let categorical_input :=
     match cat_covs with
     | Some c => if encode_covariates (nets self) then split_cols c else []
     | None => []
     end in
   let '(qz_m, _, _) := z_encoder (nets self) encoder_input batch_index categorical_input in
   Ok qz_m)%result.

(** One turn of the loop over [enumerate(self.groups_index)]. *)
Definition group_step (w_g : pred) (unw_y : mat) (i : nat) (group_index : list Z) (w_y : mat)
  : result mat :=
  (unw_y_g <- index_cols unw_y group_index ;;
   let normed := map (fun row => map (fun v => v / (Rsum row + 1 / 100000000)) row) unw_y_g in
   w_y1 <- assign_cols w_y group_index normed ;;
   cur <- index_cols w_y1 group_index ;;
   w_g_i <- match w_g with
            | PTensor m => column m i
            | PLevels _ => Raise TypeError
            end ;;
   scaled <- bmul cur w_g_i ;;
   assign_cols w_y1 group_index scaled)%result.

Fixpoint group_loop (w_g : pred) (unw_y : mat) (i : nat) (groups_index : list (list Z))
    (w_y : mat) : result mat :=
  match groups_index with
  | [] => Ok w_y
  | group_index :: rest =>
      bind (group_step w_g unw_y i group_index w_y) (group_loop w_g unw_y (S i) rest)
  end.

Definition classify (self : SCHANVAE) (x : mat) (batch_index cont_covs cat_covs : option mat)
  : result pred :=
  (z <- classify_latent self x batch_index cont_covs cat_covs ;;
   if use_labels_groups self then
     let w_g := classifier_groups (nets self) z in
     match classifier (nets self) z with
     | PLevels _ => Raise TypeError
     | PTensor unw_y =>
         match groups self with
         | None => Raise AttributeError
         | Some (_, groups_index) =>
             w_y <- group_loop w_g unw_y 0 groups_index (zeros_like unw_y) ;;
             Ok (PTensor w_y)
         end
     end
   else Ok (classifier (nets self) z))%result.

(** *** [classification_loss] *)

(** [y[:, i]] for each level [i] of the hierarchy. *)
Definition level_labels (y : list (list nat)) (total_level : nat) : result (list (list nat)) :=
  mapM (fun i => mapM (fun row => match nth_error row i with
                                  | Some l => Ok l
                                  | None => Raise IndexError
                                  end) y) (seq 0 total_level).

Definition classification_loss (self : SCHANVAE) (labelled_dataset : Tensors) : result R :=
  (predictions <- classify self (X_KEY labelled_dataset) (Some (BATCH_KEY labelled_dataset))
                    (CONT_COVS_KEY labelled_dataset) (CAT_COVS_KEY labelled_dataset) ;;
   true_labels <- level_labels (LABELS_KEY labelled_dataset) (List.length (num_classes self)) ;;
   let dloss := calculate_dloss (nets self) predictions true_labels in
   let lloss := calculate_lloss (nets self) predictions true_labels in
   Ok (dloss + lloss))%result.

(** *** [loss] *)

(** [y[:, -1]]: the finest-level label of each cell. *)
Definition last_label (y : list (list nat)) : result (list nat) :=
  mapM (fun row => match row with
                   | [] => Raise IndexError
                   | _ => Ok (last row 0%nat)
                   end) y.

Definition one_hot_row (n c : nat) : vec :=
  map (fun k => if (k =? c)%nat then 1 else 0) (seq 0 n).

(** Modelled from the spec: [broadcast_labels] of [scvi.module._utils],
    which is not among the sources.  Without labels it enumerates the
    [n_broadcast] label values, each as a block of one-hot rows, one per
    cell, and repeats the reference tensor [n_broadcast] times ("if z1 is
    of size (batch_size,latent), z1_s is of size (n_labels*batch_size,
    latent)"); with labels it returns their one-hot encoding and the
    reference tensor unchanged. *)
Definition broadcast_labels (y : option (list nat)) (o : mat) (n_broadcast : nat)
  : mat * mat :=
  match y with
  | None =>
      (flat_map (fun c => repeat (one_hot_row n_broadcast c) (List.length o))
         (seq 0 n_broadcast),
       List.concat (repeat o n_broadcast))
  | Some l => (map (one_hot_row n_broadcast) l, o)
  end.

(** Lines 295-308: [kl_divergence_z2]. *)
Definition kl_divergence_z2_of (self : SCHANVAE) (z1s ys : mat) : vec :=
  let '(qz2_m, qz2_v, _) := encoder_z2_z1 (nets self) z1s ys in
  let mean := zeros_like qz2_m in
  let scale := ones_like qz2_v in
  sum_dim1 (Normal_kl qz2_m (mat_sqrt qz2_v) mean scale).

(** Lines 295-310: [loss_z1_unweight]. *)
Definition loss_z1_unweight_of (self : SCHANVAE) (z1s ys : mat) : vec :=
  let '(_, _, z2) := encoder_z2_z1 (nets self) z1s ys in
  let '(pz1_m, pz1_v) := decoder_z1_z2 (nets self) z2 ys in
  map Ropp (sum_dim1 (Normal_log_prob pz1_m (mat_sqrt pz1_v) z1s)).

(** Line 313: [loss_z1_weight]. *)
Definition loss_z1_weight_of (inference_outputs : InferenceOutputs) : vec :=
  sum_dim1 (Normal_log_prob (qz_m inference_outputs) (mat_sqrt (qz_v inference_outputs))
              (z inference_outputs)).

(** Lines 315-328: [kl_divergence_l]. *)
Definition kl_divergence_l_of (self : SCHANVAE) (tensors : Tensors)
    (inference_outputs : InferenceOutputs) : tens01 :=
  if negb (use_observed_lib_size (nets self)) then
    let '(local_library_log_means, local_library_log_vars) :=
      _compute_local_library_params (nets self) (BATCH_KEY tensors) in
    T1 (sum_dim1 (Normal_kl (ql_m inference_outputs) (mat_sqrt (ql_v inference_outputs))
                    local_library_log_means (mat_sqrt local_library_log_vars)))
  else T0 0.

(** [self.classifier(z1)[1]]: item 1 of a sequence of levels, or row 1 of
    a tensor. *)
Inductive probs_t : Type :=
| P2 (m : mat)
| P1 (v : vec).

Definition index1 (p : pred) : result probs_t :=
  match p with
  | PLevels l => match nth_error l 1 with
                 | Some m => Ok (P2 m)
                 | None => Raise IndexError
                 end
  | PTensor m => match nth_error m 1 with
                 | Some v => Ok (P1 v)
                 | None => Raise IndexError
                 end
  end.

Definition size0 (p : probs_t) : nat :=
  match p with
  | P2 m => List.length m
  | P1 v => List.length v
  end.

Definition mul_probs (a : mat) (p : probs_t) : result mat :=
  match p with
  | P2 m => bmul a m
  | P1 v => bmul a [v]
  end.

(** [kl(Categorical(probs=probs), Categorical(probs=q))], one entry for
    each row of [q]. *)
Definition kl_categorical (p : probs_t) (q : mat) : result vec :=
  match p with
  | P2 m => bzip kl_categorical_row m q
  | P1 v => mapM (kl_categorical_row v) q
  end.

(** [(v.view(self.n_labels, -1).t() * probs).sum(dim=1)]. *)
Definition weight_by_probs (n_labels : nat) (v : vec) (probs : probs_t) : result vec :=
  (rows <- view n_labels v ;;
   w <- mul_probs (transpose rows) probs ;;
   Ok (sum_dim1 w))%result.

(** [kl_local] is a dictionary on one path and a tensor on the others. *)
Inductive kl_local_t : Type :=
| KLDict (kl_divergence_z2 : vec) (kl_divergence_l : tens01)
| KLTensor (kl_divergence : vec).

Record LossRecorder : Type := {
  loss_total : R;
  reconstruction_loss : vec;
  kl_local : kl_local_t;
  loss_z1_weight_mean : R;
  loss_z1_unweight_mean : R;
  kl_divergence_z2_mean : R;
  kl_divergence_l_mean : R;
  kl_divergence_cat_mean : option R;
  classification_loss_rec : option R;
  n_labelled_tensors : option nat
}.

(** [classifier_loss * classification_ratio], the ratio defaulting to
    [None]. *)
Definition times_ratio (classifier_loss : R) (classification_ratio : option R) : result R :=
  match classification_ratio with
  | Some r => Ok (classifier_loss * r)
  | None => Raise TypeError
  end.

(** Lines 363-380: the probability-weighted terms.  Returns [loss], the
    updated [reconst_loss], [kl_divergence] and [kl_divergence_cat]. *)
Definition marginal_terms (self : SCHANVAE) (z1 : mat)
    (reconst_loss kl_divergence_z2 loss_z1_unweight loss_z1_weight : vec)
    (kl_divergence_l : tens01) (kl_weight : R) : result (R * vec * vec * vec) :=
  (probs <- index1 (classifier (nets self) z1) ;;
   w_unweight <- weight_by_probs (n_labels self) loss_z1_unweight probs ;;
   rhs <- badd loss_z1_weight w_unweight ;;
   reconst_loss <- iadd reconst_loss rhs ;;
   kl_divergence <- weight_by_probs (n_labels self) kl_divergence_z2 probs ;;
   kl_divergence_cat <- kl_categorical probs (repeat (y_prior self) (size0 probs)) ;;
   kl_divergence <- iadd kl_divergence kl_divergence_cat ;;
   kl_divergence <- iadd01 kl_divergence kl_divergence_l ;;
   total <- badd reconst_loss (map (fun k => k * kl_weight) kl_divergence) ;;
   Ok (mean total, reconst_loss, kl_divergence, kl_divergence_cat))%result.

(** Lines 361-413: the objective for an unobserved label. *)
Definition loss_marginal (self : SCHANVAE) (z1 : mat)
    (reconst_loss kl_divergence_z2 loss_z1_unweight loss_z1_weight : vec)
    (kl_divergence_l : tens01) (kl_weight : R)
    (labelled_tensors : option Tensors) (classification_ratio : option R)
  : result LossRecorder :=
  (terms <- marginal_terms self z1 reconst_loss kl_divergence_z2 loss_z1_unweight
              loss_z1_weight kl_divergence_l kl_weight ;;
   let '(loss, reconst_loss, kl_divergence, kl_divergence_cat) := terms in
   let recorder (loss : R) (classifier_loss : option R) :=
     {| loss_total := loss; reconstruction_loss := reconst_loss;
        kl_local := KLTensor kl_divergence;
        loss_z1_weight_mean := mean loss_z1_weight;
        loss_z1_unweight_mean := mean loss_z1_unweight;
        kl_divergence_z2_mean := mean kl_divergence_z2;
        kl_divergence_l_mean := mean01 kl_divergence_l;
        kl_divergence_cat_mean := Some (mean kl_divergence_cat);
        classification_loss_rec := classifier_loss;
        n_labelled_tensors := None |} in
   match labelled_tensors with
   | Some lt =>
       if (n_version self =? 0)%Z then
         classifier_loss <- classification_loss self lt ;;
         weighted <- times_ratio classifier_loss classification_ratio ;;
         Ok (recorder (loss + weighted) (Some classifier_loss))
       else Ok (recorder loss None)
   | None => Ok (recorder loss None)
   end)%result.

(** Lines 280-287: the labels fed to [broadcast_labels]. *)
Definition fed_labels (feed_labels : bool) (tensors : Tensors) : result (option (list nat)) :=
  if feed_labels
  then bind (last_label (LABELS_KEY tensors)) (fun l => Ok (Some l))
  else Ok None.

Definition loss (self : SCHANVAE) (tensors : Tensors)
    (inference_outputs : InferenceOutputs) (generative_ouputs : GenerativeOutputs)
    (feed_labels : bool) (kl_weight : R)
    (labelled_tensors : option Tensors) (classification_ratio : option R)
  : result LossRecorder :=
  let z1 := z inference_outputs in
  (y <- fed_labels feed_labels tensors ;;
   let '(ys, z1s) := broadcast_labels y z1 (n_labels self) in
   let reconst_loss :=
     get_reconstruction_loss (nets self) (X_KEY tensors) (px_rate generative_ouputs)
       (px_r generative_ouputs) (px_dropout generative_ouputs) in
   let kl_divergence_z2 := kl_divergence_z2_of self z1s ys in
   let loss_z1_unweight := loss_z1_unweight_of self z1s ys in
   let loss_z1_weight := loss_z1_weight_of inference_outputs in
   let kl_divergence_l := kl_divergence_l_of self tensors inference_outputs in
   let marginal :=
     loss_marginal self z1 reconst_loss kl_divergence_z2 loss_z1_unweight loss_z1_weight
       kl_divergence_l kl_weight labelled_tensors classification_ratio in
   match labelled_tensors with
   | Some lt =>
       if (n_version self =? 1)%Z then
         let loss_z1_weight_mean := mean loss_z1_weight in
         let loss_z1_unweight_mean := mean loss_z1_unweight in
         let kl_divergence_z2_mean := mean kl_divergence_z2 in
         let kl_divergence_l_mean := mean01 kl_divergence_l in
         let loss := mean reconst_loss + loss_z1_weight_mean + loss_z1_unweight_mean
                     + kl_weight * (kl_divergence_z2_mean + kl_divergence_l_mean) in
         classifier_loss <- classification_loss self lt ;;
         weighted <- times_ratio classifier_loss classification_ratio ;;
         Ok {| loss_total := loss + weighted; reconstruction_loss := reconst_loss;
               kl_local := KLDict kl_divergence_z2 kl_divergence_l;
               loss_z1_weight_mean := loss_z1_weight_mean;
               loss_z1_unweight_mean := loss_z1_unweight_mean;
               kl_divergence_z2_mean := kl_divergence_z2_mean;
               kl_divergence_l_mean := kl_divergence_l_mean;
               kl_divergence_cat_mean := None;
               classification_loss_rec := Some classifier_loss;
               n_labelled_tensors := Some (List.length (X_KEY lt)) |}
       else marginal
   | None => marginal
   end)%result.

(** *** The objective as the specification words it *)

(** [sum_over n f] is [f 0 + ... + f (n - 1)]. *)
Definition sum_over (n : nat) (f : nat -> R) : R := Rsum (map f (seq 0 n)).

(** The KL divergence of the categorical distribution with weights [p]
    from the one with weights [q]. *)
Definition categorical_kl (p q : vec) : R :=
  sum_over (List.length p)
    (fun c => kl_term (nth c p 0 / Rsum p) (nth c q 0 / Rsum q)).

Definition at01 (t : tens01) (i : nat) : R :=
  match t with
  | T0 r => r
  | T1 v => nth i v 0
  end.

(** Entry [c * B + i] of a broadcast tensor belongs to cell [i] under
    label [c]; [weighted n B probs v i] is the mean of the entries of
    cell [i] under the classifier's probabilities. *)
Definition weighted (n B : nat) (probs : mat) (v : vec) (i : nat) : R :=
  sum_over n (fun c => nth c (nth i probs []) 0 * nth (c * B + i) v 0).

(** The marginalized objective of one cell and of a batch of [B] cells
    with [n] label values. *)
Definition marginalized_cell (n B : nat) (reconst_loss loss_z1_weight loss_z1_unweight
    kl_divergence_z2 : vec) (kl_divergence_l : tens01) (probs : mat) (prior : vec)
    (kl_weight : R) (i : nat) : R :=
  nth i reconst_loss 0 + nth i loss_z1_weight 0 + weighted n B probs loss_z1_unweight i
  + kl_weight * (weighted n B probs kl_divergence_z2 i
                 + categorical_kl (nth i probs []) prior
                 + at01 kl_divergence_l i).

Definition marginalized_loss (n B : nat) (reconst_loss loss_z1_weight loss_z1_unweight
    kl_divergence_z2 : vec) (kl_divergence_l : tens01) (probs : mat) (prior : vec)
    (kl_weight : R) : R :=
  sum_over B (marginalized_cell n B reconst_loss loss_z1_weight loss_z1_unweight
                kl_divergence_z2 kl_divergence_l probs prior kl_weight)
  / INR B.

(** The objective of the variant that combines the means of the terms. *)
Definition mean_combined_loss (reconst_loss loss_z1_weight loss_z1_unweight
    kl_divergence_z2 : vec) (kl_divergence_l : tens01) (kl_weight : R) : R :=
  mean reconst_loss + mean loss_z1_weight + mean loss_z1_unweight
  + kl_weight * (mean kl_divergence_z2 + mean01 kl_divergence_l).

(** The shapes of a batch of [B] cells: every per-cell tensor has [B]
    entries, every broadcast tensor [n_labels * B], and item 1 of the
    classifier's output is a [B] by [n_labels] tensor [probs]. *)
Record batch_shapes (self : SCHANVAE) (tensors : Tensors)
    (inference_outputs : InferenceOutputs) (generative_ouputs : GenerativeOutputs)
    (B : nat) (probs : mat) : Prop := {
  shape_batch : List.length (z inference_outputs) = B;
  shape_cells : (0 < B)%nat;
  shape_labels : (0 < n_labels self)%nat;
  shape_reconst :
    List.length (get_reconstruction_loss (nets self) (X_KEY tensors)
                   (px_rate generative_ouputs) (px_r generative_ouputs)
                   (px_dropout generative_ouputs)) = B;
  shape_weight : List.length (loss_z1_weight_of inference_outputs) = B;
  shape_kl_z2 :
    List.length (kl_divergence_z2_of self
                   (snd (broadcast_labels None (z inference_outputs) (n_labels self)))
                   (fst (broadcast_labels None (z inference_outputs) (n_labels self))))
    = (n_labels self * B)%nat;
  shape_unweight :
    List.length (loss_z1_unweight_of self
                   (snd (broadcast_labels None (z inference_outputs) (n_labels self)))
                   (fst (broadcast_labels None (z inference_outputs) (n_labels self))))
    = (n_labels self * B)%nat;
  shape_kl_l :
    match kl_divergence_l_of self tensors inference_outputs with
    | T0 _ => True
    | T1 v => List.length v = B
    end;
  shape_probs : index1 (classifier (nets self) (z inference_outputs)) = Ok (P2 probs);
  shape_probs_rows : List.length probs = B;
  shape_probs_cols : forall row, In row probs -> List.length row = n_labels self;
  shape_prior : List.length (y_prior self) = n_labels self
}.

(** *** The group branch of [classify], row by row *)

Local Close Scope R_scope.

(** The rows of the group classifier, of the label classifier and of the
    output, taken together. *)
Definition row3 : Type := (vec * vec * vec)%type.
Definition g_of (t : row3) : vec := fst (fst t).
Definition u_of (t : row3) : vec := snd (fst t).
Definition w_of (t : row3) : vec := snd t.

Definition epsilon : R := (1 / 100000000)%R.

(** What one turn of the loop does to one row. *)
Definition group_row (i : nat) (mask : list Z) (t : row3) : row3 :=
  (g_of t, u_of t,
   row_set (fun x => (x / (Rsum (mask_select (u_of t) mask) + epsilon) * nth i (g_of t) 0)%R)
     (w_of t) mask (u_of t)).

Definition row_shape (len : nat) (i : nat) (t : row3) : Prop :=
  List.length (u_of t) = len /\ List.length (w_of t) = len /\ i < List.length (g_of t).

Fixpoint row_loop (i : nat) (masks : list (list Z)) (t : row3) : row3 :=
  match masks with
  | [] => t
  | m :: rest => row_loop (S i) rest (group_row i m t)
  end.

Definition rows_of (w_g unw_y : mat) : list row3 :=
  map2 (fun g u => (g, u, map (fun _ => 0%R) u)) w_g unw_y.

(** *** Example models and batches *)

(** A model whose two classifiers return one tensor each: for every cell
    the label probabilities [1/2, 1/2] and the group probabilities
    [1/2, 1/2]. *)
Definition group_nets : Networks :=
  {| log_variational := false;
     encode_covariates := false;
     use_observed_lib_size := true;
     z_encoder := fun x _ _ => (x, x, x);
     classifier := fun z => PTensor (map (fun _ => [1 / 2; 1 / 2]%R) z);
     classifier_groups := fun z => PTensor (map (fun _ => [1 / 2; 1 / 2]%R) z);
     encoder_z2_z1 := fun z1s _ => (z1s, z1s, z1s);
     decoder_z1_z2 := fun z2 _ => (z2, z2);
     get_reconstruction_loss := fun x _ _ _ => map (fun _ => 0%R) x;
     _compute_local_library_params := fun b => (b, b);
     calculate_dloss := fun _ _ => 0%R;
     calculate_lloss := fun _ _ => 0%R |}.

Definition group_model : SCHANVAE :=
  {| nets := group_nets; n_version := 0; num_classes := [2]; n_labels := 2;
     y_prior := repeat (1 / INR 2)%R 2;
     use_labels_groups := true; labels_groups := Some [0%Z; 1%Z];
     groups := Some (2, [[1%Z; 0%Z]; [0%Z; 1%Z]]) |}.

(** A hierarchical model with two levels, the finest with two labels.
    Its classifier puts all mass on label 0 for every cell, its encoder
    and decoder return standard normal parameters and its hierarchical
    loss is the constant [d]. *)
Definition hier_nets (d : R) : Networks :=
  {| log_variational := false;
     encode_covariates := false;
     use_observed_lib_size := true;
     z_encoder := fun x _ _ => (x, x, x);
     classifier := fun z => PLevels [map (fun _ => [1%R]) z; map (fun _ => [1%R; 0%R]) z];
     classifier_groups := fun z => PTensor z;
     encoder_z2_z1 := fun z1s _ => (zeros_like z1s, ones_like z1s, zeros_like z1s);
     decoder_z1_z2 := fun z2 _ => (zeros_like z2, ones_like z2);
     get_reconstruction_loss := fun x _ _ _ => map (fun _ => 0%R) x;
     _compute_local_library_params := fun b => (b, b);
     calculate_dloss := fun _ _ => d;
     calculate_lloss := fun _ _ => 0%R |}.

Definition hier_model (v : Z) (d : R) : SCHANVAE :=
  {| nets := hier_nets d; n_version := v; num_classes := [1; 2]; n_labels := 2;
     y_prior := repeat (1 / INR 2)%R 2;
     use_labels_groups := false; labels_groups := None; groups := None |}.

(** Two cells, both of label 0 at both levels, with latent values 0 and 2. *)
Definition two_cells : Tensors :=
  {| X_KEY := [[0%R]; [0%R]]; BATCH_KEY := [[0%R]; [0%R]];
     LABELS_KEY := [[0; 0]; [0; 0]]; CONT_COVS_KEY := None; CAT_COVS_KEY := None |}.

Definition two_cells_inference : InferenceOutputs :=
  {| qz_m := [[0%R]; [0%R]]; qz_v := [[1%R]; [1%R]]; z := [[0%R]; [2%R]];
     ql_m := [[0%R]; [0%R]]; ql_v := [[1%R]; [1%R]] |}.

Definition two_cells_generative : GenerativeOutputs :=
  {| px_r := [[0%R]; [0%R]]; px_rate := [[0%R]; [0%R]]; px_dropout := [[0%R]; [0%R]] |}.

End SCHANVAE.

(** ** [scvi.data.fields._mudata]: access to the modality

    [get_modality], [validate_field], [preregister], [register_field] and
    [transfer_field] of [BaseMuDataWrapper].  The wrapped AnnData field
    is an opaque collaborator: its methods are the variables
    [adata_validate_field], [adata_register_field] and
    [adata_transfer_field], which take the name of the field's class. *)

Module MuDataAccess.

Import MuData.

Section Access.
(** AnnData objects, state registries and the keyword arguments handed
    through by [transfer_field]. *)
Variable AnnData : Type.
Variable registry : Type.
Variable kwargs : Type.

(** What [isinstance(mdata, AnnData)] tells apart: an AnnData, or a
    MuData with its dictionary [mdata.mod] of modalities. *)
Inductive data : Type :=
| IsAnnData (a : AnnData)
| IsMuData (mods : list (string * AnnData)).

(** A user-supplied [preregister_fn].  It is called with the field and
    the data object and its result is dropped; what it does is change the
    object in place, or raise.  It sees the field through [mod_key]. *)
Record hook : Type := {
  on_anndata : option string -> AnnData -> result AnnData;
  on_mudata : option string -> list (string * AnnData) -> result (list (string * AnnData))
}.

Variable adata_validate_field : string -> data -> result unit.
Variable adata_register_field : string -> data -> result registry.
Variable adata_transfer_field : string -> registry -> data -> kwargs -> result registry.

(** [mdata.mod[key]], [None] when [key not in mdata.mod]. *)
Fixpoint mod_lookup (key : string) (mods : list (string * AnnData)) : option AnnData :=
  match mods with
  | [] => None
  | (k, a) :: rest => if String.eqb key k then Some a else mod_lookup key rest
  end.

Definition get_modality (self : BaseMuDataWrapper hook) (mdata : data) : result data :=
  match mdata with
  | IsAnnData _ => Raise AssertionError
  | IsMuData mods =>
      match _mod_key self with
      | None => Ok mdata
      | Some key =>
          match mod_lookup key mods with
          | None => Raise (ValueError (String.append "Modality "
                                         (String.append key " not found in mdata.mod.")))
          | Some bdata => Ok (IsAnnData bdata)
          end
      end
  end.

(** [preregister]: the data object as the hook leaves it.  The default
    hook does nothing. *)
Definition preregister (self : BaseMuDataWrapper hook) (mdata : data) : result data :=
  match _preregister self with
  | None => Ok mdata
  | Some h =>
      match mdata with
      | IsAnnData a => bind (on_anndata h (_mod_key self) a) (fun a' => Ok (IsAnnData a'))
      | IsMuData mods =>
          bind (on_mudata h (_mod_key self) mods) (fun mods' => Ok (IsMuData mods'))
      end
  end.

Definition validate_field (self : MuDataField hook) (mdata : data) : result unit :=
  (bdata <- get_modality (base self) mdata ;;
   adata_validate_field (_adata_field self) bdata)%result.

Definition register_field (self : MuDataField hook) (mdata : data) : result registry :=
  (mdata' <- preregister (base self) mdata ;;
   bdata <- get_modality (base self) mdata' ;;
   adata_register_field (_adata_field self) bdata)%result.

Definition transfer_field (self : MuDataField hook) (state_registry : registry)
    (mdata_target : data) (kw : kwargs) : result registry :=
  (bdata_target <- get_modality (base self) mdata_target ;;
   adata_transfer_field (_adata_field self) state_registry bdata_target kw)%result.

End Access.

End MuDataAccess.

(** ** [scvi.inference.semi_supervised_trainer]: counting a run *)

Module TrainerRuns.

Import MnistTrainer.

(** The iterations among [a, a + n) at which [self.iterate % 100 == 0]. *)
Definition logged (a n : nat) : list nat :=
  filter (fun i => i mod 100 =? 0) (seq a n).

(** Each iteration of a list, recorded twice. *)
Definition twice (l : list nat) : list nat := flat_map (fun i => [i; i]) l.

(** The number of passes of the inner loop of [train] in one epoch:
    [zip] stops with the training loader, or at once when the labelled
    loader is empty. *)
Definition batches_per_epoch {tensor : Type} (self : MnistTrainer tensor) : nat :=
  match train_annotated_loader self with
  | [] => 0
  | _ :: _ => List.length (train_loader self)
  end.

(** What a run records for the logged iterations [its], between the
    metrics [m] before and [m'] after: with one objective ([overall]) one
    entry each of [train_loss], [classification_loss] and [train_cubo];
    in the wake-wake mode one entry each of [train_theta_wake] and
    [train_phi_wake] and two each of [classification_loss] and
    [train_cubo], [loss] being called twice. *)
Definition recorded (overall : bool) (its : list nat) (m m' : Metrics) : Prop :=
  train_phi_sleep m' = train_phi_sleep m /\
  if overall then
    train_loss m' = train_loss m ++ its /\
    classification_loss m' = classification_loss m ++ its /\
    train_cubo m' = train_cubo m ++ its /\
    train_theta_wake m' = train_theta_wake m /\
    train_phi_wake m' = train_phi_wake m
  else
    train_theta_wake m' = train_theta_wake m ++ its /\
    train_phi_wake m' = train_phi_wake m ++ its /\
    classification_loss m' = classification_loss m ++ twice its /\
    train_cubo m' = train_cubo m ++ twice its /\
    train_loss m' = train_loss m.

(** What [train] asserts about its arguments (lines 71-72). *)
Definition valid_arguments (update_mode : string) (n_samples_phi n_samples_theta : option nat)
  : bool :=
  (String.eqb update_mode "all" || String.eqb update_mode "alternate")
  && Bool.eqb (is_none n_samples_phi) (is_none n_samples_theta).

(** Whether [loss] is defined, that is gets past its divisions: the
    labelled fraction is not zero and, in the mode [alternate], not above
    one. *)
Definition loss_defined (mode : string) (lf : Q) : bool :=
  negb (Qeq_bool lf 0)
  && (String.eqb mode "all"
      || (String.eqb mode "alternate" && negb (py_int (1 / lf)%Q =? 0)%Z)).

End TrainerRuns.

(** ** [scvi.external.schanvi.module._schanvae]: notions of the statements *)

Module SCHANVAESpec.

Import Tensor SCHANVAE.

(** A strictly increasing list, as [np.unique] and [np.arange] return. *)
Fixpoint increasing (l : list Z) : Prop :=
  match l with
  | [] => True
  | x :: rest => (forall y, In y rest -> (x < y)%Z) /\ increasing rest
  end.

(** A model whose classifier returns the per-level tensors [levels z],
    with standard normal encoder and decoder outputs. *)
Definition levels_nets (levels : mat -> list mat) : Networks :=
  {| log_variational := false;
     encode_covariates := false;
     use_observed_lib_size := true;
     z_encoder := fun x _ _ => (x, x, x);
     classifier := fun z => PLevels (levels z);
     classifier_groups := fun z => PTensor z;
     encoder_z2_z1 := fun z1s _ => (zeros_like z1s, ones_like z1s, zeros_like z1s);
     decoder_z1_z2 := fun z2 _ => (zeros_like z2, ones_like z2);
     get_reconstruction_loss := fun x _ _ _ => map (fun _ => 0%R) x;
     _compute_local_library_params := fun b => (b, b);
     calculate_dloss := fun _ _ => 0%R;
     calculate_lloss := fun _ _ => 0%R |}.

Definition levels_model (levels : mat -> list mat) (num_classes : list nat) (n : nat)
  : SCHANVAE :=
  {| nets := levels_nets levels; n_version := 0; num_classes := num_classes; n_labels := n;
     y_prior := repeat (1 / INR n)%R n;
     use_labels_groups := false; labels_groups := None; groups := None |}.

(** A hierarchy of one level with two labels, and one of three levels
    with one, three and two labels. *)
Definition one_level_model : SCHANVAE :=
  levels_model (fun z => [map (fun _ => [1 / 2; 1 / 2]%R) z]) [2] 2.

Definition three_level_model : SCHANVAE :=
  levels_model (fun z => [map (fun _ => [1%R]) z;
                          map (fun _ => [1 / 3; 1 / 3; 1 / 3]%R) z;
                          map (fun _ => [1 / 2; 1 / 2]%R) z]) [1; 3; 2] 2.

(** One cell, of label 0 at both levels, with latent value 0. *)
Definition one_cell : Tensors :=
  {| X_KEY := [[0%R]]; BATCH_KEY := [[0%R]];
     LABELS_KEY := [[0; 0]]; CONT_COVS_KEY := None; CAT_COVS_KEY := None |}.

Definition one_cell_inference : InferenceOutputs :=
  {| qz_m := [[0%R]]; qz_v := [[1%R]]; z := [[0%R]]; ql_m := [[0%R]]; ql_v := [[1%R]] |}.

Definition one_cell_generative : GenerativeOutputs :=
  {| px_r := [[0%R]]; px_rate := [[0%R]]; px_dropout := [[0%R]] |}.

End SCHANVAESpec.

(** * Properties of the trainer *)

Module TrainerFacts.

Import MnistTrainer.

Lemma for_each_total {A S : Type} (body : A -> S -> result S) (P : S -> Prop) (xs : list A) :
  (forall x s, In x xs -> P s -> exists s', body x s = Ok s' /\ P s') ->
  forall s, P s -> exists s', for_each body xs s = Ok s' /\ P s'.
Proof.
  induction xs as [|x xs IH]; intros Hb s Hs; simpl.
  - now exists s.
  - destruct (Hb x s (or_introl eq_refl) Hs) as [s1 [E1 P1]].
    rewrite E1; simpl. apply IH; auto.
    intros y t Hy Ht. apply Hb; auto. now right.
Qed.

Lemma for_each_inv {A S : Type} (body : A -> S -> result S) (P : S -> Prop) (xs : list A) :
  (forall x s s', In x xs -> P s -> body x s = Ok s' -> P s') ->
  forall s s', P s -> for_each body xs s = Ok s' -> P s'.
Proof.
  induction xs as [|x xs IH]; intros Hb s s' Hs E; simpl in E.
  - now inversion E; subst.
  - destruct (body x s) as [s1|e] eqn:E1; simpl in E; [|discriminate].
    apply (IH (fun y t t' Hy => Hb y t t' (or_intror Hy)) s1 s'); auto.
    apply (Hb x s s1); auto. now left.
Qed.

Lemma for_each_ext {A S : Type} (body body' : A -> S -> result S) (xs : list A) :
  (forall x s, body x s = body' x s) ->
  forall s, for_each body xs s = for_each body' xs s.
Proof.
  intros H. induction xs as [|x xs IH]; intros s; cbn [for_each]; [reflexivity|].
  rewrite H. destruct (body' x s); cbn [bind]; auto.
Qed.

Lemma ok_inj {A : Type} (a b : A) : Ok a = Ok b -> a = b.
Proof. now intros [=]. Qed.

Section Traces.
Variable tensor : Type.
Variable env : Env tensor.
Let trainer := MnistTrainer tensor.

(** *** The recordings of every hundredth iteration *)

Lemma record_metrics_inv (s s' : trainer) :
  record_metrics env s = Ok s' -> s' = after_loss s.
Proof.
  unfold record_metrics, after_loss. destruct (_ =? 0).
  - unfold inference, bind.
    destruct (MnistInference.inference_results _ _ _ _ _ _ _ _ _ _ _); [|discriminate].
    destruct (MnistInference.dict_item _ _); [|discriminate].
    intros E. apply ok_inj in E. now subst s'.
  - intros E. apply ok_inj in E. now subst s'.
Qed.

Lemma record_metrics_returns (s : trainer) :
  cubo_evaluates env (train_loader s) -> record_metrics env s = Ok (after_loss s).
Proof.
  intros H. unfold record_metrics, after_loss. destruct (_ =? 0); [|reflexivity].
  unfold inference.
  destruct (H (log (inference_mode true (append_metric KClassification s))))
    as [res [c [E1 E2]]].
  unfold train_cubo_results in E1.
  change (train_loader (append_metric KClassification s)) with (train_loader s).
  rewrite E1. cbn [bind]. unfold MnistInference.dict_item. rewrite E2. reflexivity.
Qed.

Lemma record_metrics_raises (s : trainer) (ex : exn) :
  iterate s mod 100 = 0 -> cubo_raises env (train_loader s) ex ->
  record_metrics env s = Raise ex.
Proof.
  intros H0 H. unfold record_metrics. rewrite H0. cbn [Nat.eqb].
  unfold inference.
  change (train_loader (append_metric KClassification s)) with (train_loader s).
  pose proof (H (log (inference_mode true (append_metric KClassification s)))) as E.
  unfold train_cubo_results in E. rewrite E. reflexivity.
Qed.

Lemma loss_inv lt k rp cr m (s s' : trainer) v :
  loss env lt k rp cr m s = Ok (s', v) -> s' = after_loss s.
Proof.
  unfold loss, bind.
  destruct (Qeq_bool _ _); [discriminate|].
  destruct (String.eqb m "all").
  - destruct (record_metrics env s) as [t|] eqn:E; [|discriminate].
    apply record_metrics_inv in E. intros E'. apply ok_inj in E'. congruence.
  - destruct (String.eqb m "alternate"); [|discriminate].
    destruct (Z.eqb _ 0); [discriminate|].
    destruct (Z.eqb _ 0); (destruct (record_metrics env s) as [t|] eqn:E; [|discriminate]);
      apply record_metrics_inv in E; intros E'; apply ok_inj in E'; congruence.
Qed.

(** [loss] when the periodic evaluation returns: its two recordings
    folded into [after_loss]. *)
Lemma loss_unfold lt k rp cr m (s : trainer) :
  cubo_evaluates env (train_loader s) ->
  loss env lt k rp cr m s
  = (s_every <- (if Qeq_bool (labelled_fraction s) 0 then Raise ZeroDivisionError
                 else Ok (py_int (1 / labelled_fraction s)%Q)) ;;
     j <- (if String.eqb m "all" then Ok JAll
           else if String.eqb m "alternate" then
             if (s_every =? 0)%Z then Raise ZeroDivisionError
             else if (Z.of_nat (iterate s) mod s_every =? 0)%Z then Ok JSupervised
             else Ok JUnsupervised
           else Raise (ValueError (String.append "Mode "
                                     (String.append m " not recognized")))) ;;
     Ok (after_loss s, {| j_term := j; ratio := cr |}))%result.
Proof.
  intros H. unfold loss. rewrite (record_metrics_returns _ H). reflexivity.
Qed.

Lemma loss_all lt k rp cr (s : trainer) :
  Qeq_bool (labelled_fraction s) 0 = false ->
  cubo_evaluates env (train_loader s) ->
  loss env lt k rp cr "all" s = Ok (after_loss s, {| j_term := JAll; ratio := cr |}).
Proof.
  intros H Hc. rewrite (loss_unfold _ _ _ _ _ _ Hc). rewrite H. reflexivity.
Qed.

Lemma after_loss_log (s : trainer) :
  log (after_loss s) = (if iterate s mod 100 =? 0 then [EInference true] else []) ++ log s.
Proof. unfold after_loss. now destruct (_ =? 0). Qed.

Lemma after_loss_training (s : trainer) :
  training (after_loss s) = if iterate s mod 100 =? 0 then false else training s.
Proof. unfold after_loss. now destruct (_ =? 0). Qed.

Lemma after_loss_iterate (s : trainer) : iterate (after_loss s) = iterate s.
Proof. unfold after_loss. now destruct (_ =? 0). Qed.

Lemma after_loss_fraction (s : trainer) :
  labelled_fraction (after_loss s) = labelled_fraction s.
Proof. unfold after_loss. now destruct (_ =? 0). Qed.

Lemma after_loss_train_loader (s : trainer) :
  train_loader (after_loss s) = train_loader s.
Proof. unfold after_loss. now destruct (_ =? 0). Qed.

Lemma after_loss_annotated_loader (s : trainer) :
  train_annotated_loader (after_loss s) = train_annotated_loader s.
Proof. unfold after_loss. now destruct (_ =? 0). Qed.

Lemma maybe_metric_log (b : bool) k (s : trainer) :
  log (if b then append_metric k s else s) = log s.
Proof. now destruct b. Qed.

Lemma maybe_metric_training (b : bool) k (s : trainer) :
  training (if b then append_metric k s else s) = training s.
Proof. now destruct b. Qed.

Lemma maybe_metric_iterate (b : bool) k (s : trainer) :
  iterate (if b then append_metric k s else s) = iterate s.
Proof. now destruct b. Qed.

Lemma maybe_metric_fraction (b : bool) k (s : trainer) :
  labelled_fraction (if b then append_metric k s else s) = labelled_fraction s.
Proof. now destruct b. Qed.

Lemma maybe_metric_train_loader (b : bool) k (s : trainer) :
  train_loader (if b then append_metric k s else s) = train_loader s.
Proof. now destruct b. Qed.

Lemma maybe_metric_annotated_loader (b : bool) k (s : trainer) :
  train_annotated_loader (if b then append_metric k s else s) = train_annotated_loader s.
Proof. now destruct b. Qed.

Ltac trainer_norm :=
  repeat (simpl;
          rewrite ?maybe_metric_log, ?maybe_metric_training, ?maybe_metric_iterate,
            ?maybe_metric_fraction, ?maybe_metric_train_loader,
            ?maybe_metric_annotated_loader, ?after_loss_log, ?after_loss_training,
            ?after_loss_iterate, ?after_loss_fraction, ?after_loss_train_loader,
            ?after_loss_annotated_loader).

Lemma train_batch_inv n_epochs ol wt wp ns nsp nst cr um rw e t (s s' : trainer) :
  train_batch env n_epochs ol wt wp ns nsp nst cr um rw e t s = Ok s' ->
  log s' = batch_events n_epochs ol wt wp ns nsp nst um rw e s ++ log s /\
  training s' = mode_at_step s /\
  iterate s' = S (iterate s) /\
  labelled_fraction s' = labelled_fraction s /\
  train_loader s' = train_loader s /\
  train_annotated_loader s' = train_annotated_loader s.
Proof.
  unfold train_batch, batch_events, mode_at_step.
  destruct (resolve_n_samples ns nsp nst) as [kt kp] eqn:Ek.
  destruct ol as [ol|].
  - unfold bind at 1.
    destruct (loss env ol ns true cr um _) as [[s1 v]|] eqn:E1; [|discriminate].
    apply loss_inv in E1. intros E. apply ok_inj in E. subst s1 s'.
    trainer_norm. destruct (_ =? 0); simpl; repeat split; reflexivity.
  - unfold bind at 1.
    destruct (loss env wt kt true cr "all" _) as [[s1 v]|] eqn:E1; [|discriminate].
    apply loss_inv in E1.
    destruct (wake_phi_epoch wp rw n_epochs e) as [lt rp] eqn:Eo.
    unfold bind at 1.
    destruct (loss env lt kp rp cr "all" _) as [[s4 v4]|] eqn:E4; [|discriminate].
    apply loss_inv in E4. intros E. apply ok_inj in E. subst s1 s4 s'.
    trainer_norm. destruct (_ =? 0); simpl; repeat split; reflexivity.
Qed.

Lemma train_batch_total n_epochs ol wt wp ns nsp nst cr um rw e t (s : trainer) :
  Qeq_bool (labelled_fraction s) 0 = false ->
  cubo_evaluates env (train_loader s) ->
  ol = None \/ um = "all" ->
  exists s', train_batch env n_epochs ol wt wp ns nsp nst cr um rw e t s = Ok s'.
Proof.
  intros Hf Hc Hm. unfold train_batch.
  destruct (resolve_n_samples ns nsp nst) as [kt kp].
  destruct ol as [ol|].
  - destruct Hm as [Hm|Hm]; [discriminate|subst um].
    rewrite loss_all by assumption. cbn [bind]. eauto.
  - rewrite loss_all by assumption. cbn [bind].
    destruct (wake_phi_epoch wp rw n_epochs e) as [lt rp].
    rewrite loss_all by (trainer_norm; assumption). cbn [bind]. eauto.
Qed.

(** A loop whose body only adds events to the log: what the log gains. *)
Lemma for_each_log {A : Type} (body : A -> trainer -> result trainer)
    (P : trainer -> Prop) (R : A -> list event -> Prop) (xs : list A) :
  (forall x s s', In x xs -> P s -> body x s = Ok s' ->
     P s' /\ exists new, log s' = new ++ log s /\ R x new) ->
  forall s s', P s -> for_each body xs s = Ok s' ->
    P s' /\ exists new, log s' = new ++ log s /\
      (forall ev, In ev new -> exists x nw, In x xs /\ R x nw /\ In ev nw) /\
      (forall x, In x xs -> exists nw, R x nw /\ incl nw new).
Proof.
  induction xs as [|x xs IH]; intros Hb s s' Hs E; simpl in E.
  - inversion E; subst. split; [assumption|]. exists []. repeat split; auto.
    + intros ev [].
    + intros y [].
  - destruct (body x s) as [s1|] eqn:E1; simpl in E; [|discriminate].
    destruct (Hb x s s1 (or_introl eq_refl) Hs E1) as [P1 [n1 [L1 R1]]].
    destruct (IH (fun y t t' Hy => Hb y t t' (or_intror Hy)) s1 s' P1 E)
      as [P' [n2 [L2 [F2 G2]]]].
    split; [assumption|]. exists (n2 ++ n1). repeat split.
    + now rewrite L2, L1, app_assoc.
    + intros ev Hev. apply in_app_or in Hev as [Hev|Hev].
      * destruct (F2 ev Hev) as [y [nw [Hy [Hr Hi]]]]. exists y, nw.
        split; [now right|]. now split.
      * exists x, n1. split; [now left|]. now split.
    + intros y [->|Hy].
      * exists n1. split; [assumption|]. now apply incl_appr, incl_refl.
      * destruct (G2 y Hy) as [nw [Hr Hi]]. exists nw. split; [assumption|].
        now apply incl_appl.
Qed.

Section TrainFacts.
Variable n_epochs : nat.
Variable overall_loss : option string.
Variables wake_theta wake_psi : string.
Variables n_samples n_samples_phi n_samples_theta : option nat.
Variable classification_ratio : Q.
Variable update_mode : string.
Variable reparam_wphi : bool.

Let run := train env n_epochs overall_loss wake_theta wake_psi n_samples n_samples_phi
             n_samples_theta classification_ratio update_mode reparam_wphi.
Let events := batch_events (tensor := tensor) n_epochs overall_loss wake_theta wake_psi
                n_samples n_samples_phi n_samples_theta update_mode reparam_wphi.

(** The events of a successful run: each one comes from a pass of the
    loop body in some epoch, and every epoch with a batch contributes the
    events of a pass. *)
Lemma train_trace (P : trainer -> Prop) (s s' : trainer) :
  (forall e t s1 s2, P s1 ->
     train_batch env n_epochs overall_loss wake_theta wake_psi n_samples n_samples_phi
       n_samples_theta classification_ratio update_mode reparam_wphi e t s1 = Ok s2 -> P s2) ->
  P s -> run s = Ok s' ->
  P s' /\ exists new, log s' = new ++ log s /\
    (forall ev, In ev new -> exists e s1, e < n_epochs /\ P s1 /\ In ev (events e s1)) /\
    (forall e, e < n_epochs ->
       zip_cycle (train_loader s) (train_annotated_loader s) (train_annotated_loader s) <> [] ->
       exists s1, P s1 /\ incl (events e s1) new).
Proof.
  intros HP Hs E. unfold run, train in E.
  destruct (py_assert (_ || _)); simpl in E; [|discriminate].
  destruct (py_assert (Bool.eqb _ _)); simpl in E; [|discriminate].
  set (P' := fun t : trainer => P t /\ train_loader t = train_loader s /\
                 train_annotated_loader t = train_annotated_loader s).
  set (Rb := fun (e : nat) (_ : (tensor * tensor) * (tensor * tensor))
                 (nw : list event) =>
               exists s1, P s1 /\ nw = events e s1).
  set (Re := fun (e : nat) (nw : list event) =>
               (forall ev, In ev nw -> exists s1, P s1 /\ In ev (events e s1)) /\
               (zip_cycle (train_loader s) (train_annotated_loader s)
                  (train_annotated_loader s) <> [] ->
                exists s1, P s1 /\ incl (events e s1) nw)).
  assert (Hbatch : forall e t s1 s2, P' s1 ->
            train_batch env n_epochs overall_loss wake_theta wake_psi n_samples n_samples_phi
              n_samples_theta classification_ratio update_mode reparam_wphi e t s1 = Ok s2 ->
            P' s2 /\ exists new, log s2 = new ++ log s1 /\ Rb e t new).
  { intros e t s1 s2 [H1 [H2 H3]] Eb.
    pose proof (HP _ _ _ _ H1 Eb) as H4.
    apply train_batch_inv in Eb as [L [_ [_ [_ [L1 L2]]]]].
    split; [repeat split; congruence|].
    exists (events e s1). split; [exact L|]. now exists s1. }
  assert (Hepoch : forall e s1 s2, P' s1 ->
            train_epoch env n_epochs overall_loss wake_theta wake_psi n_samples n_samples_phi
              n_samples_theta classification_ratio update_mode reparam_wphi e s1 = Ok s2 ->
            P' s2 /\ exists new, log s2 = new ++ log s1 /\ Re e new).
  { intros e s1 s2 H1 Ee. unfold train_epoch in Ee.
    destruct (@for_each_log _ _ P' (Rb e) _ (fun t a b _ => Hbatch e t a b) _ _ H1 Ee)
      as [H2 [new [L [F G]]]].
    split; [assumption|]. exists new. split; [assumption|]. split.
    - intros ev Hev. destruct (F ev Hev) as [t [nw [_ [[s3 [P3 ->]] Hi]]]]. now exists s3.
    - destruct H1 as [_ [Hl Ha]]. rewrite Hl, Ha in G.
      destruct (zip_cycle _ _ _) as [|t ts] eqn:Ez; [congruence|]. intros _.
      destruct (G t (or_introl eq_refl)) as [nw [[s3 [P3 ->]] Hi]]. now exists s3. }
  destruct (@for_each_log _ _ P' Re _ (fun e a b _ => Hepoch e a b) _ _
              (conj Hs (conj eq_refl eq_refl)) E) as [[H2 _] [new [L [F G]]]].
  split; [assumption|]. exists new. split; [assumption|]. split.
  - intros ev Hev. destruct (F ev Hev) as [e [nw [He [[Hr _] Hi]]]].
    destruct (Hr ev Hi) as [s1 [P1 I1]]. exists e, s1. apply in_seq in He. intuition.
  - intros e He Hz. destruct (G e) as [nw [[_ Hr] Hi]]; [apply in_seq; lia|].
    destruct (Hr Hz) as [s1 [P1 I1]]. exists s1. split; [assumption|].
    eapply incl_tran; eassumption.
Qed.

Lemma train_total (s : trainer) :
  Qeq_bool (labelled_fraction s) 0 = false ->
  cubo_evaluates env (train_loader s) ->
  overall_loss = None \/ update_mode = "all" ->
  String.eqb update_mode "all" || String.eqb update_mode "alternate" = true ->
  Bool.eqb (is_none n_samples_phi) (is_none n_samples_theta) = true ->
  exists s', run s = Ok s'.
Proof.
  intros Hf Hc Hm Hu Hn. unfold run, train. rewrite Hu, Hn. simpl.
  destruct (for_each_total
              (train_epoch env n_epochs overall_loss wake_theta wake_psi n_samples
                 n_samples_phi n_samples_theta classification_ratio update_mode reparam_wphi)
              (fun t : trainer => Qeq_bool (labelled_fraction t) 0 = false /\
                                  train_loader t = train_loader s)
              (seq 0 n_epochs)) with (s := s) as [s' [E _]]; [|now split|eauto].
  intros e t _ Ht. unfold train_epoch. apply for_each_total; [|assumption].
  intros b u _ [Hu1 Hu2].
  assert (Hc' : cubo_evaluates env (train_loader u)) by now rewrite Hu2.
  destruct (train_batch_total n_epochs wake_theta wake_psi n_samples n_samples_phi
              n_samples_theta classification_ratio reparam_wphi e b u Hu1 Hc' Hm) as [u' Eu].
  exists u'. split; [assumption|].
  apply train_batch_inv in Eu as [_ [_ [_ [-> [-> _]]]]]. now split.
Qed.

End TrainFacts.
End Traces.

Ltac schedule_cases :=
  repeat match goal with
         | |- _ /\ _ => split
         | |- _ -> _ => intro
         end;
  try reflexivity; try congruence; try lia.

Lemma wake_phi_epoch_spec wake_psi reparam_wphi n_epochs e :
  phi_schedule_spec wake_psi reparam_wphi n_epochs e
    (fst (wake_phi_epoch wake_psi reparam_wphi n_epochs e))
    (snd (wake_phi_epoch wake_psi reparam_wphi n_epochs e)).
Proof.
  unfold phi_schedule_spec, wake_phi_epoch.
  destruct (String.eqb_spec wake_psi "REVKL+CUBO") as [E1|N1];
    [|destruct (String.eqb_spec wake_psi "ELBO+CUBO") as [E2|N2];
      [|destruct (String.eqb_spec wake_psi "ELBO+REVKL") as [E3|N3]]];
    try subst wake_psi;
    try (destruct (Nat.leb_spec e (n_epochs / 3)));
    cbn [fst snd]; schedule_cases.
Qed.

Lemma in_batch_events (tensor : Type) n_epochs ol wt wp ns nsp nst um rw e
    (s : MnistTrainer tensor) ev :
  In ev (batch_events n_epochs ol wt wp ns nsp nst um rw e s) ->
  ev = EInference true \/
  (exists ph, ev = EStep ph (mode_at_step s)) \/
  match ol with
  | Some l => ev = ELoss e Overall l ns true um
  | None =>
      ev = ELoss e WakeTheta wt (fst (resolve_n_samples ns nsp nst)) true "all" \/
      ev = ELoss e WakePhi (fst (wake_phi_epoch wp rw n_epochs e))
             (snd (resolve_n_samples ns nsp nst)) (snd (wake_phi_epoch wp rw n_epochs e)) "all"
  end.
Proof.
  unfold batch_events. fold (mode_at_step s).
  destruct ol as [l|]; destruct (iterate s mod 100 =? 0);
    cbn [app In]; intros H;
    repeat (destruct H as [H|H]; [symmetry in H; eauto 6|]); contradiction.
Qed.

(** The calls of [loss] among the events of a pass. *)
Lemma batch_events_calls (tensor : Type) n_epochs ol wt wp ns nsp nst um rw e
    (s : MnistTrainer tensor) :
  match ol with
  | Some l => In (ELoss e Overall l ns true um)
                (batch_events n_epochs ol wt wp ns nsp nst um rw e s)
  | None =>
      In (ELoss e WakeTheta wt (fst (resolve_n_samples ns nsp nst)) true "all")
        (batch_events n_epochs ol wt wp ns nsp nst um rw e s) /\
      In (ELoss e WakePhi (fst (wake_phi_epoch wp rw n_epochs e))
            (snd (resolve_n_samples ns nsp nst)) (snd (wake_phi_epoch wp rw n_epochs e)) "all")
        (batch_events n_epochs ol wt wp ns nsp nst um rw e s)
  end.
Proof.
  unfold batch_events.
  destruct ol as [l|]; destruct (iterate s mod 100 =? 0); cbn [app In]; tauto.
Qed.

(** The loss calls a run that returns has logged: each one is a call of
    some pass, and every epoch with a batch has logged the calls of a
    pass. *)
Lemma train_calls (tensor : Type) (env : Env tensor) n_epochs ol wt wp ns nsp nst cr um rw
    (s s' : MnistTrainer tensor) :
  train env n_epochs ol wt wp ns nsp nst cr um rw s = Ok s' ->
  exists new, log s' = new ++ log s /\
    (forall e ph lt k rp m, In (ELoss e ph lt k rp m) new ->
       e < n_epochs /\
       match ol with
       | Some l => ELoss e ph lt k rp m = ELoss e Overall l ns true um
       | None =>
           ELoss e ph lt k rp m
           = ELoss e WakeTheta wt (fst (resolve_n_samples ns nsp nst)) true "all" \/
           ELoss e ph lt k rp m
           = ELoss e WakePhi (fst (wake_phi_epoch wp rw n_epochs e))
               (snd (resolve_n_samples ns nsp nst)) (snd (wake_phi_epoch wp rw n_epochs e))
               "all"
       end) /\
    (forall e, e < n_epochs ->
       zip_cycle (train_loader s) (train_annotated_loader s) (train_annotated_loader s) <> [] ->
       match ol with
       | Some l => In (ELoss e Overall l ns true um) new
       | None =>
           In (ELoss e WakeTheta wt (fst (resolve_n_samples ns nsp nst)) true "all") new /\
           In (ELoss e WakePhi (fst (wake_phi_epoch wp rw n_epochs e))
                 (snd (resolve_n_samples ns nsp nst)) (snd (wake_phi_epoch wp rw n_epochs e))
                 "all") new
       end).
Proof.
  intros E.
  destruct (@train_trace tensor env n_epochs ol wt wp ns nsp nst cr um rw
              (fun _ => True) s s' (fun _ _ _ _ _ _ => I) I E) as [_ [new [L [F G]]]].
  exists new. split; [exact L|]. split.
  - intros e ph lt k rp m Hev. destruct (F _ Hev) as [e' [s1 [He [_ Hi]]]].
    apply in_batch_events in Hi as [Hi|[[ph' Hi]|Hi]]; try discriminate.
    destruct ol as [l|].
    + assert (e = e') by now inversion Hi. subst e'. now split.
    + assert (e = e') by (destruct Hi as [Hi|Hi]; now inversion Hi). subst e'. now split.
  - intros e He Hz. destruct (G e He Hz) as [s1 [_ Hi]].
    pose proof (batch_events_calls n_epochs ol wt wp ns nsp nst um rw e s1) as Hc.
    destruct ol as [l|].
    + now apply Hi.
    + destruct Hc as [Hc1 Hc2]. split; now apply Hi.
Qed.

(** C8: in wake-wake training ([overall_loss] is [None]) every call of
    [loss] for the phi objective in epoch [e] follows the schedule: with
    "REVKL+CUBO", REVKL without reparametrisation while
    [e <= n_epochs / 3] and CUBO with it afterwards; with "ELBO+CUBO",
    ELBO then CUBO, always reparametrised; with "ELBO+REVKL", ELBO
    reparametrised then REVKL not; with any other [wake_psi], that
    objective and [reparam_wphi] in every epoch.  Every epoch with a
    batch makes such a call.  This holds of every run that returns; and
    the run returns when the labelled fraction is not zero, the arguments
    pass the assertions and the evaluation of the training loader that
    [loss] asks for every hundredth iteration returns a CUBO (what that
    evaluation raises, such as the [IndexError] of [dic_concat], leaves
    [train]). *)
Theorem wake_phi_switches_at_third (tensor : Type) (env : Env tensor) (n_epochs : nat)
    (wake_theta wake_psi : string) (n_samples n_samples_phi n_samples_theta : option nat)
    (classification_ratio : Q) (update_mode : string) (reparam_wphi : bool)
    (self : MnistTrainer tensor) :
  let run := train env n_epochs None wake_theta wake_psi n_samples n_samples_phi
               n_samples_theta classification_ratio update_mode reparam_wphi self in
  (forall self', run = Ok self' ->
     exists new, log self' = new ++ log self /\
       (forall e loss_type k reparam mode,
          In (ELoss e WakePhi loss_type k reparam mode) new ->
          e < n_epochs /\
          phi_schedule_spec wake_psi reparam_wphi n_epochs e loss_type reparam) /\
       (forall e, e < n_epochs ->
          zip_cycle (train_loader self) (train_annotated_loader self)
            (train_annotated_loader self) <> [] ->
          exists loss_type k reparam mode,
            In (ELoss e WakePhi loss_type k reparam mode) new)) /\
  (Qeq_bool (labelled_fraction self) 0 = false ->
   String.eqb update_mode "all" || String.eqb update_mode "alternate" = true ->
   Bool.eqb (is_none n_samples_phi) (is_none n_samples_theta) = true ->
   cubo_evaluates env (train_loader self) ->
   exists self', run = Ok self').
Proof.
  intros run. split.
  - intros s' E. destruct (train_calls _ _ _ _ _ _ _ _ _ _ _ _ E) as [new [L [F G]]].
    exists new. split; [exact L|]. split.
    + intros e lt k rp m Hev. destruct (F _ _ _ _ _ _ Hev) as [He [Hi|Hi]]; [discriminate|].
      split; [assumption|]. inversion Hi; subst. apply wake_phi_epoch_spec.
    + intros e He Hz. destruct (G e He Hz) as [_ Hi]. eauto.
  - intros Hf Hu Hn Hc.
    exact (@train_total tensor env n_epochs None wake_theta wake_psi n_samples n_samples_phi
             n_samples_theta classification_ratio update_mode reparam_wphi self
             Hf Hc (or_introl eq_refl) Hu Hn).
Qed.

Lemma wake_phi_switches_at_third_witness :
  exists self',
    train (example_env 2) 6 None "ELBO" "REVKL+CUBO" (Some 1) None None 50%Q "all" true
      example_trainer = Ok self' /\
    exists new, log self' = new ++ log example_trainer /\
      (forall e loss_type k reparam mode,
         In (ELoss e WakePhi loss_type k reparam mode) new ->
         e < 6 /\ phi_schedule_spec "REVKL+CUBO" true 6 e loss_type reparam) /\
      (forall e, e < 6 ->
         zip_cycle (train_loader example_trainer) (train_annotated_loader example_trainer)
           (train_annotated_loader example_trainer) <> [] ->
         exists loss_type k reparam mode, In (ELoss e WakePhi loss_type k reparam mode) new).
Proof.
  destruct (proj2 (@wake_phi_switches_at_third (list nat) (example_env 2) 6 "ELBO"
                     "REVKL+CUBO" (Some 1) None None 50%Q "all" true example_trainer))
    as [self' E].
  - reflexivity.
  - reflexivity.
  - reflexivity.
  - intros h. eexists. eexists. split; reflexivity.
  - exists self'. split; [exact E|].
    exact (proj1 (@wake_phi_switches_at_third (list nat) (example_env 2) 6 "ELBO"
                    "REVKL+CUBO" (Some 1) None None 50%Q "all" true example_trainer)
             self' E).
Defined.

(** C9, as stated, fails: a fresh trainer with its model in training mode
    runs [inference] in the first call of [loss], and the optimizer then
    steps with the model in evaluation mode. *)
Lemma eval_mode_not_restored :
  exists self',
    train (example_env 2) 1 (Some "ELBO") "ELBO" "ELBO" (Some 1) None None 50%Q "all" true
      (MnistTrainer_init (1 # 10) [example_batch] [example_batch] true) = Ok self' /\
    log self' = [EStep Overall false; EInference true;
                 ELoss 0 Overall "ELBO" (Some 1) true "all"] /\
    ~ (forall ph m, In (EStep ph m) (log self') -> m = true).
Proof.
  eexists. split; [vm_compute; reflexivity|]. split; [reflexivity|].
  intros H. specialize (H Overall false (or_introl eq_refl)). discriminate.
Qed.

(** C9, amended: [train] never puts the model back in training mode.
    From a trainer whose iteration count is a multiple of 100 (a fresh
    one counts 0), or whose model is in evaluation mode already, every
    optimizer step of [train] finds the model in evaluation mode, and the
    model is left in evaluation mode once a batch has been processed. *)
Theorem eval_mode_persists (tensor : Type) (env : Env tensor) (n_epochs : nat)
    (overall_loss : option string)
    (wake_theta wake_psi : string) (n_samples n_samples_phi n_samples_theta : option nat)
    (classification_ratio : Q) (update_mode : string) (reparam_wphi : bool)
    (self self' : MnistTrainer tensor) :
  iterate self mod 100 = 0 \/ training self = false ->
  train env n_epochs overall_loss wake_theta wake_psi n_samples n_samples_phi n_samples_theta
    classification_ratio update_mode reparam_wphi self = Ok self' ->
  exists new, log self' = new ++ log self /\
    (forall ph m, In (EStep ph m) new -> m = false) /\
    (new <> [] -> training self' = false).
Proof.
  intros H0 E.
  set (P := fun t : MnistTrainer tensor =>
              training t = false \/ (log t = log self /\ iterate t mod 100 = 0)).
  assert (HP : forall e t s1 s2, P s1 ->
            train_batch env n_epochs overall_loss wake_theta wake_psi n_samples n_samples_phi
              n_samples_theta classification_ratio update_mode reparam_wphi e t s1 = Ok s2 ->
            P s2).
  { intros e t s1 s2 H1 Eb. apply train_batch_inv in Eb as [_ [T _]].
    left. rewrite T. unfold mode_at_step. destruct H1 as [H1|[_ H1]].
    - rewrite H1. now destruct (_ =? 0).
    - now rewrite H1. }
  assert (Hs : P self) by (destruct H0; [right|left]; auto).
  destruct (@train_trace tensor env n_epochs overall_loss wake_theta wake_psi n_samples
              n_samples_phi n_samples_theta classification_ratio update_mode reparam_wphi
              P self self' HP Hs E) as [P' [new [L [F _]]]].
  exists new. split; [exact L|]. split.
  - intros ph m Hev. destruct (F _ Hev) as [e [s1 [_ [P1 Hi]]]].
    apply in_batch_events in Hi as [Hi|[[ph' Hi]|Hi]].
    + discriminate.
    + injection Hi as _ Hm. rewrite Hm. unfold mode_at_step.
      destruct P1 as [P1|[_ P1]].
      * rewrite P1. now destruct (_ =? 0).
      * now rewrite P1.
    + destruct overall_loss; [discriminate|]. destruct Hi; discriminate.
  - intros Hn. destruct P' as [P'|[P' _]]; [assumption|].
    rewrite P' in L. destruct new; [congruence|].
    apply (f_equal (@List.length event)) in L. rewrite length_app in L. simpl in L. lia.
Qed.

Lemma eval_mode_persists_witness :
  exists new, log example_final = new ++ log example_trainer /\
    (forall ph m, In (EStep ph m) new -> m = false) /\
    (new <> [] -> training example_final = false).
Proof.
  apply (@eval_mode_persists (list nat) (example_env 2) 2 None "ELBO" "ELBO+REVKL" None
           (Some 3) (Some 4) 50%Q "all" true example_trainer example_final).
  - left. reflexivity.
  - vm_compute. reflexivity.
Defined.

(** C10: [train] raises [AssertionError] when exactly one of
    [n_samples_phi] and [n_samples_theta] is given.  Otherwise, with
    [n_samples = Some n], the values given for [n_samples_phi] and
    [n_samples_theta] are ignored: the run is the one with neither given
    and, in wake-wake training, the one with [n_samples = None] and both
    set to [n]; every call of [loss] of a run that returns receives [n],
    and every epoch with a batch makes these calls.  Only with
    [n_samples = None] do the theta and phi calls receive
    [n_samples_theta] and [n_samples_phi], which every epoch with a batch
    then makes. *)
Theorem n_samples_overrides (tensor : Type) (env : Env tensor) (n_epochs : nat)
    (overall_loss : option string)
    (wake_theta wake_psi : string) (n_samples_phi n_samples_theta : option nat)
    (classification_ratio : Q) (update_mode : string) (reparam_wphi : bool)
    (self : MnistTrainer tensor) :
  let run n_samples phi theta :=
    train env n_epochs overall_loss wake_theta wake_psi n_samples phi theta
      classification_ratio update_mode reparam_wphi self in
  let calls_made n_samples theta phi new :=
    forall e, e < n_epochs ->
      zip_cycle (train_loader self) (train_annotated_loader self)
        (train_annotated_loader self) <> [] ->
      match overall_loss with
      | Some l => In (ELoss e Overall l n_samples true update_mode) new
      | None =>
          In (ELoss e WakeTheta wake_theta theta true "all") new /\
          exists loss_type reparam, In (ELoss e WakePhi loss_type phi reparam "all") new
      end in
  (Bool.eqb (is_none n_samples_phi) (is_none n_samples_theta) = false ->
   forall n_samples, run n_samples n_samples_phi n_samples_theta = Raise AssertionError) /\
  (Bool.eqb (is_none n_samples_phi) (is_none n_samples_theta) = true ->
   forall n,
     run (Some n) n_samples_phi n_samples_theta = run (Some n) None None /\
     (overall_loss = None ->
      run (Some n) n_samples_phi n_samples_theta = run None (Some n) (Some n)) /\
     forall self', run (Some n) n_samples_phi n_samples_theta = Ok self' ->
       exists new, log self' = new ++ log self /\
         (forall e ph loss_type k reparam mode,
            In (ELoss e ph loss_type k reparam mode) new -> k = Some n) /\
         calls_made (Some n) (Some n) (Some n) new) /\
  (forall self', run None n_samples_phi n_samples_theta = Ok self' ->
     exists new, log self' = new ++ log self /\
       (forall e ph loss_type k reparam mode,
          In (ELoss e ph loss_type k reparam mode) new ->
          k = match ph with
              | Overall => None
              | WakeTheta => n_samples_theta
              | WakePhi => n_samples_phi
              end) /\
       calls_made None n_samples_theta n_samples_phi new).
Proof.
  intros run calls_made. split; [|split].
  - intros Hn ns. unfold run, train. rewrite Hn.
    unfold py_assert. destruct (_ || _); reflexivity.
  - intros Hn n. split; [|split].
    + unfold run, train. rewrite Hn. reflexivity.
    + intros ->. unfold run, train. rewrite Hn.
      destruct (py_assert (_ || _)); cbn [bind is_none Bool.eqb py_assert]; [|reflexivity].
      apply for_each_ext. intros e s. unfold train_epoch. apply for_each_ext.
      intros t u. reflexivity.
    + intros s' E. destruct (train_calls _ _ _ _ _ _ _ _ _ _ _ _ E) as [new [L [F G]]].
      exists new. split; [exact L|]. split.
      * intros e ph lt k rp m Hev. destruct (F _ _ _ _ _ _ Hev) as [_ Hi].
        destruct overall_loss; [|destruct Hi as [Hi|Hi]]; now inversion Hi.
      * intros e He Hz. specialize (G e He Hz).
        destruct overall_loss; [exact G|]. destruct G as [G1 G2].
        split; [exact G1|]. eauto.
  - intros s' E. destruct (train_calls _ _ _ _ _ _ _ _ _ _ _ _ E) as [new [L [F G]]].
    exists new. split; [exact L|]. split.
    + intros e ph lt k rp m Hev. destruct (F _ _ _ _ _ _ Hev) as [_ Hi].
      destruct overall_loss; [|destruct Hi as [Hi|Hi]]; now inversion Hi.
    + intros e He Hz. specialize (G e He Hz).
      destruct overall_loss; [exact G|]. destruct G as [G1 G2].
      split; [exact G1|]. eauto.
Qed.

Lemma n_samples_overrides_witness :
  train (example_env 2) 2 None "ELBO" "ELBO+REVKL" (Some 7) (Some 3) None 50%Q "all" true
    example_trainer = Raise AssertionError /\
  train (example_env 2) 2 None "ELBO" "ELBO+REVKL" (Some 7) (Some 3) (Some 4) 50%Q "all" true
    example_trainer
  = train (example_env 2) 2 None "ELBO" "ELBO+REVKL" (Some 7) None None 50%Q "all" true
      example_trainer /\
  (exists self',
     train (example_env 2) 2 None "ELBO" "ELBO+REVKL" (Some 7) (Some 3) (Some 4) 50%Q "all"
       true example_trainer = Ok self' /\
     exists new, log self' = new ++ log example_trainer /\
       (forall e ph loss_type k reparam mode,
          In (ELoss e ph loss_type k reparam mode) new -> k = Some 7) /\
       (forall e, e < 2 ->
          zip_cycle (train_loader example_trainer) (train_annotated_loader example_trainer)
            (train_annotated_loader example_trainer) <> [] ->
          In (ELoss e WakeTheta "ELBO" (Some 7) true "all") new /\
          exists loss_type reparam,
            In (ELoss e WakePhi loss_type (Some 7) reparam "all") new)) /\
  (exists new, log example_final = new ++ log example_trainer /\
     (forall e ph loss_type k reparam mode,
        In (ELoss e ph loss_type k reparam mode) new ->
        k = match ph with
            | Overall => None
            | WakeTheta => Some 4
            | WakePhi => Some 3
            end) /\
     (forall e, e < 2 ->
        zip_cycle (train_loader example_trainer) (train_annotated_loader example_trainer)
          (train_annotated_loader example_trainer) <> [] ->
        In (ELoss e WakeTheta "ELBO" (Some 4) true "all") new /\
        exists loss_type reparam, In (ELoss e WakePhi loss_type (Some 3) reparam "all") new)).
Proof.
  split; [|split; [|split]].
  - apply (proj1 (@n_samples_overrides (list nat) (example_env 2) 2 None "ELBO" "ELBO+REVKL"
                    (Some 3) None 50%Q "all" true example_trainer) eq_refl (Some 7)).
  - apply (proj1 (proj1 (proj2 (@n_samples_overrides (list nat) (example_env 2) 2 None
                                  "ELBO" "ELBO+REVKL" (Some 3) (Some 4) 50%Q "all" true
                                  example_trainer)) eq_refl 7)).
  - eexists. split; [vm_compute; reflexivity|].
    apply (proj2 (proj2 (proj1 (proj2 (@n_samples_overrides (list nat) (example_env 2) 2 None
                                         "ELBO" "ELBO+REVKL" (Some 3) (Some 4) 50%Q "all"
                                         true example_trainer)) eq_refl 7))).
    vm_compute. reflexivity.
  - apply (proj2 (proj2 (@n_samples_overrides (list nat) (example_env 2) 2 None "ELBO"
                           "ELBO+REVKL" (Some 3) (Some 4) 50%Q "all" true
                           example_trainer))).
    vm_compute. reflexivity.
Defined.

End TrainerFacts.

(** * Properties of the model *)

Module SCHANVAEFacts.

Import Tensor SCHANVAE.

(** *** Facts about [__init__] *)

Lemma in_insert_unique (x y : Z) (l : list Z) :
  In x (insert_unique y l) <-> x = y \/ In x l.
Proof.
  induction l as [|a l IH]; simpl.
  - intuition.
  - destruct (Z.ltb_spec y a); [simpl; intuition|].
    destruct (Z.eqb_spec y a) as [->|Hn]; simpl; [intuition|].
    rewrite IH. intuition.
Qed.

Lemma in_np_unique (x : Z) (l : list Z) : In x (np_unique l) <-> In x l.
Proof.
  induction l as [|a l IH]; simpl; [tauto|].
  rewrite in_insert_unique, IH. intuition.
Qed.

Lemma all_eq_true (a b : list Z) :
  List.length a = List.length b -> all_eq a b = true -> a = b.
Proof.
  revert b. induction a as [|x a IH]; intros [|y b] Hl H; simpl in *;
    try reflexivity; try discriminate.
  unfold all_eq in H. simpl in H. apply andb_prop in H as [H1 H2].
  apply Z.eqb_eq in H1. subst. f_equal. apply IH; [lia|exact H2].
Qed.

Lemma all_eq_refl (a : list Z) : all_eq a a = true.
Proof.
  unfold all_eq. induction a as [|x a IH]; simpl; [reflexivity|].
  now rewrite Z.eqb_refl.
Qed.

Lemma length_np_arange (n : nat) : List.length (np_arange n) = n.
Proof. unfold np_arange. now rewrite length_map, length_seq. Qed.

Lemma in_np_arange (x : Z) (n : nat) :
  In x (np_arange n) <-> exists g, g < n /\ x = Z.of_nat g.
Proof.
  unfold np_arange. rewrite in_map_iff. split.
  - intros [g [<- Hg]]. apply in_seq in Hg. exists g. split; [lia|reflexivity].
  - intros [g [Hg ->]]. exists g. split; [reflexivity|]. apply in_seq. lia.
Qed.

(** What [init_groups] accepts. *)
Lemma init_groups_ok (lgo : option (list Z)) g :
  init_groups true lgo = Ok g ->
  exists lg, lgo = Some lg /\
    np_unique lg = np_arange (List.length (np_unique lg)) /\
    g = Some (List.length (np_unique lg),
              map (group_mask lg) (seq 0 (List.length (np_unique lg)))).
Proof.
  unfold init_groups. destruct lgo as [lg|]; [|discriminate].
  destruct (all_eq _ _) eqn:E; simpl; [|discriminate].
  intros H. inversion H; subst. exists lg. repeat split.
  apply all_eq_true; [now rewrite length_np_arange|exact E].
Qed.


Lemma SCHANVAE_init_groups nw nc yp lgo ulg nv m :
  SCHANVAE_init nw nc yp lgo ulg nv = Ok m ->
  init_groups ulg lgo = Ok (groups m) /\ labels_groups m = lgo /\ use_labels_groups m = ulg.
Proof.
  unfold SCHANVAE_init, bind.
  destruct (nth_error nc _); [|discriminate].
  destruct (match yp with Some p => _ | None => _ end); [|discriminate].
  destruct (init_groups ulg lgo); [|discriminate].
  intros H. inversion H; subst. simpl. auto.
Qed.

Lemma group_mask_nth (lg : list Z) (g j : nat) :
  j < List.length lg ->
  nth j (group_mask lg g) 0%Z = if (nth j lg 0 =? Z.of_nat g)%Z then 1%Z else 0%Z.
Proof.
  intros Hj. unfold group_mask.
  set (f := fun x : Z => if (x =? Z.of_nat g)%Z then 1%Z else 0%Z).
  rewrite nth_indep with (d' := f 0%Z) by now rewrite length_map.
  apply map_nth.
Qed.

Lemma groups_index_nth (lg : list Z) (n g : nat) :
  g < n -> nth g (map (group_mask lg) (seq 0 n)) [] = group_mask lg g.
Proof.
  intros Hg.
  rewrite nth_indep with (d' := group_mask lg 0) by now rewrite length_map, length_seq.
  rewrite map_nth, seq_nth by assumption. reflexivity.
Qed.


(** C7, as stated, fails: the constructor does not compare the length
    of [labels_groups] with [n_labels].  With three labels and
    [labels_groups = [0; 1]] it returns, and label 2 is in no mask. *)
Lemma labels_groups_length_unchecked :
  exists self groups_index,
    SCHANVAE_init group_nets [3] None (Some [0%Z; 1%Z]) true 0 = Ok self /\
    n_labels self = 3 /\
    groups self = Some (2, groups_index) /\
    groups_index = [[1%Z; 0%Z]; [0%Z; 1%Z]] /\
    ~ (forall label, label < n_labels self ->
         exists g, g < 2 /\ nth label (nth g groups_index []) 0%Z = 1%Z).
Proof.
  eexists. eexists. split; [reflexivity|]. cbn [n_labels groups].
  split; [reflexivity|]. split; [reflexivity|]. split; [reflexivity|].
  intros H. destruct (H 2) as [g [Hg Hm]]; [lia|].
  destruct g as [|[|g]]; [discriminate Hm|discriminate Hm|lia].
Qed.

(** C7, amended: after a successful construction with
    [use_labels_groups], there is one mask per group
    [0 .. n_groups - 1], each as long as [labels_groups] and selecting
    some position, and every position of [labels_groups] is selected by
    the mask of exactly one group.  The masks cover the label indices
    [0 .. n_labels - 1] exactly when [labels_groups] has at least
    [n_labels] entries; the constructor accepts any other length. *)
Theorem groups_index_partition (nw : Networks) (num_classes : list nat)
    (y_prior : option vec) (labels_groups : option (list Z)) (n_version : Z) (self : SCHANVAE) :
  SCHANVAE_init nw num_classes y_prior labels_groups true n_version = Ok self ->
  exists lg n_groups groups_index,
    labels_groups = Some lg /\
    groups self = Some (n_groups, groups_index) /\
    List.length groups_index = n_groups /\
    (forall g, g < n_groups ->
       List.length (nth g groups_index []) = List.length lg /\
       exists j, j < List.length lg /\ nth j (nth g groups_index []) 0%Z = 1%Z) /\
    (forall j, j < List.length lg ->
       exists g, g < n_groups /\ nth j (nth g groups_index []) 0%Z = 1%Z /\
         forall g', g' < n_groups -> nth j (nth g' groups_index []) 0%Z <> 0%Z -> g' = g) /\
    ((forall label, label < n_labels self ->
        exists g, g < n_groups /\ nth label (nth g groups_index []) 0%Z = 1%Z)
     <-> n_labels self <= List.length lg).
Proof.
  intros E. apply SCHANVAE_init_groups in E as [E _].
  apply init_groups_ok in E as [lg [-> [Hu Hg]]].
  set (n := List.length (np_unique lg)) in *.
  assert (Hpos : forall j, j < List.length lg ->
            exists g, g < n /\ nth j (nth g (map (group_mask lg) (seq 0 n)) []) 0%Z = 1%Z /\
              forall g', g' < n ->
                nth j (nth g' (map (group_mask lg) (seq 0 n)) []) 0%Z <> 0%Z -> g' = g).
  { intros j Hj.
    assert (Hin : In (nth j lg 0%Z) (np_arange n)).
    { rewrite <- Hu. apply in_np_unique. now apply nth_In. }
    apply in_np_arange in Hin as [g [Hlt Hx]].
    exists g. split; [assumption|]. split.
    + rewrite groups_index_nth, group_mask_nth by assumption.
      rewrite Hx. now rewrite Z.eqb_refl.
    + intros g' Hlt' H1. rewrite groups_index_nth, group_mask_nth in H1 by assumption.
      destruct (Z.eqb_spec (nth j lg 0%Z) (Z.of_nat g')) as [Heq|]; [|congruence].
      lia. }
  exists lg, n, (map (group_mask lg) (seq 0 n)).
  split; [reflexivity|]. split; [exact Hg|]. split; [now rewrite length_map, length_seq|].
  split; [|split; [exact Hpos|]].
  - intros g Hlt. rewrite groups_index_nth by assumption. split.
    + unfold group_mask. now rewrite length_map.
    + assert (Hin : In (Z.of_nat g) lg).
      { apply in_np_unique. rewrite Hu. apply in_np_arange. now exists g. }
      apply In_nth with (d := 0%Z) in Hin as [j [Hj Hn]].
      exists j. split; [assumption|].
      rewrite group_mask_nth by assumption. rewrite Hn. now rewrite Z.eqb_refl.
  - split.
    + intros Hall. destruct (Nat.le_gt_cases (n_labels self) (List.length lg)) as [Hle|Hgt];
        [assumption|].
      destruct (Hall (List.length lg) Hgt) as [g [Hlt Hm]].
      rewrite groups_index_nth in Hm by assumption.
      rewrite nth_overflow in Hm; [discriminate|].
      unfold group_mask. rewrite length_map. lia.
    + intros Hle label Hl. destruct (Hpos label) as [g [Hlt [Hm _]]]; [lia|]. eauto.
Qed.

(** *** Facts about tensors *)

Lemma mapM_ok {A B : Type} (f : A -> result B) (g : A -> B) (l : list A) :
  (forall x, In x l -> f x = Ok (g x)) -> mapM f l = Ok (map g l).
Proof.
  induction l as [|x l IH]; intros H; simpl; [reflexivity|].
  rewrite (H x (or_introl eq_refl)). simpl.
  rewrite IH by (intros y Hy; apply H; now right). reflexivity.
Qed.

Lemma length_map2 {A B C : Type} (f : A -> B -> C) (a : list A) (b : list B) :
  List.length a = List.length b -> List.length (map2 f a b) = List.length a.
Proof.
  revert b. induction a as [|x a IH]; intros [|y b] H; simpl in *; try lia.
  now rewrite IH by lia.
Qed.

Lemma length_map3 {A B C D : Type} (f : A -> B -> C -> D) (a : list A) (b : list B)
    (c : list C) :
  List.length a = List.length b -> List.length a = List.length c ->
  List.length (map3 f a b c) = List.length a.
Proof.
  revert b c. induction a as [|x a IH]; intros [|y b] [|z c] H1 H2; simpl in *; try lia.
  now rewrite IH by lia.
Qed.

Lemma nth_map2 {A B C : Type} (f : A -> B -> C) (a : list A) (b : list B) i da db dc :
  i < List.length a -> List.length a = List.length b ->
  nth i (map2 f a b) dc = f (nth i a da) (nth i b db).
Proof.
  revert b i. induction a as [|x a IH]; intros [|y b] i Hi Hl; simpl in *; try lia.
  destruct i; [reflexivity|]. apply IH; lia.
Qed.

Lemma nth_map3 {A B C D : Type} (f : A -> B -> C -> D) (a : list A) (b : list B)
    (c : list C) i da db dc dd :
  i < List.length a -> List.length a = List.length b -> List.length a = List.length c ->
  nth i (map3 f a b c) dd = f (nth i a da) (nth i b db) (nth i c dc).
Proof.
  revert b c i. induction a as [|x a IH]; intros [|y b] [|z c] i Hi H1 H2; simpl in *;
    try lia.
  destruct i; [reflexivity|]. apply IH; lia.
Qed.

Lemma mask_assign_select (f : R -> R) (mask : list Z) :
  forall w u : vec,
  List.length w = List.length mask -> List.length u = List.length mask ->
  mask_assign w mask (map f (mask_select u mask)) = Ok (row_set f w mask u).
Proof.
  induction mask as [|b mask IH]; intros [|x w] [|y u] Hw Hu; simpl in *; try lia.
  - reflexivity.
  - unfold row_set in *. simpl. destruct (b =? 0)%Z; simpl; rewrite IH by lia; reflexivity.
Qed.

Lemma mask_select_row_set (f : R -> R) (mask : list Z) :
  forall w u : vec,
  List.length w = List.length mask -> List.length u = List.length mask ->
  mask_select (row_set f w mask u) mask = map f (mask_select u mask).
Proof.
  induction mask as [|b mask IH]; intros [|x w] [|y u] Hw Hu; simpl in *; try lia.
  - reflexivity.
  - unfold row_set in *. simpl. destruct (b =? 0)%Z; simpl; rewrite IH by lia; reflexivity.
Qed.

Lemma row_set_twice (f1 f2 : R -> R) (mask : list Z) :
  forall w u : vec,
  List.length w = List.length mask -> List.length u = List.length mask ->
  row_set f2 (row_set f1 w mask u) mask u = row_set f2 w mask u.
Proof.
  induction mask as [|b mask IH]; intros [|x w] [|y u] Hw Hu; simpl in *; try lia.
  - reflexivity.
  - unfold row_set in *. simpl. rewrite IH by lia. now destruct (b =? 0)%Z.
Qed.

Lemma length_row_set (f : R -> R) (w : vec) (mask : list Z) (u : vec) :
  List.length w = List.length mask -> List.length u = List.length mask ->
  List.length (row_set f w mask u) = List.length mask.
Proof. intros Hw Hu. unfold row_set. rewrite length_map3; congruence. Qed.

Lemma mask_select_row_set_disjoint (f : R -> R) (mask mask' : list Z) :
  forall w u : vec,
  List.length w = List.length mask -> List.length u = List.length mask ->
  List.length mask' = List.length mask ->
  disjoint_masks mask' mask ->
  mask_select (row_set f w mask u) mask' = mask_select w mask'.
Proof.
  revert mask'. induction mask as [|b mask IH]; intros [|b' mask'] [|x w] [|y u] Hw Hu Hm Hd;
    simpl in *; try lia; try reflexivity.
  assert (Hd' : disjoint_masks mask' mask) by (intros j Hj; exact (Hd (S j) Hj)).
  unfold row_set in *. simpl. destruct (Z.eqb_spec b' 0) as [->|Hb'].
  - apply IH; auto; lia.
  - specialize (Hd 0 Hb'). simpl in Hd. subst b. simpl. f_equal. apply IH; auto; lia.
Qed.

Lemma bzip_scale (cur : vec) (g : R) :
  bzip (fun x y => Ok (x * y)%R) cur [g] = Ok (map (fun x => (x * g)%R) cur).
Proof.
  destruct cur as [|x [|x' cur]]; try reflexivity.
  unfold bzip. cbn [List.length Nat.eqb].
  apply mapM_ok. reflexivity.
Qed.

Lemma mapM_map_ok {A B C : Type} (f : B -> result C) (h : A -> B) (g : A -> C) (l : list A) :
  (forall t, In t l -> f (h t) = Ok (g t)) -> mapM f (map h l) = Ok (map g l).
Proof.
  induction l as [|t l IH]; intros H; simpl; [reflexivity|].
  rewrite (H t (or_introl eq_refl)). simpl.
  rewrite IH by (intros y Hy; apply H; now right). reflexivity.
Qed.

Lemma combine_map {A B C : Type} (h1 : A -> B) (h2 : A -> C) (l : list A) :
  combine (map h1 l) (map h2 l) = map (fun t => (h1 t, h2 t)) l.
Proof. induction l as [|t l IH]; simpl; [reflexivity|]. now rewrite IH. Qed.

Lemma group_step_rows (rows : list row3) (i : nat) (mask : list Z) :
  (forall t, In t rows -> row_shape (List.length mask) i t) ->
  group_step (PTensor (map g_of rows)) (map u_of rows) i mask (map w_of rows)
  = Ok (map w_of (map (group_row i mask) rows)).
Proof.
  intros Hs. unfold group_step.
  (* unw_y[:, group_index] *)
  unfold index_cols at 1.
  rewrite mapM_map_ok with (g := fun t => mask_select (u_of t) mask).
  2:{ intros t Ht. destruct (Hs t Ht) as [Hu _]. now rewrite Hu, Nat.eqb_refl. }
  cbn [bind]. rewrite map_map.
  (* w_y[:, group_index] = ... *)
  set (f1 := fun (t : row3) (x : R) => (x / (Rsum (mask_select (u_of t) mask) + epsilon))%R).
  unfold assign_cols at 1. rewrite !length_map, Nat.eqb_refl, combine_map.
  rewrite mapM_map_ok with (g := fun t => row_set (f1 t) (w_of t) mask (u_of t)).
  2:{ intros t Ht. destruct (Hs t Ht) as [Hu [Hw _]]. cbn [fst snd].
      now apply mask_assign_select. }
  cbn [bind].
  (* w_y[:, group_index] *)
  unfold index_cols at 1.
  rewrite mapM_map_ok with (g := fun t => map (f1 t) (mask_select (u_of t) mask)).
  2:{ intros t Ht. destruct (Hs t Ht) as [Hu [Hw _]].
      rewrite length_row_set, Nat.eqb_refl by assumption.
      now rewrite mask_select_row_set. }
  cbn [bind].
  (* w_g[:, [i]] *)
  unfold column.
  rewrite mapM_map_ok with (g := fun t => [nth i (g_of t) 0%R]).
  2:{ intros t Ht. destruct (Hs t Ht) as [_ [_ Hg]].
      destruct (nth_error (g_of t) i) eqn:E.
      - now rewrite (nth_error_nth _ _ _ E).
      - apply nth_error_None in E. lia. }
  cbn [bind].
  (* the product *)
  unfold bmul, bzip at 1. rewrite !length_map, Nat.eqb_refl, combine_map.
  rewrite mapM_map_ok
    with (g := fun t => map (fun x => (f1 t x * nth i (g_of t) 0)%R) (mask_select (u_of t) mask)).
  2:{ intros t Ht. cbn [fst snd]. rewrite bzip_scale. now rewrite map_map. }
  cbn [bind].
  (* the second assignment *)
  unfold assign_cols. rewrite !length_map, Nat.eqb_refl, combine_map.
  rewrite mapM_map_ok with (g := fun t => w_of (group_row i mask t)).
  2:{ intros t Ht. destruct (Hs t Ht) as [Hu [Hw _]]. cbn [fst snd].
      rewrite mask_assign_select
        with (f := fun x => (f1 t x * nth i (g_of t) 0)%R)
        by (rewrite ?length_row_set; auto).
      now rewrite row_set_twice. }
  now rewrite map_map.
Qed.

Lemma row_loop_g_u (masks : list (list Z)) :
  forall i t, g_of (row_loop i masks t) = g_of t /\ u_of (row_loop i masks t) = u_of t.
Proof.
  induction masks as [|m rest IH]; intros i t; simpl; [auto|].
  destruct (IH (S i) (group_row i m t)) as [-> ->]. auto.
Qed.

Lemma row_loop_length (len : nat) (masks : list (list Z)) :
  (forall m, In m masks -> List.length m = len) ->
  forall i t, List.length (u_of t) = len -> List.length (w_of t) = len ->
  List.length (w_of (row_loop i masks t)) = len.
Proof.
  induction masks as [|m rest IH]; intros Hm i t Hu Hw; simpl; [assumption|].
  assert (Hl : List.length m = len) by (apply Hm; now left).
  apply IH; [intros m' H'; apply Hm; now right|exact Hu|].
  unfold group_row, w_of at 1. cbn [snd]. rewrite length_row_set; congruence.
Qed.

Lemma group_loop_rows (len : nat) (masks : list (list Z)) :
  (forall m, In m masks -> List.length m = len) ->
  forall (i : nat) (rows : list row3),
  (forall t, In t rows -> List.length (u_of t) = len /\ List.length (w_of t) = len /\
                          i + List.length masks <= List.length (g_of t)) ->
  group_loop (PTensor (map g_of rows)) (map u_of rows) i masks (map w_of rows)
  = Ok (map w_of (map (row_loop i masks) rows)).
Proof.
  induction masks as [|m rest IH]; intros Hm i rows Hs; simpl.
  - now rewrite map_id.
  - assert (Hl : List.length m = len) by (apply Hm; now left).
    rewrite group_step_rows.
    2:{ intros t Ht. destruct (Hs t Ht) as [Hu [Hw Hg]]. simpl in Hg.
        unfold row_shape. repeat split; try congruence; lia. }
    cbn [bind].
    replace (map g_of rows) with (map g_of (map (group_row i m) rows))
      by (rewrite map_map; reflexivity).
    replace (map u_of rows) with (map u_of (map (group_row i m) rows))
      by (rewrite map_map; reflexivity).
    rewrite IH.
    + now rewrite !map_map.
    + intros m' H'. apply Hm. now right.
    + intros t' Ht'. apply in_map_iff in Ht' as [t [<- Ht]].
      destruct (Hs t Ht) as [Hu [Hw Hg]]. simpl in Hg. repeat split.
      * exact Hu.
      * unfold group_row, w_of at 1. cbn [snd]. rewrite length_row_set; congruence.
      * unfold group_row, g_of at 1. cbn [fst]. fold (g_of t). lia.
Qed.

(** Later turns leave alone what a disjoint mask selects. *)
Lemma row_loop_disjoint (len : nat) (mask : list Z) (masks : list (list Z)) :
  List.length mask = len ->
  (forall m, In m masks -> List.length m = len /\ disjoint_masks mask m) ->
  forall i t, List.length (u_of t) = len -> List.length (w_of t) = len ->
  mask_select (w_of (row_loop i masks t)) mask = mask_select (w_of t) mask.
Proof.
  intros Hl. induction masks as [|m rest IH]; intros Hm i t Hu Hw; simpl; [reflexivity|].
  destruct (Hm m (or_introl eq_refl)) as [Hlm Hd].
  rewrite IH.
  - unfold group_row, w_of at 1. cbn [snd].
    apply mask_select_row_set_disjoint; try congruence. exact Hd.
  - intros m' H'. apply Hm. now right.
  - exact Hu.
  - unfold group_row, w_of at 1. cbn [snd]. rewrite length_row_set; congruence.
Qed.

Lemma disjoint_group_masks (lg : list Z) (g g' : nat) :
  g <> g' -> disjoint_masks (group_mask lg g) (group_mask lg g').
Proof.
  intros Hne j Hj.
  destruct (Nat.lt_ge_cases j (List.length lg)) as [Hlt|Hge].
  - rewrite group_mask_nth in * by assumption.
    destruct (Z.eqb_spec (nth j lg 0%Z) (Z.of_nat g)) as [E|]; [|congruence].
    destruct (Z.eqb_spec (nth j lg 0%Z) (Z.of_nat g')) as [E'|]; [lia|reflexivity].
  - apply nth_overflow. unfold group_mask. now rewrite length_map.
Qed.

Lemma Rsum_scale (c : R) (l : vec) :
  Rsum (map (fun x => (x * c)%R) l) = (Rsum l * c)%R.
Proof.
  induction l as [|x l IH]; simpl; [lra|]. rewrite IH. lra.
Qed.

(** After the loop over the groups [i, i + k), what the mask of such a
    group selects is the within-group normalisation times the weight of
    the group. *)
Lemma row_loop_group (lg : list Z) (k : nat) :
  forall i t g,
  List.length (u_of t) = List.length lg -> List.length (w_of t) = List.length lg ->
  i <= g < i + k ->
  mask_select (w_of (row_loop i (map (group_mask lg) (seq i k)) t)) (group_mask lg g)
  = map (fun x => (x / (Rsum (mask_select (u_of t) (group_mask lg g)) + epsilon)
                   * nth g (g_of t) 0)%R)
      (mask_select (u_of t) (group_mask lg g)).
Proof.
  assert (Hlen : forall g, List.length (group_mask lg g) = List.length lg)
    by (intros g; unfold group_mask; now rewrite length_map).
  induction k as [|k IH]; intros i t g Hu Hw Hg; [lia|]. simpl.
  assert (Hw' : List.length (w_of (group_row i (group_mask lg i) t)) = List.length lg).
  { unfold group_row, w_of at 1. cbn [snd]. rewrite length_row_set; rewrite ?Hlen; auto. }
  destruct (Nat.eq_dec g i) as [->|Hne].
  - rewrite row_loop_disjoint with (len := List.length lg); auto.
    + unfold group_row, w_of at 1. cbn [snd].
      apply mask_select_row_set; rewrite ?Hlen; auto.
    + intros m Hm. apply in_map_iff in Hm as [g' [<- Hg']]. apply in_seq in Hg'.
      split; [apply Hlen|]. apply disjoint_group_masks. lia.
  - rewrite IH by (auto; lia). reflexivity.
Qed.

Lemma rows_of_maps (w_g unw_y : mat) :
  List.length w_g = List.length unw_y ->
  map g_of (rows_of w_g unw_y) = w_g /\
  map u_of (rows_of w_g unw_y) = unw_y /\
  map w_of (rows_of w_g unw_y) = zeros_like unw_y.
Proof.
  revert unw_y. induction w_g as [|g w_g IH]; intros [|u unw_y] H; simpl in *; try lia.
  - auto.
  - destruct (IH unw_y) as [H1 [H2 H3]]; [lia|].
    unfold rows_of in *. simpl. rewrite H1, H2, H3. auto.
Qed.

Lemma rows_of_nth (w_g unw_y : mat) (r : nat) :
  List.length w_g = List.length unw_y -> r < List.length unw_y ->
  nth r (rows_of w_g unw_y) ([], [], []) =
  (nth r w_g [], nth r unw_y [], map (fun _ => 0%R) (nth r unw_y [])).
Proof.
  intros Hl Hr. unfold rows_of.
  rewrite nth_map2 with (da := []) (db := []) by lia. reflexivity.
Qed.

Lemma in_rows_of (w_g unw_y : mat) (t : row3) :
  In t (rows_of w_g unw_y) ->
  In (g_of t) w_g /\ In (u_of t) unw_y /\ w_of t = map (fun _ => 0%R) (u_of t).
Proof.
  unfold rows_of. revert unw_y. induction w_g as [|g w_g IH]; intros [|u unw_y] H;
    simpl in *; try contradiction.
  destruct H as [<-|H].
  - cbn. auto.
  - destruct (IH unw_y H) as [H1 [H2 H3]]. auto.
Qed.

(** The group branch of [classify], row by row. *)
Lemma classify_group_rows (self : SCHANVAE) (lg : list Z) (n : nat)
    (x : mat) (batch_index cont_covs cat_covs : option mat) (z unw_y w_g : mat) :
  use_labels_groups self = true ->
  groups self = Some (n, map (group_mask lg) (seq 0 n)) ->
  classify_latent self x batch_index cont_covs cat_covs = Ok z ->
  classifier (nets self) z = PTensor unw_y ->
  classifier_groups (nets self) z = PTensor w_g ->
  List.length w_g = List.length unw_y ->
  (forall row, In row unw_y -> List.length row = List.length lg) ->
  (forall row, In row w_g -> n <= List.length row) ->
  classify self x batch_index cont_covs cat_covs
  = Ok (PTensor (map w_of (map (row_loop 0 (map (group_mask lg) (seq 0 n)))
                             (rows_of w_g unw_y)))).
Proof.
  intros Hu Hg Hz Hc Hcg Hl Hsu Hsg.
  unfold classify. rewrite Hz. cbn [bind]. rewrite Hu, Hc, Hg, Hcg.
  destruct (rows_of_maps w_g unw_y Hl) as [E1 [E2 E3]].
  pose proof (@group_loop_rows (List.length lg) (map (group_mask lg) (seq 0 n))) as Hloop.
  specialize (fun H1 => Hloop H1 0 (rows_of w_g unw_y)).
  rewrite E1, E2, E3 in Hloop. rewrite Hloop.
  - reflexivity.
  - intros m Hm. apply in_map_iff in Hm as [g [<- _]]. unfold group_mask.
    now rewrite length_map.
  - intros t Ht. apply in_rows_of in Ht as [H1 [H2 H3]].
    rewrite H3, !length_map, length_seq. simpl. auto.
Qed.

Lemma classify_group_sum (self : SCHANVAE) (lg : list Z) (n : nat)
    (x : mat) (batch_index cont_covs cat_covs : option mat) (z unw_y w_g : mat) :
  use_labels_groups self = true ->
  groups self = Some (n, map (group_mask lg) (seq 0 n)) ->
  classify_latent self x batch_index cont_covs cat_covs = Ok z ->
  classifier (nets self) z = PTensor unw_y ->
  classifier_groups (nets self) z = PTensor w_g ->
  List.length w_g = List.length unw_y ->
  (forall row, In row unw_y -> List.length row = List.length lg) ->
  (forall row, In row w_g -> n <= List.length row) ->
  exists w_y,
    classify self x batch_index cont_covs cat_covs = Ok (PTensor w_y) /\
    List.length w_y = List.length unw_y /\
    forall r g, r < List.length unw_y -> g < n ->
      Rsum (mask_select (nth r w_y []) (group_mask lg g))
      = (Rsum (mask_select (nth r unw_y []) (group_mask lg g))
         / (Rsum (mask_select (nth r unw_y []) (group_mask lg g)) + 1 / 100000000)
         * nth g (nth r w_g []) 0)%R.
Proof.
  intros Hu Hg Hz Hc Hcg Hl Hsu Hsg.
  eexists. split; [eapply classify_group_rows; eassumption|].
  assert (Hlr : List.length (rows_of w_g unw_y) = List.length unw_y).
  { unfold rows_of. rewrite length_map2; lia. }
  split; [now rewrite !length_map|].
  intros r g Hr Hlt. rewrite map_map.
  rewrite nth_indep with (d' := w_of (row_loop 0 (map (group_mask lg) (seq 0 n)) ([], [], [])))
    by now rewrite length_map, Hlr.
  rewrite map_nth with (f := fun t => w_of (row_loop 0 (map (group_mask lg) (seq 0 n)) t)).
  rewrite rows_of_nth by assumption.
  assert (Hlu : List.length (nth r unw_y []) = List.length lg)
    by (apply Hsu, nth_In; assumption).
  rewrite row_loop_group; cbn [u_of w_of g_of fst snd]; rewrite ?length_map; auto; [|lia].
  rewrite <- map_map with (f := fun x => (x / _)%R) (g := fun y => (y * nth g (nth r w_g []) 0)%R).
  rewrite Rsum_scale. f_equal.
  unfold Rdiv at 1. rewrite <- map_map with (g := fun y => (y * _)%R) (f := fun x => x).
  rewrite Rsum_scale, map_id. reflexivity.
Qed.

Lemma group_model_init :
  SCHANVAE_init group_nets [2] None (Some [0%Z; 1%Z]) true 0 = Ok group_model.
Proof. reflexivity. Qed.

Lemma SCHANVAE_init_nets nw nc yp lgo ulg nv m :
  SCHANVAE_init nw nc yp lgo ulg nv = Ok m -> nets m = nw.
Proof.
  unfold SCHANVAE_init, bind.
  destruct (nth_error nc _); [|discriminate].
  destruct (match yp with Some p => _ | None => _ end); [|discriminate].
  destruct (init_groups ulg lgo); [|discriminate].
  intros H. now inversion H.
Qed.

(** C6, as stated, fails: with label probabilities [1/2, 1/2], one label
    per group and group probabilities [1/2, 1/2], the output over the
    members of group 0 sums to about one half. *)
Lemma group_sum_not_one :
  exists w_y,
    classify group_model [[0%R]] None None None = Ok (PTensor w_y) /\
    Rsum (mask_select (nth 0 w_y []) (group_mask [0%Z; 1%Z] 0))
    = (25000000 / 50000001)%R /\
    ~ (Rabs (Rsum (mask_select (nth 0 w_y []) (group_mask [0%Z; 1%Z] 0)) - 1)
       <= 1 / 100000000)%R.
Proof.
  destruct (@classify_group_sum group_model [0%Z; 1%Z] 2 [[0%R]] None None None
              [[0%R]] [[1 / 2; 1 / 2]%R] [[1 / 2; 1 / 2]%R])
    as [w_y [E [_ H]]]; try reflexivity.
  - intros row [<-|[]]. reflexivity.
  - intros row [<-|[]]. simpl. lia.
  - exists w_y. split; [exact E|].
    specialize (H 0 0 (Nat.lt_0_succ _) (Nat.lt_0_succ _)). cbn in H.
    assert (Hv : Rsum (mask_select (nth 0 w_y []) (group_mask [0%Z; 1%Z] 0))
                 = (25000000 / 50000001)%R).
    { cbn. rewrite H. field. }
    split; [exact Hv|]. rewrite Hv.
    unfold Rabs. destruct (Rcase_abs _); lra.
Qed.

(** C6, amended: with [use_labels_groups], and classifiers that return
    tensors of matching shapes, the output of [classify] over the members
    of a group sums to [s / (s + 1e-8)] times the probability the group
    classifier gives the group, [s] being the sum of the label
    classifier's outputs over the members. *)
Theorem group_members_sum_to_group_weight (nw : Networks) (num_classes : list nat)
    (y_prior : option vec) (lg : list Z) (n_version : Z) (self : SCHANVAE)
    (x : mat) (batch_index cont_covs cat_covs : option mat) (z unw_y w_g : mat) :
  SCHANVAE_init nw num_classes y_prior (Some lg) true n_version = Ok self ->
  classify_latent self x batch_index cont_covs cat_covs = Ok z ->
  classifier nw z = PTensor unw_y ->
  classifier_groups nw z = PTensor w_g ->
  List.length w_g = List.length unw_y ->
  (forall row, In row unw_y -> List.length row = List.length lg) ->
  (forall row, In row w_g -> List.length (np_unique lg) <= List.length row) ->
  exists w_y,
    classify self x batch_index cont_covs cat_covs = Ok (PTensor w_y) /\
    List.length w_y = List.length unw_y /\
    forall r g, r < List.length unw_y -> g < List.length (np_unique lg) ->
      Rsum (mask_select (nth r w_y []) (group_mask lg g))
      = (Rsum (mask_select (nth r unw_y []) (group_mask lg g))
         / (Rsum (mask_select (nth r unw_y []) (group_mask lg g)) + 1 / 100000000)
         * nth g (nth r w_g []) 0)%R.
Proof.
  intros Hi Hz Hc Hcg Hl Hsu Hsg.
  pose proof (SCHANVAE_init_nets _ _ _ _ _ _ Hi) as Hn.
  apply SCHANVAE_init_groups in Hi as [Hg [_ Hu]].
  apply init_groups_ok in Hg as [lg' [Hlg [_ Hg]]].
  injection Hlg as <-.
  apply classify_group_sum with (z := z); try assumption; try (rewrite Hn; assumption).
Qed.

Lemma group_members_sum_to_group_weight_witness :
  exists w_y,
    classify group_model [[0%R]; [1%R]] None None None = Ok (PTensor w_y) /\
    List.length w_y = 2 /\
    forall r g, r < 2 -> g < 2 ->
      Rsum (mask_select (nth r w_y []) (group_mask [0%Z; 1%Z] g))
      = (Rsum (mask_select (nth r [[1 / 2; 1 / 2]; [1 / 2; 1 / 2]]%R []) (group_mask [0%Z; 1%Z] g))
         / (Rsum (mask_select (nth r [[1 / 2; 1 / 2]; [1 / 2; 1 / 2]]%R [])
                    (group_mask [0%Z; 1%Z] g)) + 1 / 100000000)
         * nth g (nth r [[1 / 2; 1 / 2]; [1 / 2; 1 / 2]]%R []) 0)%R.
Proof.
  apply (@group_members_sum_to_group_weight group_nets [2] None [0%Z; 1%Z] 0 group_model
           [[0%R]; [1%R]] None None None [[0%R]; [1%R]]
           [[1 / 2; 1 / 2]; [1 / 2; 1 / 2]]%R [[1 / 2; 1 / 2]; [1 / 2; 1 / 2]]%R);
    try reflexivity.
  - intros row [<-|[<-|[]]]; reflexivity.
  - intros row [<-|[<-|[]]]; simpl; lia.
Defined.


Lemma groups_index_partition_witness :
  exists lg n_groups groups_index,
    Some [0%Z; 1%Z] = Some lg /\
    groups group_model = Some (n_groups, groups_index) /\
    List.length groups_index = n_groups /\
    (forall g, g < n_groups ->
       List.length (nth g groups_index []) = List.length lg /\
       exists j, j < List.length lg /\ nth j (nth g groups_index []) 0%Z = 1%Z) /\
    (forall j, j < List.length lg ->
       exists g, g < n_groups /\ nth j (nth g groups_index []) 0%Z = 1%Z /\
         forall g', g' < n_groups -> nth j (nth g' groups_index []) 0%Z <> 0%Z -> g' = g) /\
    ((forall label, label < n_labels group_model ->
        exists g, g < n_groups /\ nth label (nth g groups_index []) 0%Z = 1%Z)
     <-> n_labels group_model <= List.length lg).
Proof.
  exact (@groups_index_partition group_nets [2] None (Some [0%Z; 1%Z]) 0 group_model
           eq_refl).
Defined.

Lemma list_as_map_nth {A : Type} (d : A) (l : list A) :
  l = map (fun i => nth i l d) (seq 0 (List.length l)).
Proof.
  set (f := fun i => nth i l d).
  apply nth_ext with (d := d) (d' := f 0).
  - now rewrite length_map, length_seq.
  - intros i Hi. rewrite map_nth, seq_nth by assumption. reflexivity.
Qed.

Lemma Rsum_as_sum_over (l : vec) :
  Rsum l = sum_over (List.length l) (fun i => nth i l 0%R).
Proof. unfold sum_over. now rewrite <- list_as_map_nth. Qed.

Lemma sum_over_ext (n : nat) (f g : nat -> R) :
  (forall i, i < n -> f i = g i) -> sum_over n f = sum_over n g.
Proof.
  intros H. unfold sum_over. f_equal. apply map_ext_in.
  intros i Hi. apply in_seq in Hi. apply H. lia.
Qed.

Lemma map_seq_ext {A : Type} (n : nat) (f g : nat -> A) :
  (forall i, i < n -> f i = g i) -> map f (seq 0 n) = map g (seq 0 n).
Proof.
  intros H. apply map_ext_in. intros i Hi. apply in_seq in Hi. apply H. lia.
Qed.

Lemma length_chunks (k n : nat) (v : vec) : List.length (chunks k n v) = n.
Proof. revert v. induction n as [|n IH]; intros v; simpl; [reflexivity|]. now rewrite IH. Qed.

Lemma chunks_nth (k n : nat) :
  forall (v : vec) c i, c < n -> i < k -> List.length v = n * k ->
  nth i (nth c (chunks k n v) []) 0%R = nth (c * k + i) v 0%R /\
  List.length (nth c (chunks k n v) []) = k.
Proof.
  induction n as [|n IH]; intros v c i Hc Hi Hl; [lia|]. simpl.
  destruct c as [|c].
  - simpl. split.
    + rewrite <- (firstn_skipn k v) at 2. rewrite app_nth1; [reflexivity|].
      rewrite length_firstn. lia.
    + rewrite length_firstn. lia.
  - destruct (IH (skipn k v) c i) as [H1 H2]; [lia|lia|rewrite length_skipn; lia|].
    split; [|exact H2]. rewrite H1.
    rewrite <- (firstn_skipn k v) at 2. rewrite app_nth2; rewrite length_firstn; [|lia].
    f_equal. simpl. lia.
Qed.

Lemma view_ok (n B : nat) (v : vec) :
  0 < n -> 0 < B -> List.length v = n * B -> view n v = Ok (chunks B n v).
Proof.
  intros Hn HB Hl. unfold view. rewrite Hl.
  replace (n =? 0) with false by (symmetry; apply Nat.eqb_neq; lia).
  replace (n * B =? 0) with false by (symmetry; apply Nat.eqb_neq; nia).
  rewrite Nat.mul_comm, Nat.Div0.mod_mul, Nat.div_mul by lia. reflexivity.
Qed.

Lemma ncols_chunks (n B : nat) (v : vec) :
  0 < n -> List.length v = n * B -> ncols (chunks B n v) = B.
Proof.
  intros Hn Hl. destruct n as [|n]; [lia|]. unfold ncols. simpl.
  rewrite length_firstn. nia.
Qed.

Lemma bzip_same {A B C : Type} (f : A -> B -> result C) (g : A -> B -> C)
    (a : list A) (b : list B) :
  List.length a = List.length b ->
  (forall x y, In (x, y) (combine a b) -> f x y = Ok (g x y)) ->
  bzip f a b = Ok (map2 g a b).
Proof.
  intros Hl H. unfold bzip. rewrite Hl, Nat.eqb_refl.
  clear Hl. revert b H. induction a as [|x a IH]; intros [|y b] H; simpl; try reflexivity.
  rewrite (H x y (or_introl eq_refl)). simpl. rewrite IH; [reflexivity|].
  intros x' y' Hin. apply H. now right.
Qed.

Lemma in_combine_nth {A B : Type} (a : list A) (b : list B) x y (da : A) (db : B) :
  In (x, y) (combine a b) ->
  exists i, i < List.length a /\ i < List.length b /\ nth i a da = x /\ nth i b db = y.
Proof.
  revert b. induction a as [|x' a IH]; intros [|y' b] H; simpl in *; try contradiction.
  destruct H as [H|H].
  - inversion H; subst. exists 0. repeat split; lia.
  - destruct (IH b H) as [i [H1 [H2 [H3 H4]]]]. exists (S i). repeat split; auto; lia.
Qed.

(** The probability-weighted sum over the label values, cell by cell. *)
Lemma weight_by_probs_ok (n B : nat) (v : vec) (m : mat) :
  0 < n -> 0 < B -> List.length v = n * B -> List.length m = B ->
  (forall row, In row m -> List.length row = n) ->
  weight_by_probs n v (P2 m)
  = Ok (map (fun i => sum_over n (fun c => (nth (c * B + i) v 0 * nth c (nth i m []) 0)%R))
          (seq 0 B)).
Proof.
  intros Hn HB Hl Hm Hrows. unfold weight_by_probs.
  rewrite (@view_ok n B v Hn HB Hl). cbn [bind]. unfold mul_probs, bmul, transpose.
  rewrite (@ncols_chunks n B v Hn Hl).
  rewrite bzip_same with (g := map2 Rmult).
  - cbn [bind]. f_equal. unfold sum_dim1.
    rewrite (list_as_map_nth [] m) at 1. rewrite Hm.
    set (t := fun j => map (fun row : list R => nth j row 0%R) (chunks B n v)).
    assert (Hz : forall (l : list nat),
               map Rsum (map2 (map2 Rmult) (map t l) (map (fun i => nth i m []) l))
               = map (fun i => Rsum (map2 Rmult (t i) (nth i m []))) l).
    { induction l as [|i l IH]; simpl; [reflexivity|]. now rewrite IH. }
    rewrite Hz. apply map_seq_ext. intros i Hi.
    assert (Hli : List.length (nth i m []) = n) by (apply Hrows, nth_In; lia).
    assert (Hlt : List.length (t i) = n) by (unfold t; now rewrite length_map, length_chunks).
    rewrite Rsum_as_sum_over, length_map2, Hlt by congruence.
    apply sum_over_ext. intros c Hc.
    rewrite nth_map2 with (da := 0%R) (db := 0%R) by congruence. f_equal.
    unfold t. set (h := fun row : list R => nth i row 0%R).
    rewrite nth_indep with (d' := h []) by now rewrite length_map, length_chunks.
    rewrite map_nth. unfold h. now apply chunks_nth.
  - now rewrite length_map, length_seq.
  - intros x y Hin. apply in_combine_nth with (da := []) (db := []) in Hin
      as [i [H1 [H2 [H3 H4]]]].
    rewrite length_map, length_seq in H1.
    apply bzip_same.
    + subst x y.
      set (t := fun j => map (fun row : list R => nth j row 0%R) (chunks B n v)).
      rewrite nth_indep with (d' := t 0) by now rewrite length_map, length_seq.
      rewrite map_nth. unfold t. rewrite length_map, length_chunks.
      symmetry. apply Hrows, nth_In. lia.
    + reflexivity.
Qed.

Lemma nth_map_lt {A B : Type} (f : A -> B) (l : list A) (i : nat) (d : A) (d' : B) :
  i < List.length l -> nth i (map f l) d' = f (nth i l d).
Proof.
  intros Hi. rewrite nth_indep with (d' := f d) by now rewrite length_map.
  apply map_nth.
Qed.

Lemma nth_map_seq {A : Type} (f : nat -> A) (n i : nat) (d : A) :
  i < n -> nth i (map f (seq 0 n)) d = f i.
Proof.
  intros Hi. rewrite nth_map_lt with (d := 0) by now rewrite length_seq.
  now rewrite seq_nth.
Qed.

Lemma nth_repeat_lt {A : Type} (x d : A) (n i : nat) : i < n -> nth i (repeat x n) d = x.
Proof.
  revert i. induction n as [|n IH]; intros i Hi; [lia|]. simpl.
  destruct i; [reflexivity|]. apply IH. lia.
Qed.

Lemma Rsum_map2_sum_over (f : R -> R -> R) (a b : vec) :
  List.length a = List.length b ->
  Rsum (map2 f a b) = sum_over (List.length a) (fun c => f (nth c a 0%R) (nth c b 0%R)).
Proof.
  intros Hl. rewrite Rsum_as_sum_over, length_map2 by assumption.
  apply sum_over_ext. intros c Hc. now apply nth_map2.
Qed.

Lemma kl_categorical_row_ok (p q : vec) :
  List.length p = List.length q -> kl_categorical_row p q = Ok (categorical_kl p q).
Proof.
  intros Hl. unfold kl_categorical_row, categorical_kl.
  rewrite bzip_same with (g := kl_term).
  - cbn [bind]. f_equal. unfold normalize.
    rewrite Rsum_map2_sum_over by now rewrite !length_map.
    rewrite length_map. apply sum_over_ext. intros c Hc.
    rewrite nth_map_lt with (d := 0%R) by assumption.
    rewrite nth_map_lt with (d := 0%R) by congruence. reflexivity.
  - unfold normalize. now rewrite !length_map.
  - reflexivity.
Qed.

Lemma iadd_same (a b : vec) :
  List.length b = List.length a -> iadd a b = Ok (map2 Rplus a b).
Proof. intros H. unfold iadd. now rewrite H, Nat.eqb_refl. Qed.

Lemma badd_same (a b : vec) :
  List.length a = List.length b -> badd a b = Ok (map2 Rplus a b).
Proof. intros H. unfold badd. now apply bzip_same. Qed.

Lemma iadd01_ok (a : vec) (t : tens01) :
  match t with T0 _ => True | T1 v => List.length v = List.length a end ->
  iadd01 a t = Ok (map2 (fun x i => (x + at01 t i)%R) a (seq 0 (List.length a))) .
Proof.
  destruct t as [r|v]; intros H; simpl.
  - f_equal. clear H. generalize 0%nat. induction a as [|x a IH]; intros s; simpl;
      [reflexivity|]. f_equal. apply IH.
  - rewrite iadd_same by assumption. f_equal.
    apply nth_ext with (d := 0%R) (d' := 0%R).
    + rewrite !length_map2; rewrite ?length_seq; auto.
    + intros i Hi. rewrite length_map2 in Hi by auto.
      rewrite nth_map2 with (da := 0%R) (db := 0%R) by auto.
      rewrite nth_map2 with (da := 0%R) (db := 0) by (rewrite ?length_seq; auto).
      now rewrite seq_nth.
Qed.

(** The probability-weighted terms under the shapes of a batch. *)
Lemma marginal_terms_value (self : SCHANVAE) (z1 : mat)
    (reconst_loss kl_divergence_z2 loss_z1_unweight loss_z1_weight : vec)
    (kl_divergence_l : tens01) (kl_weight : R) (B : nat) (probs : mat) :
  0 < B -> 0 < n_labels self ->
  List.length reconst_loss = B -> List.length loss_z1_weight = B ->
  List.length kl_divergence_z2 = n_labels self * B ->
  List.length loss_z1_unweight = n_labels self * B ->
  match kl_divergence_l with T0 _ => True | T1 v => List.length v = B end ->
  index1 (classifier (nets self) z1) = Ok (P2 probs) ->
  List.length probs = B ->
  (forall row, In row probs -> List.length row = n_labels self) ->
  List.length (y_prior self) = n_labels self ->
  exists reconst_loss' kl_divergence kl_divergence_cat,
    marginal_terms self z1 reconst_loss kl_divergence_z2 loss_z1_unweight loss_z1_weight
      kl_divergence_l kl_weight
    = Ok (marginalized_loss (n_labels self) B reconst_loss loss_z1_weight loss_z1_unweight
            kl_divergence_z2 kl_divergence_l probs (y_prior self) kl_weight,
          reconst_loss', kl_divergence, kl_divergence_cat).
Proof.
  intros HB Hn Hr Hw Hk Hu Hl Hp Hpr Hpc Hy.
  unfold marginal_terms. rewrite Hp. cbn [bind].
  rewrite (@weight_by_probs_ok (n_labels self) B loss_z1_unweight probs) by assumption.
  cbn [bind].
  set (wu := map _ (seq 0 B)).
  assert (Lwu : List.length wu = B) by (unfold wu; now rewrite length_map, length_seq).
  rewrite badd_same by congruence. cbn [bind].
  rewrite iadd_same by (rewrite length_map2; congruence). cbn [bind].
  rewrite (@weight_by_probs_ok (n_labels self) B kl_divergence_z2 probs) by assumption.
  cbn [bind].
  set (wk := map _ (seq 0 B)).
  assert (Lwk : List.length wk = B) by (unfold wk; now rewrite length_map, length_seq).
  unfold kl_categorical, size0.
  rewrite bzip_same with (g := categorical_kl).
  2:{ now rewrite repeat_length. }
  2:{ intros p q Hin. apply in_combine_r in Hin as Hq. apply repeat_spec in Hq. subst q.
      apply in_combine_l in Hin. apply kl_categorical_row_ok. rewrite Hy. now apply Hpc. }
  cbn [bind].
  set (kc := map2 categorical_kl probs _).
  assert (Lkc : List.length kc = B).
  { unfold kc. rewrite length_map2; [exact Hpr|]. now rewrite repeat_length. }
  rewrite iadd_same by congruence. cbn [bind].
  set (kd1 := map2 Rplus wk kc).
  assert (Lkd1 : List.length kd1 = B) by (unfold kd1; rewrite length_map2; congruence).
  rewrite iadd01_ok by (destruct kl_divergence_l; [exact I|congruence]). cbn [bind].
  set (kd := map2 _ kd1 _).
  assert (Lkd : List.length kd = B)
    by (unfold kd; rewrite length_map2; rewrite ?length_seq; congruence).
  set (r' := map2 Rplus reconst_loss _).
  assert (Lr' : List.length r' = B)
    by (unfold r'; rewrite !length_map2; rewrite ?length_map2; congruence).
  rewrite badd_same by (rewrite length_map; congruence). cbn [bind].
  exists r', kd, kc. do 4 f_equal.
  unfold mean, marginalized_loss.
  rewrite length_map2 by (rewrite length_map; congruence). rewrite Lr'.
  apply (f_equal (fun s => (s / INR B)%R)).
  rewrite Rsum_as_sum_over, length_map2, Lr' by (rewrite length_map; congruence).
  apply sum_over_ext. intros i Hi.
  rewrite nth_map2 with (da := 0%R) (db := 0%R) by (rewrite ?length_map; congruence).
  rewrite nth_map_lt with (d := 0%R) by congruence.
  assert (Lrhs : List.length (map2 Rplus loss_z1_weight wu) = B)
    by (rewrite length_map2; congruence).
  unfold r'. rewrite nth_map2 with (da := 0%R) (db := 0%R) by congruence.
  rewrite nth_map2 with (da := 0%R) (db := 0%R) by congruence.
  unfold kd. rewrite nth_map2 with (da := 0%R) (db := 0) (dc := 0%R)
    by (rewrite ?length_seq; lia).
  rewrite seq_nth by lia.
  unfold kd1. rewrite nth_map2 with (da := 0%R) (db := 0%R) by congruence.
  unfold wu, wk, kc.
  rewrite !nth_map_seq by assumption.
  rewrite nth_map2 with (da := @nil R) (db := @nil R) by (rewrite ?repeat_length; lia).
  rewrite nth_repeat_lt by lia.
  unfold marginalized_cell, weighted. cbn [Nat.add].
  rewrite sum_over_ext with (f := fun c => (nth c (nth i probs []) 0 * nth (c * B + i) loss_z1_unweight 0)%R)
                            (g := fun c => (nth (c * B + i) loss_z1_unweight 0 * nth c (nth i probs []) 0)%R)
    by (intros; apply Rmult_comm).
  rewrite sum_over_ext with (f := fun c => (nth c (nth i probs []) 0 * nth (c * B + i) kl_divergence_z2 0)%R)
                            (g := fun c => (nth (c * B + i) kl_divergence_z2 0 * nth c (nth i probs []) 0)%R)
    by (intros; apply Rmult_comm).
  lra.
Qed.

Lemma length_flat_map_repeat {A C : Type} (f : A -> C) (k : nat) (l : list A) :
  List.length (flat_map (fun c => repeat (f c) k) l) = List.length l * k.
Proof.
  induction l as [|x l IH]; simpl; [reflexivity|].
  now rewrite length_app, repeat_length, IH.
Qed.

Lemma length_concat_repeat {A : Type} (o : list A) (n : nat) :
  List.length (List.concat (repeat o n)) = n * List.length o.
Proof. induction n as [|n IH]; simpl; [reflexivity|]. now rewrite length_app, IH. Qed.

Lemma length_broadcast_labels (o : mat) (n : nat) :
  List.length (fst (broadcast_labels None o n)) = n * List.length o /\
  List.length (snd (broadcast_labels None o n)) = n * List.length o.
Proof.
  unfold broadcast_labels. cbn [fst snd]. split.
  - now rewrite length_flat_map_repeat, length_seq.
  - apply length_concat_repeat.
Qed.

(** [loss] on a batch without labels and without labelled tensors. *)
Lemma loss_unlabelled_value (self : SCHANVAE) (tensors : Tensors)
    (inference_outputs : InferenceOutputs) (generative_ouputs : GenerativeOutputs)
    (kl_weight : R) (classification_ratio : option R) (B : nat) (probs : mat) :
  batch_shapes self tensors inference_outputs generative_ouputs B probs ->
  let ys := fst (broadcast_labels None (z inference_outputs) (n_labels self)) in
  let z1s := snd (broadcast_labels None (z inference_outputs) (n_labels self)) in
  exists lr,
    loss self tensors inference_outputs generative_ouputs false kl_weight None
      classification_ratio = Ok lr /\
    loss_total lr =
    marginalized_loss (n_labels self) B
      (get_reconstruction_loss (nets self) (X_KEY tensors) (px_rate generative_ouputs)
         (px_r generative_ouputs) (px_dropout generative_ouputs))
      (loss_z1_weight_of inference_outputs)
      (loss_z1_unweight_of self z1s ys)
      (kl_divergence_z2_of self z1s ys)
      (kl_divergence_l_of self tensors inference_outputs)
      probs (y_prior self) kl_weight.
Proof.
  intros Hs ys z1s.
  destruct (@marginal_terms_value self (z inference_outputs)
              (get_reconstruction_loss (nets self) (X_KEY tensors) (px_rate generative_ouputs)
                 (px_r generative_ouputs) (px_dropout generative_ouputs))
              (kl_divergence_z2_of self z1s ys)
              (loss_z1_unweight_of self z1s ys)
              (loss_z1_weight_of inference_outputs)
              (kl_divergence_l_of self tensors inference_outputs)
              kl_weight B probs) as [r' [kd [kc E]]];
    try solve [destruct Hs; assumption].
  unfold loss, fed_labels. cbn [bind].
  destruct (broadcast_labels None (z inference_outputs) (n_labels self)) as [ys' z1s'] eqn:Eb.
  cbn [fst snd] in *. subst ys z1s. unfold loss_marginal. rewrite E. cbn [bind].
  eexists. split; reflexivity.
Qed.

Section LossFacts.
Variable self : SCHANVAE.
Variable tensors : Tensors.
Variable inference_outputs : InferenceOutputs.
Variable generative_ouputs : GenerativeOutputs.
Variable kl_weight : R.

Let reconst_loss : vec :=
  get_reconstruction_loss (nets self) (X_KEY tensors) (px_rate generative_ouputs)
    (px_r generative_ouputs) (px_dropout generative_ouputs).

(** The variant [n_version = 1] on labelled tensors. *)
Lemma loss_labelled_means (feed_labels : bool) (y : option (list nat))
    (lt : Tensors) (c r : R) :
  n_version self = 1%Z ->
  fed_labels feed_labels tensors = Ok y ->
  classification_loss self lt = Ok c ->
  let ys := fst (broadcast_labels y (z inference_outputs) (n_labels self)) in
  let z1s := snd (broadcast_labels y (z inference_outputs) (n_labels self)) in
  exists lr,
    loss self tensors inference_outputs generative_ouputs feed_labels kl_weight
      (Some lt) (Some r) = Ok lr /\
    loss_total lr =
    (mean_combined_loss reconst_loss (loss_z1_weight_of inference_outputs)
       (loss_z1_unweight_of self z1s ys) (kl_divergence_z2_of self z1s ys)
       (kl_divergence_l_of self tensors inference_outputs) kl_weight
     + c * r)%R /\
    classification_loss_rec lr = Some c.
Proof.
  intros Hv Hy Hc ys z1s. unfold loss. rewrite Hy. cbn [bind].
  subst ys z1s.
  destruct (broadcast_labels y (z inference_outputs) (n_labels self)) as [ys z1s].
  rewrite Hv, Hc. cbn [bind Z.eqb Pos.eqb times_ratio fst snd].
  eexists. split; [reflexivity|]. split; reflexivity.
Qed.

(** The variant [n_version = 0] on labelled tensors adds the weighted
    classification loss to the objective of the batch without them. *)
Lemma loss_labelled_marginal (feed_labels : bool) (lt : Tensors) (c r : R)
    (cr : option R) (lr0 : LossRecorder) :
  n_version self = 0%Z ->
  classification_loss self lt = Ok c ->
  loss self tensors inference_outputs generative_ouputs feed_labels kl_weight None cr
  = Ok lr0 ->
  exists lr,
    loss self tensors inference_outputs generative_ouputs feed_labels kl_weight
      (Some lt) (Some r) = Ok lr /\
    loss_total lr = (loss_total lr0 + c * r)%R /\
    classification_loss_rec lr = Some c.
Proof.
  intros Hv Hc. unfold loss.
  destruct (fed_labels feed_labels tensors) as [y|]; cbn [bind]; [|discriminate].
  destruct (broadcast_labels y (z inference_outputs) (n_labels self)) as [ys z1s].
  rewrite Hv. cbn [Z.eqb]. unfold loss_marginal.
  destruct (marginal_terms _ _ _ _ _ _ _ _) as [[[[l r'] kd] kc]|]; cbn [bind];
    [|discriminate].
  rewrite Hv, Hc. cbn [bind Z.eqb times_ratio].
  intros E. inversion E; subst; clear E. cbn [loss_total].
  eexists. split; [reflexivity|]. split; reflexivity.
Qed.

(** Any other [n_version] ignores the labelled tensors. *)
Lemma loss_labelled_ignored (feed_labels : bool) (lt : Tensors) (cr cr' : option R) :
  n_version self <> 0%Z -> n_version self <> 1%Z ->
  loss self tensors inference_outputs generative_ouputs feed_labels kl_weight (Some lt) cr
  = loss self tensors inference_outputs generative_ouputs feed_labels kl_weight None cr'.
Proof.
  intros H0 H1. unfold loss.
  destruct (fed_labels feed_labels tensors) as [y|]; cbn [bind]; [|reflexivity].
  destruct (broadcast_labels y (z inference_outputs) (n_labels self)) as [ys z1s].
  apply Z.eqb_neq in H0, H1. rewrite H1. unfold loss_marginal. rewrite H0. reflexivity.
Qed.

End LossFacts.

Lemma hier_model_init (v : Z) (d : R) :
  SCHANVAE_init (hier_nets d) [1; 2] None None false v = Ok (hier_model v d).
Proof. reflexivity. Qed.

Lemma two_cells_shapes (v : Z) (d : R) :
  batch_shapes (hier_model v d) two_cells two_cells_inference two_cells_generative 2
    [[1%R; 0%R]; [1%R; 0%R]].
Proof.
  constructor; try reflexivity; try (cbn; lia).
  intros row [<-|[<-|[]]]; reflexivity.
Qed.

Ltac eval_R :=
  lazy -[Rplus Rmult Rminus Ropp Rinv Rdiv ln sqrt PI INR IZR kl_term normal_kl
         normal_log_prob].

Lemma kl_term_zero (q : R) : kl_term 0 q = 0%R.
Proof. unfold kl_term. destruct (Req_dec_T 0 0); [reflexivity|contradiction]. Qed.

Lemma kl_term_one (q : R) : kl_term 1 q = (- ln q)%R.
Proof.
  unfold kl_term. destruct (Req_dec_T 1 0); [lra|]. rewrite ln_1. lra.
Qed.

Lemma ln_half : ln (1 / 2) = (- ln 2)%R.
Proof. unfold Rdiv. rewrite Rmult_1_l. apply ln_Rinv. lra. Qed.

Lemma ln_2_pos : (0 < ln 2)%R.
Proof. pose proof ln_lt_2. lra. Qed.

Lemma standard_normal_kl : normal_kl 0 (sqrt 1) 0 1 = 0%R.
Proof.
  unfold normal_kl. rewrite sqrt_1.
  replace ((1 / 1) ^ 2)%R with 1%R by field. rewrite ln_1. field.
Qed.

Lemma standard_normal_log_prob_2 :
  normal_log_prob 0 (sqrt 1) 2 = (normal_log_prob 0 (sqrt 1) 0 - 2)%R.
Proof. unfold normal_log_prob. rewrite sqrt_1. field. Qed.

Ltac simplify_example :=
  cbn [loss_total INR];
  replace (1 / (1 + (0 + 0)))%R with 1%R by field;
  replace (0 / (1 + (0 + 0)))%R with 0%R by field;
  replace (1 / (1 + 1) / (1 / (1 + 1) + (1 / (1 + 1) + 0)))%R with (1 / 2)%R by field;
  rewrite ?kl_term_zero, ?kl_term_one, ?ln_half, ?standard_normal_kl,
    ?standard_normal_log_prob_2.

(** C4, as stated, fails: for two cells of label 0 and a classifier with
    all mass on label 0, the marginalized loss is [ln 2], the loss with
    the labels fed is [ln 2 - 1], and the loss on labelled tensors is 0,
    with the labels fed or not. *)
Lemma collapsed_marginal_is_not_labelled_loss :
  exists u l1 l2 l3,
    index1 (classifier (nets (hier_model 1 0)) (z two_cells_inference))
    = Ok (P2 [[1; 0]; [1; 0]]%R) /\
    fed_labels true two_cells = Ok (Some [0; 0]) /\
    loss (hier_model 1 0) two_cells two_cells_inference two_cells_generative
      false 1 None None = Ok u /\
    loss (hier_model 1 0) two_cells two_cells_inference two_cells_generative
      true 1 None None = Ok l1 /\
    loss (hier_model 1 0) two_cells two_cells_inference two_cells_generative
      true 1 (Some two_cells) (Some 1%R) = Ok l2 /\
    loss (hier_model 1 0) two_cells two_cells_inference two_cells_generative
      false 1 (Some two_cells) (Some 1%R) = Ok l3 /\
    loss_total u = ln 2 /\
    loss_total l1 = (ln 2 - 1)%R /\
    loss_total l2 = 0%R /\
    loss_total l3 = 0%R /\
    loss_total u <> loss_total l1 /\
    loss_total u <> loss_total l2 /\
    loss_total u <> loss_total l3.
Proof.
  eexists. eexists. eexists. eexists.
  split; [reflexivity|]. split; [reflexivity|].
  split; [eval_R; reflexivity|]. split; [eval_R; reflexivity|].
  split; [eval_R; reflexivity|]. split; [eval_R; reflexivity|].
  assert (H0 : (0 < ln 2)%R) by exact ln_2_pos.
  simplify_example.
  repeat split; try lra.
Qed.

Lemma SCHANVAE_init_default_prior nw nc lgo ulg nv m :
  SCHANVAE_init nw nc None lgo ulg nv = Ok m ->
  y_prior m = repeat (1 / INR (n_labels m))%R (n_labels m) /\
  nth_error nc (List.length nc - 1) = Some (n_labels m).
Proof.
  unfold SCHANVAE_init, bind.
  destruct (nth_error nc _) as [n|]; [|discriminate].
  destruct (n =? 0); [discriminate|].
  destruct (init_groups ulg lgo); [|discriminate].
  intros H. inversion H; subst. simpl. auto.
Qed.

(** C1: on a batch without labels ([feed_labels=False],
    [labelled_tensors=None]) [broadcast_labels] yields tensors of
    [n_labels * batch_size] rows, and [loss] returns the mean over the
    cells of: reconstruction term, plus [loss_z1_weight], plus
    [loss_z1_unweight] weighted by the classifier's probabilities over the
    label values, plus [kl_weight] times the sum of [kl_divergence_z2]
    weighted the same way, the KL divergence of the categorical
    distribution of the probabilities from the one of [y_prior], and the
    library term.  [y_prior] is uniform, [1 / n_labels], when the
    constructor is given none. *)
Theorem unlabelled_loss_marginalizes (self : SCHANVAE) (tensors : Tensors)
    (inference_outputs : InferenceOutputs) (generative_ouputs : GenerativeOutputs)
    (kl_weight : R) (classification_ratio : option R) (B : nat) (probs : mat) :
  batch_shapes self tensors inference_outputs generative_ouputs B probs ->
  let ys := fst (broadcast_labels None (z inference_outputs) (n_labels self)) in
  let z1s := snd (broadcast_labels None (z inference_outputs) (n_labels self)) in
  (List.length ys = n_labels self * B /\ List.length z1s = n_labels self * B) /\
  (exists lr,
     loss self tensors inference_outputs generative_ouputs false kl_weight None
       classification_ratio = Ok lr /\
     loss_total lr =
     marginalized_loss (n_labels self) B
       (get_reconstruction_loss (nets self) (X_KEY tensors) (px_rate generative_ouputs)
          (px_r generative_ouputs) (px_dropout generative_ouputs))
       (loss_z1_weight_of inference_outputs)
       (loss_z1_unweight_of self z1s ys)
       (kl_divergence_z2_of self z1s ys)
       (kl_divergence_l_of self tensors inference_outputs)
       probs (y_prior self) kl_weight) /\
  (forall nw num_classes labels_groups use_labels_groups n_version m,
     SCHANVAE_init nw num_classes None labels_groups use_labels_groups n_version = Ok m ->
     y_prior m = repeat (1 / INR (n_labels m))%R (n_labels m)).
Proof.
  intros Hs ys z1s. split; [|split].
  - subst ys z1s. rewrite <- (shape_batch Hs). apply length_broadcast_labels.
  - now apply loss_unlabelled_value.
  - intros nw nc lgo ulg nv m E. now apply SCHANVAE_init_default_prior in E.
Qed.

Lemma unlabelled_loss_marginalizes_witness :
  let self := hier_model 0 0 in
  let ys := fst (broadcast_labels None (z two_cells_inference) 2) in
  let z1s := snd (broadcast_labels None (z two_cells_inference) 2) in
  (List.length ys = 2 * 2 /\ List.length z1s = 2 * 2) /\
  (exists lr,
     loss self two_cells two_cells_inference two_cells_generative false 1 None None = Ok lr /\
     loss_total lr =
     marginalized_loss 2 2
       (get_reconstruction_loss (nets self) (X_KEY two_cells) (px_rate two_cells_generative)
          (px_r two_cells_generative) (px_dropout two_cells_generative))
       (loss_z1_weight_of two_cells_inference)
       (loss_z1_unweight_of self z1s ys)
       (kl_divergence_z2_of self z1s ys)
       (kl_divergence_l_of self two_cells two_cells_inference)
       [[1; 0]; [1; 0]]%R (y_prior self) 1) /\
  (forall nw num_classes labels_groups use_labels_groups n_version m,
     SCHANVAE_init nw num_classes None labels_groups use_labels_groups n_version = Ok m ->
     y_prior m = repeat (1 / INR (n_labels m))%R (n_labels m)).
Proof.
  exact (@unlabelled_loss_marginalizes (hier_model 0 0) two_cells two_cells_inference
           two_cells_generative 1 None 2 [[1; 0]; [1; 0]]%R (two_cells_shapes 0 0)).
Defined.

(** C2, as stated, fails: with [n_version = 2] the loss for labelled
    tensors is the loss without them, although the weighted
    classification loss is 1.  With [n_version = 0] the loss is [ln 2 + 1]
    where the terms the claim lists add up to 1: the difference is the
    KL term of the categorical distribution. *)
Lemma labelled_loss_without_classification :
  exists a b a0,
    loss (hier_model 2 1) two_cells two_cells_inference two_cells_generative
      false 1 (Some two_cells) (Some 1%R) = Ok a /\
    loss (hier_model 2 1) two_cells two_cells_inference two_cells_generative
      false 1 None (Some 1%R) = Ok b /\
    classification_loss (hier_model 2 1) two_cells = Ok (1 + 0)%R /\
    times_ratio (1 + 0) (Some 1%R) = Ok ((1 + 0) * 1)%R /\
    loss_total a = loss_total b /\
    classification_loss_rec a = None /\
    loss (hier_model 0 1) two_cells two_cells_inference two_cells_generative
      false 1 (Some two_cells) (Some 1%R) = Ok a0 /\
    loss_total a0 = (ln 2 + 1)%R /\
    (mean_combined_loss
       (get_reconstruction_loss (nets (hier_model 0 1)) (X_KEY two_cells)
          (px_rate two_cells_generative) (px_r two_cells_generative)
          (px_dropout two_cells_generative))
       (loss_z1_weight_of two_cells_inference)
       (loss_z1_unweight_of (hier_model 0 1)
          (snd (broadcast_labels None (z two_cells_inference) 2%nat))
          (fst (broadcast_labels None (z two_cells_inference) 2%nat)))
       (kl_divergence_z2_of (hier_model 0 1)
          (snd (broadcast_labels None (z two_cells_inference) 2%nat))
          (fst (broadcast_labels None (z two_cells_inference) 2%nat)))
       (kl_divergence_l_of (hier_model 0 1) two_cells two_cells_inference) 1
     + (1 + 0) * 1 = 1)%R.
Proof.
  eexists. eexists. eexists.
  split; [eval_R; reflexivity|]. split; [eval_R; reflexivity|].
  split; [reflexivity|]. split; [reflexivity|]. split; [reflexivity|].
  split; [reflexivity|]. split; [eval_R; reflexivity|].
  split.
  - simplify_example. lra.
  - eval_R. simplify_example. lra.
Qed.

(** C2, amended: for [n_version] 1 the loss on labelled tensors is the sum
    of the means of the reconstruction term, of the two terms on z1 and,
    times [kl_weight], of the KL terms of z2 and of the library size, plus
    [classification_ratio] times the classification loss; for [n_version]
    0 it is the loss of the batch without labelled tensors plus the same
    classification term; for any other [n_version] the labelled tensors
    are ignored.  The library term is zero under [use_observed_lib_size]. *)
Theorem labelled_loss_composition (self : SCHANVAE) (tensors : Tensors)
    (inference_outputs : InferenceOutputs) (generative_ouputs : GenerativeOutputs)
    (feed_labels : bool) (kl_weight : R) (lt : Tensors) (c r : R)
    (y : option (list nat)) :
  fed_labels feed_labels tensors = Ok y ->
  classification_loss self lt = Ok c ->
  let ys := fst (broadcast_labels y (z inference_outputs) (n_labels self)) in
  let z1s := snd (broadcast_labels y (z inference_outputs) (n_labels self)) in
  let run labelled_tensors :=
    loss self tensors inference_outputs generative_ouputs feed_labels kl_weight
      labelled_tensors (Some r) in
  (n_version self = 1%Z ->
   exists lr, run (Some lt) = Ok lr /\
     loss_total lr =
     (mean (get_reconstruction_loss (nets self) (X_KEY tensors) (px_rate generative_ouputs)
              (px_r generative_ouputs) (px_dropout generative_ouputs))
      + mean (loss_z1_weight_of inference_outputs)
      + mean (loss_z1_unweight_of self z1s ys)
      + kl_weight * (mean (kl_divergence_z2_of self z1s ys)
                     + mean01 (kl_divergence_l_of self tensors inference_outputs))
      + c * r)%R) /\
  (n_version self = 0%Z ->
   forall lr0, run None = Ok lr0 ->
   exists lr, run (Some lt) = Ok lr /\ loss_total lr = (loss_total lr0 + c * r)%R) /\
  (n_version self <> 0%Z -> n_version self <> 1%Z -> run (Some lt) = run None) /\
  (use_observed_lib_size (nets self) = true ->
   mean01 (kl_divergence_l_of self tensors inference_outputs) = 0%R).
Proof.
  intros Hy Hc ys z1s run. repeat split.
  - intros Hv.
    destruct (@loss_labelled_means self tensors inference_outputs generative_ouputs
                kl_weight feed_labels y lt c r Hv Hy Hc) as [lr [E [T _]]].
    exists lr. split; [exact E|exact T].
  - intros Hv lr0 E0.
    destruct (@loss_labelled_marginal self tensors inference_outputs generative_ouputs
                kl_weight feed_labels lt c r (Some r) lr0 Hv Hc E0) as [lr [E [T _]]].
    exists lr. split; [exact E|exact T].
  - intros H0 H1. now apply loss_labelled_ignored.
  - intros Hl. unfold kl_divergence_l_of. now rewrite Hl.
Qed.

Lemma labelled_loss_composition_witness :
  exists lr,
    loss (hier_model 1 1) two_cells two_cells_inference two_cells_generative true 1
      (Some two_cells) (Some 3%R) = Ok lr /\
    loss_total lr =
    (mean (get_reconstruction_loss (nets (hier_model 1 1)) (X_KEY two_cells)
             (px_rate two_cells_generative) (px_r two_cells_generative)
             (px_dropout two_cells_generative))
     + mean (loss_z1_weight_of two_cells_inference)
     + mean (loss_z1_unweight_of (hier_model 1 1)
               (snd (broadcast_labels (Some [0; 0]%nat) (z two_cells_inference) 2%nat))
               (fst (broadcast_labels (Some [0; 0]%nat) (z two_cells_inference) 2%nat)))
     + 1 * (mean (kl_divergence_z2_of (hier_model 1 1)
                    (snd (broadcast_labels (Some [0; 0]%nat) (z two_cells_inference) 2%nat))
                    (fst (broadcast_labels (Some [0; 0]%nat) (z two_cells_inference) 2%nat)))
            + mean01 (kl_divergence_l_of (hier_model 1 1) two_cells two_cells_inference))
     + (1 + 0) * 3)%R.
Proof.
  exact (proj1 (@labelled_loss_composition (hier_model 1 1) two_cells two_cells_inference
                  two_cells_generative true 1 two_cells (1 + 0)%R 3%R (Some [0; 0])
                  eq_refl eq_refl) eq_refl).
Defined.

(** C3: on labelled tensors [n_version = 1] returns the sum of the means
    of the terms plus [classification_ratio] times the classification
    loss, [n_version = 0] returns the mean over the cells of the
    probability-weighted total plus the same classification term, and the
    two differ on some batch. *)
Theorem n_version_variants_distinct (self : SCHANVAE) (tensors : Tensors)
    (inference_outputs : InferenceOutputs) (generative_ouputs : GenerativeOutputs)
    (kl_weight : R) (lt : Tensors) (c r : R) (B : nat) (probs : mat) :
  classification_loss self lt = Ok c ->
  batch_shapes self tensors inference_outputs generative_ouputs B probs ->
  let ys := fst (broadcast_labels None (z inference_outputs) (n_labels self)) in
  let z1s := snd (broadcast_labels None (z inference_outputs) (n_labels self)) in
  let reconst_loss :=
    get_reconstruction_loss (nets self) (X_KEY tensors) (px_rate generative_ouputs)
      (px_r generative_ouputs) (px_dropout generative_ouputs) in
  let run := loss self tensors inference_outputs generative_ouputs false kl_weight
               (Some lt) (Some r) in
  (n_version self = 1%Z ->
   exists lr, run = Ok lr /\
     loss_total lr =
     (mean_combined_loss reconst_loss (loss_z1_weight_of inference_outputs)
        (loss_z1_unweight_of self z1s ys) (kl_divergence_z2_of self z1s ys)
        (kl_divergence_l_of self tensors inference_outputs) kl_weight
      + c * r)%R) /\
  (n_version self = 0%Z ->
   exists lr, run = Ok lr /\
     loss_total lr =
     (marginalized_loss (n_labels self) B reconst_loss (loss_z1_weight_of inference_outputs)
        (loss_z1_unweight_of self z1s ys) (kl_divergence_z2_of self z1s ys)
        (kl_divergence_l_of self tensors inference_outputs) probs (y_prior self) kl_weight
      + c * r)%R) /\
  (exists l1 l0,
     loss (hier_model 1 0) two_cells two_cells_inference two_cells_generative false 1
       (Some two_cells) (Some 1%R) = Ok l1 /\
     loss (hier_model 0 0) two_cells two_cells_inference two_cells_generative false 1
       (Some two_cells) (Some 1%R) = Ok l0 /\
     loss_total l1 <> loss_total l0).
Proof.
  intros Hc Hs ys z1s reconst_loss run. repeat split.
  - intros Hv.
    destruct (@loss_labelled_means self tensors inference_outputs generative_ouputs
                kl_weight false None lt c r Hv eq_refl Hc) as [lr [E [T _]]].
    exists lr. split; [exact E|exact T].
  - intros Hv.
    destruct (@loss_unlabelled_value self tensors inference_outputs generative_ouputs
                kl_weight (Some r) B probs Hs) as [lr0 [E0 T0]].
    destruct (@loss_labelled_marginal self tensors inference_outputs generative_ouputs
                kl_weight false lt c r (Some r) lr0 Hv Hc E0) as [lr [E [T _]]].
    exists lr. split; [exact E|]. rewrite T, T0. reflexivity.
  - eexists. eexists.
    split; [eval_R; reflexivity|]. split; [eval_R; reflexivity|].
    pose proof ln_2_pos. simplify_example. lra.
Qed.

Lemma n_version_variants_distinct_witness :
  exists lr,
    loss (hier_model 0 1) two_cells two_cells_inference two_cells_generative false 1
      (Some two_cells) (Some 3%R) = Ok lr /\
    loss_total lr =
    (marginalized_loss 2 2
       (get_reconstruction_loss (nets (hier_model 0 1)) (X_KEY two_cells)
          (px_rate two_cells_generative) (px_r two_cells_generative)
          (px_dropout two_cells_generative))
       (loss_z1_weight_of two_cells_inference)
       (loss_z1_unweight_of (hier_model 0 1)
          (snd (broadcast_labels None (z two_cells_inference) 2%nat))
          (fst (broadcast_labels None (z two_cells_inference) 2%nat)))
       (kl_divergence_z2_of (hier_model 0 1)
          (snd (broadcast_labels None (z two_cells_inference) 2%nat))
          (fst (broadcast_labels None (z two_cells_inference) 2%nat)))
       (kl_divergence_l_of (hier_model 0 1) two_cells two_cells_inference)
       [[1; 0]; [1; 0]] (y_prior (hier_model 0 1)) 1
     + (1 + 0) * 3)%R.
Proof.
  exact (proj1 (proj2 (@n_version_variants_distinct (hier_model 0 1) two_cells
                         two_cells_inference two_cells_generative 1 two_cells
                         (1 + 0)%R 3%R 2 [[1; 0]; [1; 0]]%R eq_refl (two_cells_shapes 0 1)))
           eq_refl).
Defined.

Lemma sum_over_S (n : nat) (f : nat -> R) :
  sum_over (S n) f = (sum_over n f + f n)%R.
Proof.
  unfold sum_over. rewrite seq_S, map_app. simpl.
  induction (map f (seq 0 n)) as [|x l IH]; simpl; [lra|]. rewrite IH. lra.
Qed.

Lemma sum_over_zero (n : nat) (f : nat -> R) :
  (forall c, c < n -> f c = 0%R) -> sum_over n f = 0%R.
Proof.
  induction n as [|n IH]; intros H; [reflexivity|].
  rewrite sum_over_S. rewrite IH by (intros; apply H; lia). rewrite H by lia. lra.
Qed.

Lemma sum_over_single (n y : nat) (f : nat -> R) :
  y < n -> (forall c, c < n -> c <> y -> f c = 0%R) -> sum_over n f = f y.
Proof.
  induction n as [|n IH]; intros Hy H; [lia|]. rewrite sum_over_S.
  destruct (Nat.eq_dec y n) as [->|Hne].
  - rewrite sum_over_zero by (intros c Hc; apply H; lia). lra.
  - rewrite IH by (try (intros; apply H); lia). rewrite (H n) by lia. lra.
Qed.

Lemma one_hot_row_nth (n y c : nat) :
  c < n -> nth c (one_hot_row n y) 0%R = if c =? y then 1%R else 0%R.
Proof. intros Hc. unfold one_hot_row. now rewrite nth_map_seq. Qed.

Lemma one_hot_row_sum (n y : nat) : y < n -> Rsum (one_hot_row n y) = 1%R.
Proof.
  intros Hy. unfold one_hot_row.
  change (Rsum (map ?f (seq 0 n))) with (sum_over n f).
  rewrite sum_over_single with (y := y); [now rewrite Nat.eqb_refl|assumption|].
  intros c _ Hne. apply Nat.eqb_neq in Hne. now rewrite Hne.
Qed.

Lemma length_one_hot_row (n y : nat) : List.length (one_hot_row n y) = n.
Proof. unfold one_hot_row. now rewrite length_map, length_seq. Qed.

(** Weights that put all mass on label [y] pick the entry of label [y]. *)
Lemma weighted_one_hot (n B y i : nat) (probs : mat) (v : vec) :
  y < n -> nth i probs [] = one_hot_row n y ->
  weighted n B probs v i = nth (y * B + i) v 0%R.
Proof.
  intros Hy Hp. unfold weighted. rewrite Hp.
  rewrite sum_over_single with (y := y); [|assumption|].
  - rewrite one_hot_row_nth, Nat.eqb_refl by assumption. lra.
  - intros c Hc Hne. rewrite one_hot_row_nth by assumption.
    apply Nat.eqb_neq in Hne. rewrite Hne. lra.
Qed.

Lemma categorical_kl_one_hot (n y : nat) (q : vec) :
  y < n -> categorical_kl (one_hot_row n y) q = (- ln (nth y q 0 / Rsum q))%R.
Proof.
  intros Hy. unfold categorical_kl.
  rewrite length_one_hot_row, one_hot_row_sum by assumption.
  rewrite sum_over_single with (y := y); [|assumption|].
  - rewrite one_hot_row_nth, Nat.eqb_refl by assumption.
    replace (1 / 1)%R with 1%R by field. apply kl_term_one.
  - intros c Hc Hne. rewrite one_hot_row_nth by assumption.
    apply Nat.eqb_neq in Hne. rewrite Hne.
    replace (0 / 1)%R with 0%R by field. apply kl_term_zero.
Qed.

(** C4, amended: when the classifier puts all mass on the label [y i] of
    each cell [i], the marginalized loss is the mean over the cells of the
    terms of the broadcast copy of that label, plus [kl_weight] times the
    KL term of the collapsed distribution, which is minus the logarithm
    of the prior probability of the label. *)
Theorem collapsed_marginal_loss (self : SCHANVAE) (tensors : Tensors)
    (inference_outputs : InferenceOutputs) (generative_ouputs : GenerativeOutputs)
    (kl_weight : R) (classification_ratio : option R) (B : nat) (probs : mat)
    (y : nat -> nat) :
  batch_shapes self tensors inference_outputs generative_ouputs B probs ->
  (forall i, i < B ->
     y i < n_labels self /\ nth i probs [] = one_hot_row (n_labels self) (y i)) ->
  let ys := fst (broadcast_labels None (z inference_outputs) (n_labels self)) in
  let z1s := snd (broadcast_labels None (z inference_outputs) (n_labels self)) in
  exists lr,
    loss self tensors inference_outputs generative_ouputs false kl_weight None
      classification_ratio = Ok lr /\
    loss_total lr =
    (sum_over B
       (fun i =>
          nth i (get_reconstruction_loss (nets self) (X_KEY tensors)
                   (px_rate generative_ouputs) (px_r generative_ouputs)
                   (px_dropout generative_ouputs)) 0
          + nth i (loss_z1_weight_of inference_outputs) 0
          + nth (y i * B + i) (loss_z1_unweight_of self z1s ys) 0
          + kl_weight *
            (nth (y i * B + i) (kl_divergence_z2_of self z1s ys) 0
             + - ln (nth (y i) (y_prior self) 0 / Rsum (y_prior self))
             + at01 (kl_divergence_l_of self tensors inference_outputs) i))
     / INR B)%R.
Proof.
  intros Hs Hy ys z1s.
  destruct (@loss_unlabelled_value self tensors inference_outputs generative_ouputs
              kl_weight classification_ratio B probs Hs) as [lr [E T]].
  exists lr. split; [exact E|]. rewrite T. unfold marginalized_loss.
  apply (f_equal (fun s => (s / INR B)%R)).
  apply sum_over_ext. intros i Hi. destruct (Hy i Hi) as [Hlt Hp].
  unfold marginalized_cell.
  rewrite !(@weighted_one_hot (n_labels self) B (y i) i probs) by assumption.
  rewrite Hp, categorical_kl_one_hot by assumption. reflexivity.
Qed.

Lemma collapsed_marginal_loss_witness :
  exists lr,
    loss (hier_model 0 0) two_cells two_cells_inference two_cells_generative false 1 None
      None = Ok lr /\
    loss_total lr =
    (sum_over 2
       (fun i =>
          nth i (get_reconstruction_loss (nets (hier_model 0 0)) (X_KEY two_cells)
                   (px_rate two_cells_generative) (px_r two_cells_generative)
                   (px_dropout two_cells_generative)) 0
          + nth i (loss_z1_weight_of two_cells_inference) 0
          + nth (0 * 2 + i)
              (loss_z1_unweight_of (hier_model 0 0)
                 (snd (broadcast_labels None (z two_cells_inference) 2%nat))
                 (fst (broadcast_labels None (z two_cells_inference) 2%nat))) 0
          + 1 *
            (nth (0 * 2 + i)
               (kl_divergence_z2_of (hier_model 0 0)
                  (snd (broadcast_labels None (z two_cells_inference) 2%nat))
                  (fst (broadcast_labels None (z two_cells_inference) 2%nat))) 0
             + - ln (nth 0 (y_prior (hier_model 0 0)) 0 / Rsum (y_prior (hier_model 0 0)))
             + at01 (kl_divergence_l_of (hier_model 0 0) two_cells two_cells_inference) i))
     / INR 2)%R.
Proof.
  apply (@collapsed_marginal_loss (hier_model 0 0) two_cells two_cells_inference
           two_cells_generative 1 None 2 [[1; 0]; [1; 0]]%R (fun _ => 0)
           (two_cells_shapes 0 0)).
  intros i Hi. split; [cbn; lia|].
  destruct i as [|[|i]]; [reflexivity|reflexivity|lia].
Defined.

End SCHANVAEFacts.

(** * Further properties of the trainer *)

Module TrainerRunFacts.

Import MnistTrainer TrainerRuns TrainerFacts.

(** ** The passes of the inner loop *)

Lemma length_zip_cycle {A B : Type} (xs : list A) (ys cur : list B) :
  ys <> [] -> List.length (zip_cycle xs ys cur) = List.length xs.
Proof.
  intros Hy. revert cur. induction xs as [|x xs IH]; intros cur; simpl; [reflexivity|].
  destruct cur as [|y cur]; simpl.
  - destruct ys as [|y ys]; [congruence|]. simpl. now rewrite IH.
  - now rewrite IH.
Qed.

Lemma zip_cycle_nil {A B : Type} (xs : list A) : zip_cycle xs (@nil B) [] = [].
Proof. now destruct xs. Qed.

Lemma length_batches (tensor : Type) (s : MnistTrainer tensor) :
  List.length (zip_cycle (train_loader s) (train_annotated_loader s)
                 (train_annotated_loader s)) = batches_per_epoch s.
Proof.
  unfold batches_per_epoch. destruct (train_annotated_loader s) as [|y ys] eqn:E.
  - now rewrite zip_cycle_nil.
  - now apply length_zip_cycle.
Qed.

(** ** What a pass records *)

Lemma logged_app (a n k : nat) : logged a (n + k) = logged a n ++ logged (a + n) k.
Proof. unfold logged. now rewrite seq_app, filter_app. Qed.

Lemma twice_app (l1 l2 : list nat) : twice (l1 ++ l2) = twice l1 ++ twice l2.
Proof. unfold twice. now rewrite flat_map_app. Qed.

Lemma logged_one (a : nat) : logged a 1 = if a mod 100 =? 0 then [a] else [].
Proof. unfold logged. cbn [seq filter]. reflexivity. Qed.

Lemma recorded_refl (overall : bool) (m : Metrics) : recorded overall [] m m.
Proof.
  unfold recorded. destruct overall; cbn [twice flat_map]; rewrite ?app_nil_r; auto 10.
Qed.

Lemma recorded_trans (overall : bool) (l1 l2 : list nat) (m m1 m2 : Metrics) :
  recorded overall l1 m m1 -> recorded overall l2 m1 m2 -> recorded overall (l1 ++ l2) m m2.
Proof.
  unfold recorded. rewrite twice_app. intros [H0 H] [H0' H']. split; [congruence|].
  destruct overall.
  - destruct H as [A [B [C [D E]]]], H' as [A' [B' [C' [D' E']]]].
    rewrite A', B', C', D', E', A, B, C. rewrite !app_assoc. auto.
  - destruct H as [A [B [C [D E]]]], H' as [A' [B' [C' [D' E']]]].
    rewrite A', B', C', D', E', A, B, C, D. rewrite !app_assoc. auto.
Qed.

Section Runs.
Variable tensor : Type.
Variable env : Env tensor.
Let trainer := MnistTrainer tensor.

Lemma after_loss_metrics (s : trainer) :
  metrics (after_loss s)
  = if iterate s mod 100 =? 0
    then metrics_append KCubo (iterate s)
           (metrics_append KClassification (iterate s) (metrics s))
    else metrics s.
Proof. unfold after_loss. now destruct (_ =? 0). Qed.

Lemma maybe_metric_metrics (b : bool) k (s : trainer) :
  metrics (if b then append_metric k s else s)
  = if b then metrics_append k (iterate s) (metrics s) else metrics s.
Proof. now destruct b. Qed.

(** [loss] raises before it records anything when it is not defined. *)
Lemma loss_undefined lt k rp cr m (s : trainer) :
  loss_defined m (labelled_fraction s) = false ->
  exists ex, loss env lt k rp cr m s = Raise ex /\
    (ex = ZeroDivisionError \/
     (String.eqb m "all" = false /\ String.eqb m "alternate" = false)).
Proof.
  unfold loss, loss_defined, bind.
  destruct (Qeq_bool _ _); cbn [negb andb]; [eauto|].
  destruct (String.eqb m "all"); cbn [orb]; [discriminate|].
  destruct (String.eqb m "alternate"); cbn [andb]; [|eauto].
  destruct (Z.eqb _ 0); cbn [negb]; [eauto|discriminate].
Qed.

(** When [loss] is defined it ends as its periodic recordings do. *)
Lemma loss_defined_outcome lt k rp cr m (s : trainer) :
  loss_defined m (labelled_fraction s) = true ->
  exists v, loss env lt k rp cr m s
            = bind (record_metrics env s) (fun s' => Ok (s', v)).
Proof.
  unfold loss, loss_defined, bind.
  destruct (Qeq_bool _ _); cbn [negb andb]; [discriminate|].
  destruct (String.eqb m "all"); cbn [orb]; [eauto|].
  destruct (String.eqb m "alternate"); cbn [andb]; [|discriminate].
  destruct (Z.eqb _ 0); cbn [negb]; [discriminate|].
  destruct (Z.eqb _ 0); eauto.
Qed.

Lemma loss_outcome lt k rp cr m (s : trainer) :
  match loss env lt k rp cr m s with
  | Ok (s', _) => loss_defined m (labelled_fraction s) = true /\ s' = after_loss s
  | Raise ex =>
      (loss_defined m (labelled_fraction s) = false /\
       (ex = ZeroDivisionError \/
        (String.eqb m "all" = false /\ String.eqb m "alternate" = false))) \/
      (loss_defined m (labelled_fraction s) = true /\ record_metrics env s = Raise ex)
  end.
Proof.
  destruct (loss_defined m (labelled_fraction s)) eqn:Hd.
  - destruct (loss_defined_outcome lt k rp cr m s Hd) as [v ->].
    destruct (record_metrics env s) as [s'|ex] eqn:E; cbn [bind].
    + split; [reflexivity|]. eapply record_metrics_inv. exact E.
    + right. auto.
  - destruct (loss_undefined lt k rp cr m s Hd) as [ex [-> H]]. left. auto.
Qed.

Ltac run_norm :=
  repeat (cbn [metrics iterate record_event incr_iterate labelled_fraction train_loader];
          rewrite ?maybe_metric_metrics, ?after_loss_metrics, ?maybe_metric_iterate,
            ?after_loss_iterate, ?maybe_metric_fraction, ?after_loss_fraction,
            ?maybe_metric_train_loader, ?after_loss_train_loader).

(** The metrics after one pass of the loop body. *)
Lemma train_batch_metrics n_epochs ol wt wp ns nsp nst cr um rw e t (s s' : trainer) :
  train_batch env n_epochs ol wt wp ns nsp nst cr um rw e t s = Ok s' ->
  recorded (negb (is_none ol)) (logged (iterate s) 1) (metrics s) (metrics s').
Proof.
  unfold train_batch. rewrite logged_one.
  destruct (resolve_n_samples ns nsp nst) as [kt kp] eqn:Ek.
  destruct ol as [ol|].
  - unfold bind at 1.
    destruct (loss env ol ns true cr um _) as [[s1 v]|] eqn:E1; [|discriminate].
    apply loss_inv in E1. subst s1. intros E. apply ok_inj in E. subst s'.
    run_norm. destruct (iterate s mod 100 =? 0).
    + unfold recorded. cbn. auto 10.
    + apply recorded_refl.
  - unfold bind at 1.
    destruct (loss env wt kt true cr "all" _) as [[s1 v]|] eqn:E1; [|discriminate].
    apply loss_inv in E1.
    destruct (wake_phi_epoch wp rw n_epochs e) as [lt rp] eqn:Eo.
    unfold bind at 1.
    destruct (loss env lt kp rp cr "all" _) as [[s4 v4]|] eqn:E4; [|discriminate].
    apply loss_inv in E4. subst s1 s4. intros E. apply ok_inj in E. subst s'.
    run_norm. destruct (iterate s mod 100 =? 0).
    + unfold recorded. cbn. rewrite <- !app_assoc. cbn. auto 10.
    + apply recorded_refl.
Qed.

(** A loop whose body advances the iteration count by [c] and records
    the iterations it passes. *)
Lemma for_each_recorded {A : Type} (body : A -> trainer -> result trainer)
    (P : trainer -> Prop) (overall : bool) (c : nat) (xs : list A) :
  (forall x s s', In x xs -> P s -> body x s = Ok s' ->
     P s' /\ iterate s' = iterate s + c /\
     recorded overall (logged (iterate s) c) (metrics s) (metrics s')) ->
  forall s s', P s -> for_each body xs s = Ok s' ->
    P s' /\ iterate s' = iterate s + List.length xs * c /\
    recorded overall (logged (iterate s) (List.length xs * c)) (metrics s) (metrics s').
Proof.
  induction xs as [|x xs IH]; intros Hb s s' Hs E; simpl in E.
  - inversion E; subst. cbn [List.length Nat.mul]. rewrite Nat.add_0_r.
    split; [assumption|]. split; [reflexivity|]. apply recorded_refl.
  - destruct (body x s) as [s1|] eqn:E1; simpl in E; [|discriminate].
    destruct (Hb x s s1 (or_introl eq_refl) Hs E1) as [P1 [I1 R1]].
    destruct (IH (fun y t t' Hy => Hb y t t' (or_intror Hy)) s1 s' P1 E) as [P' [I' R']].
    split; [assumption|]. cbn [List.length Nat.mul]. split; [lia|].
    rewrite logged_app. rewrite I1 in R'. eapply recorded_trans; eassumption.
Qed.

(** The loaders and the labelled fraction of [s0] are those of [t]. *)
Let same_data (s0 t : trainer) : Prop :=
  train_loader t = train_loader s0 /\
  train_annotated_loader t = train_annotated_loader s0 /\
  labelled_fraction t = labelled_fraction s0.

Lemma same_data_batches (s0 t : trainer) :
  same_data s0 t -> batches_per_epoch t = batches_per_epoch s0.
Proof. intros [H1 [H2 _]]. unfold batches_per_epoch. now rewrite H1, H2. Qed.

Section RunFacts.
Variable n_epochs : nat.
Variable overall_loss : option string.
Variables wake_theta wake_psi : string.
Variables n_samples n_samples_phi n_samples_theta : option nat.
Variable classification_ratio : Q.
Variable update_mode : string.
Variable reparam_wphi : bool.

Let run := train env n_epochs overall_loss wake_theta wake_psi n_samples n_samples_phi
             n_samples_theta classification_ratio update_mode reparam_wphi.
Let run_epoch := train_epoch env n_epochs overall_loss wake_theta wake_psi n_samples
                   n_samples_phi n_samples_theta classification_ratio update_mode
                   reparam_wphi.
Let run_batch := train_batch env n_epochs overall_loss wake_theta wake_psi n_samples
                   n_samples_phi n_samples_theta classification_ratio update_mode
                   reparam_wphi.

Lemma run_batch_step (s0 : trainer) e t (s s' : trainer) :
  same_data s0 s -> run_batch e t s = Ok s' ->
  same_data s0 s' /\ iterate s' = iterate s + 1 /\
  recorded (negb (is_none overall_loss)) (logged (iterate s) 1) (metrics s) (metrics s').
Proof.
  intros [H1 [H2 H3]] E. pose proof (train_batch_metrics _ _ _ _ _ _ _ _ _ _ _ _ _ E) as R.
  apply train_batch_inv in E as [_ [_ [I [F [L A]]]]].
  split; [repeat split; congruence|]. split; [lia|exact R].
Qed.

Lemma run_epoch_step (s0 : trainer) e (s s' : trainer) :
  same_data s0 s -> run_epoch e s = Ok s' ->
  same_data s0 s' /\ iterate s' = iterate s + batches_per_epoch s0 /\
  recorded (negb (is_none overall_loss)) (logged (iterate s) (batches_per_epoch s0))
    (metrics s) (metrics s').
Proof.
  intros H E. unfold run_epoch, train_epoch in E.
  apply (@for_each_recorded _ _ (same_data s0) (negb (is_none overall_loss)) 1) in E.
  - rewrite length_batches, Nat.mul_1_r, (same_data_batches H) in E. exact E.
  - intros t u u' _ Hu Eu. now apply (@run_batch_step s0 e t).
  - exact H.
Qed.

Lemma run_steps (s s' : trainer) :
  run s = Ok s' ->
  same_data s s' /\ iterate s' = iterate s + n_epochs * batches_per_epoch s /\
  recorded (negb (is_none overall_loss)) (logged (iterate s) (n_epochs * batches_per_epoch s))
    (metrics s) (metrics s').
Proof.
  intros E. unfold run, train in E.
  destruct (py_assert (_ || _)); simpl in E; [|discriminate].
  destruct (py_assert (Bool.eqb _ _)); simpl in E; [|discriminate].
  apply (@for_each_recorded _ _ (same_data s) (negb (is_none overall_loss))
           (batches_per_epoch s)) in E.
  - now rewrite length_seq in E.
  - intros e u u' _ Hu Eu. now apply (@run_epoch_step s e).
  - repeat split.
Qed.

(** *** When a run returns *)

Let mode : string :=
  match overall_loss with
  | Some _ => update_mode
  | None => "all"
  end.

(** The first call of [loss] in a pass. *)
Let first_call (e : nat) (s : trainer) : result (trainer * loss_value) :=
  match overall_loss with
  | Some ol =>
      loss env ol n_samples true classification_ratio update_mode
        (record_event (ELoss e Overall ol n_samples true update_mode) s)
  | None =>
      loss env wake_theta (fst (resolve_n_samples n_samples n_samples_phi n_samples_theta))
        true classification_ratio "all"
        (record_event
           (ELoss e WakeTheta wake_theta
              (fst (resolve_n_samples n_samples n_samples_phi n_samples_theta)) true "all") s)
  end.

Lemma run_batch_first e t (s : trainer) ex :
  first_call e s = Raise ex -> run_batch e t s = Raise ex.
Proof.
  unfold first_call, run_batch, train_batch.
  destruct (resolve_n_samples n_samples n_samples_phi n_samples_theta) as [kt kp].
  cbn [fst]. destruct overall_loss as [ol|]; intros ->; reflexivity.
Qed.

Lemma first_call_outcome e (s : trainer) :
  match first_call e s with
  | Ok (s', _) => loss_defined mode (labelled_fraction s) = true
  | Raise ex =>
      (loss_defined mode (labelled_fraction s) = false /\
       (ex = ZeroDivisionError \/
        (String.eqb mode "all" = false /\ String.eqb mode "alternate" = false))) \/
      (loss_defined mode (labelled_fraction s) = true /\
       exists ev, record_metrics env (record_event ev s) = Raise ex)
  end.
Proof.
  unfold first_call, mode. destruct overall_loss as [ol|].
  - pose proof (loss_outcome ol n_samples true classification_ratio update_mode
                  (record_event (ELoss e Overall ol n_samples true update_mode) s)) as H.
    destruct (loss env ol _ _ _ _ _) as [[s1 v]|ex]; [now destruct H|].
    destruct H as [H|[H1 H2]]; [now left|]. right. eauto.
  - match goal with |- context [loss env wake_theta ?k true classification_ratio "all" ?u] =>
      pose proof (loss_outcome wake_theta k true classification_ratio "all" u) as H;
      destruct (loss env wake_theta k true classification_ratio "all" u) as [[s1 v]|ex]
    end; [now destruct H|].
    destruct H as [H|[H1 H2]]; [now left|]. right. eauto.
Qed.

(** A pass of the loop body returns when [loss] is defined and the
    periodic evaluation returns. *)
Lemma run_batch_returns e t (s : trainer) :
  loss_defined mode (labelled_fraction s) = true ->
  cubo_evaluates env (train_loader s) ->
  exists s', run_batch e t s = Ok s'.
Proof.
  intros Hd Hc. unfold run_batch, train_batch, mode in *.
  destruct (resolve_n_samples n_samples n_samples_phi n_samples_theta) as [kt kp].
  destruct overall_loss as [ol|].
  - match goal with |- context [loss env ol n_samples true classification_ratio update_mode ?u] =>
      destruct (loss_defined_outcome ol n_samples true classification_ratio update_mode u Hd)
        as [v ->];
      rewrite (record_metrics_returns (env := env) u Hc)
    end.
    cbn [bind]. eauto.
  - match goal with |- context [loss env wake_theta kt true classification_ratio "all" ?u] =>
      destruct (loss_defined_outcome wake_theta kt true classification_ratio "all" u Hd)
        as [v ->];
      rewrite (record_metrics_returns (env := env) u Hc)
    end.
    cbn [bind].
    destruct (wake_phi_epoch wake_psi reparam_wphi n_epochs e) as [lt rp].
    match goal with |- context [loss env lt kp rp classification_ratio "all" ?u] =>
      assert (Hd' : loss_defined "all" (labelled_fraction u) = true)
        by (run_norm; exact Hd);
      assert (Hc' : cubo_evaluates env (train_loader u))
        by (run_norm; exact Hc);
      destruct (loss_defined_outcome lt kp rp classification_ratio "all" u Hd') as [v' ->];
      rewrite (record_metrics_returns (env := env) u Hc')
    end.
    cbn [bind]. eauto.
Qed.

Lemma run_invalid (s : trainer) :
  valid_arguments update_mode n_samples_phi n_samples_theta = false ->
  run s = Raise AssertionError.
Proof.
  unfold valid_arguments, run, train. intros H.
  destruct (String.eqb update_mode "all" || String.eqb update_mode "alternate");
    cbn [py_assert bind]; [|reflexivity].
  cbn [andb] in H. now rewrite H.
Qed.

Lemma run_nothing (s : trainer) :
  valid_arguments update_mode n_samples_phi n_samples_theta = true ->
  n_epochs = 0 \/ batches_per_epoch s = 0 ->
  run s = Ok s.
Proof.
  unfold valid_arguments. intros Hv Hd. apply andb_prop in Hv as [Hv1 Hv2].
  unfold run, train. rewrite Hv1, Hv2. cbn [py_assert bind].
  destruct Hd as [->|Hd]; [reflexivity|].
  rewrite <- length_batches in Hd. apply length_zero_iff_nil in Hd.
  generalize (seq 0 n_epochs). intros l.
  induction l as [|e l IH]; cbn [for_each]; [reflexivity|].
  unfold train_epoch at 1. rewrite Hd. cbn [for_each bind]. exact IH.
Qed.

Lemma run_returns (s : trainer) :
  valid_arguments update_mode n_samples_phi n_samples_theta = true ->
  cubo_evaluates env (train_loader s) ->
  n_epochs = 0 \/ batches_per_epoch s = 0 \/ loss_defined mode (labelled_fraction s) = true ->
  exists s', run s = Ok s'.
Proof.
  intros Hv Hc [Hd|[Hd|Hd]]; [exists s; apply run_nothing; auto ..|].
  unfold valid_arguments in Hv. apply andb_prop in Hv as [Hv1 Hv2].
  unfold run, train. rewrite Hv1, Hv2. cbn [py_assert bind].
  destruct (for_each_total run_epoch (same_data s) (seq 0 n_epochs)) with (s := s)
    as [s' [E _]]; [|repeat split|now exists s'].
  intros e u _ Hu. unfold run_epoch, train_epoch.
  apply for_each_total; [|exact Hu].
  intros t w Ht Hw.
  assert (Hdef : loss_defined mode (labelled_fraction w) = true)
    by (destruct Hw as [_ [_ ->]]; exact Hd).
  assert (Hcw : cubo_evaluates env (train_loader w))
    by (destruct Hw as [-> _]; exact Hc).
  destruct (run_batch_returns e t w Hdef Hcw) as [w' Eb].
  exists w'. split; [exact Eb|]. now apply (@run_batch_step s e t w).
Qed.

(** The first pass of a run that has one. *)
Lemma run_first_pass (s : trainer) ex :
  valid_arguments update_mode n_samples_phi n_samples_theta = true ->
  n_epochs <> 0 -> batches_per_epoch s <> 0 ->
  first_call 0 s = Raise ex ->
  run s = Raise ex.
Proof.
  unfold valid_arguments. intros Hv Hn Hb Hf. apply andb_prop in Hv as [Hv1 Hv2].
  unfold run, train. rewrite Hv1, Hv2. cbn [py_assert bind].
  assert (Hs : forall n, n <> 0 -> seq 0 n = 0 :: seq 1 (n - 1))
    by (intros [|n] H; [congruence|]; cbn [seq Nat.sub]; now rewrite ?Nat.sub_0_r).
  rewrite (Hs _ Hn). cbn [for_each].
  unfold train_epoch at 1. rewrite <- length_batches in Hb.
  destruct (zip_cycle _ _ _) as [|t ts]; [now destruct Hb|]. cbn [for_each].
  pose proof (run_batch_first 0 t s Hf) as Ho. unfold run_batch in Ho.
  rewrite Ho. reflexivity.
Qed.

Lemma run_divides_by_zero (s : trainer) :
  valid_arguments update_mode n_samples_phi n_samples_theta = true ->
  n_epochs <> 0 -> batches_per_epoch s <> 0 ->
  loss_defined mode (labelled_fraction s) = false ->
  run s = Raise ZeroDivisionError.
Proof.
  intros Hv Hn Hb Hd. apply run_first_pass; try assumption.
  pose proof (first_call_outcome 0 s) as Ho.
  destruct (first_call 0 s) as [[s1 v]|ex]; [congruence|].
  destruct Ho as [[_ [->|[H1 H2]]]|[Ho _]]; [reflexivity| |congruence].
  exfalso. unfold valid_arguments in Hv. apply andb_prop in Hv as [Hv1 _].
  unfold mode in H1, H2. destruct overall_loss; [|discriminate].
  rewrite H1, H2 in Hv1. discriminate.
Qed.

(** What the periodic evaluation raises in the first pass leaves the run. *)
Lemma run_evaluation_raises (s : trainer) ex :
  valid_arguments update_mode n_samples_phi n_samples_theta = true ->
  n_epochs <> 0 -> batches_per_epoch s <> 0 ->
  loss_defined mode (labelled_fraction s) = true ->
  iterate s mod 100 = 0 ->
  cubo_raises env (train_loader s) ex ->
  run s = Raise ex.
Proof.
  intros Hv Hn Hb Hd Hi Hc. apply run_first_pass; try assumption.
  unfold first_call, mode in *. destruct overall_loss as [ol|].
  - match goal with |- loss env ol n_samples true classification_ratio update_mode ?u = _ =>
      destruct (loss_defined_outcome ol n_samples true classification_ratio update_mode u Hd)
        as [v ->];
      rewrite (record_metrics_raises (env := env) u Hi Hc)
    end.
    reflexivity.
  - match goal with |- loss env wake_theta ?k true classification_ratio "all" ?u = _ =>
      destruct (loss_defined_outcome wake_theta k true classification_ratio "all" u Hd)
        as [v ->];
      rewrite (record_metrics_raises (env := env) u Hi Hc)
    end.
    reflexivity.
Qed.

End RunFacts.
End Runs.

(** ** The objective of the mode [alternate] *)

Lemma py_int_inverse (n d : positive) :
  py_int (1 / (Z.pos n # d))%Q = (Z.pos d / Z.pos n)%Z.
Proof.
  unfold Qdiv, Qinv, Qmult, py_int. cbn [Qnum Qden].
  rewrite Z.mul_1_l, Pos.mul_1_l. apply Z.quot_div_nonneg; lia.
Qed.

(** X1: a run that returns has passed once through the loop body for
    each batch of the training loader in each epoch, and not at all when
    the labelled loader is empty; loaders and labelled fraction are
    unchanged. *)
Theorem train_counts_batches (tensor : Type) (env : Env tensor) (n_epochs : nat)
    (overall_loss : option string)
    (wake_theta wake_psi : string) (n_samples n_samples_phi n_samples_theta : option nat)
    (classification_ratio : Q) (update_mode : string) (reparam_wphi : bool)
    (s s' : MnistTrainer tensor) :
  train env n_epochs overall_loss wake_theta wake_psi n_samples n_samples_phi n_samples_theta
    classification_ratio update_mode reparam_wphi s = Ok s' ->
  iterate s' = iterate s + n_epochs * batches_per_epoch s /\
  train_loader s' = train_loader s /\
  train_annotated_loader s' = train_annotated_loader s /\
  labelled_fraction s' = labelled_fraction s.
Proof.
  intros E. apply run_steps in E as [[H1 [H2 H3]] [I _]]. auto.
Qed.

Lemma train_counts_batches_witness :
  iterate example_final = iterate example_trainer + 2 * batches_per_epoch example_trainer /\
  train_loader example_final = train_loader example_trainer /\
  train_annotated_loader example_final = train_annotated_loader example_trainer /\
  labelled_fraction example_final = labelled_fraction example_trainer.
Proof.
  apply (@train_counts_batches (list nat) (example_env 2) 2 None "ELBO" "ELBO+REVKL" None
           (Some 3) (Some 4) 50%Q "all" true example_trainer example_final).
  vm_compute. reflexivity.
Defined.

(** X2: what a run that returns has added to the metrics.  With the
    iterations of the run that are multiples of 100 as [its]: nothing is
    ever recorded under [train_phi_sleep]; with one objective [its] is
    appended to [train_loss], [classification_loss] and [train_cubo]; in
    the wake-wake mode [its] is appended to [train_theta_wake] and
    [train_phi_wake], and each of its iterations twice to
    [classification_loss] and [train_cubo]. *)
Theorem train_records_every_hundredth (tensor : Type) (env : Env tensor) (n_epochs : nat)
    (overall_loss : option string)
    (wake_theta wake_psi : string) (n_samples n_samples_phi n_samples_theta : option nat)
    (classification_ratio : Q) (update_mode : string) (reparam_wphi : bool)
    (s s' : MnistTrainer tensor) :
  train env n_epochs overall_loss wake_theta wake_psi n_samples n_samples_phi n_samples_theta
    classification_ratio update_mode reparam_wphi s = Ok s' ->
  recorded (negb (is_none overall_loss))
    (logged (iterate s) (n_epochs * batches_per_epoch s)) (metrics s) (metrics s').
Proof.
  intros E. now apply run_steps in E as [_ [_ R]].
Qed.

Lemma train_records_every_hundredth_witness :
  recorded false (logged 0 (2 * 2)) (metrics example_trainer) (metrics example_final) /\
  logged 0 (2 * 2) = [0] /\
  classification_loss (metrics example_final) = [0; 0].
Proof.
  split; [|split; reflexivity].
  apply (@train_records_every_hundredth (list nat) (example_env 2) 2 None "ELBO"
           "ELBO+REVKL" None (Some 3) (Some 4) 50%Q "all" true example_trainer
           example_final).
  vm_compute. reflexivity.
Defined.

(** X3: how [train] ends.  Whatever the periodic evaluation does, [train]
    raises [AssertionError] when its arguments fail the assertions,
    returns the trainer unchanged when there is nothing to do (no epoch,
    or no pass of the loop), and raises [ZeroDivisionError] in its first
    pass when [loss] is not defined (labelled fraction zero or, with one
    objective in the mode [alternate], [int(1 / labelled_fraction)]
    zero).  When the evaluation of the training loader that [loss] asks
    for every hundredth iteration returns a CUBO, these are the only
    exceptions, and the run returns in every other case: the
    [ValueError] of [loss] for an unknown mode is ruled out by the
    assertion.  When that evaluation raises, as [dic_concat] does with
    [IndexError] for a tensor without an axis of the batch size, a run
    from an iteration count that is a multiple of 100 raises the same
    exception in its first pass. *)
Theorem train_outcome (tensor : Type) (env : Env tensor) (n_epochs : nat)
    (overall_loss : option string)
    (wake_theta wake_psi : string) (n_samples n_samples_phi n_samples_theta : option nat)
    (classification_ratio : Q) (update_mode : string) (reparam_wphi : bool)
    (s : MnistTrainer tensor) :
  let mode := match overall_loss with Some _ => update_mode | None => "all" end in
  let valid := valid_arguments update_mode n_samples_phi n_samples_theta in
  let run := train env n_epochs overall_loss wake_theta wake_psi n_samples n_samples_phi
               n_samples_theta classification_ratio update_mode reparam_wphi s in
  (valid = false -> run = Raise AssertionError) /\
  (valid = true -> n_epochs = 0 \/ batches_per_epoch s = 0 -> run = Ok s) /\
  (valid = true -> n_epochs <> 0 -> batches_per_epoch s <> 0 ->
   loss_defined mode (labelled_fraction s) = false -> run = Raise ZeroDivisionError) /\
  (cubo_evaluates env (train_loader s) ->
   match run with
   | Ok _ =>
       valid = true /\
       (n_epochs = 0 \/ batches_per_epoch s = 0 \/
        loss_defined mode (labelled_fraction s) = true)
   | Raise ex =>
       (ex = AssertionError /\ valid = false) \/
       (ex = ZeroDivisionError /\ valid = true /\ n_epochs <> 0 /\
        batches_per_epoch s <> 0 /\ loss_defined mode (labelled_fraction s) = false)
   end) /\
  (forall ex, cubo_raises env (train_loader s) ex ->
   valid = true -> n_epochs <> 0 -> batches_per_epoch s <> 0 ->
   loss_defined mode (labelled_fraction s) = true -> iterate s mod 100 = 0 ->
   run = Raise ex).
Proof.
  intros mode valid run. split; [|split; [|split; [|split]]].
  - intros Hv. now apply run_invalid.
  - intros Hv Hd. now apply run_nothing.
  - intros Hv Hn Hb Hd. now apply run_divides_by_zero.
  - intros Hc. destruct valid eqn:Hv.
    + destruct (Nat.eq_dec n_epochs 0) as [Hn|Hn].
      { destruct (@run_returns tensor env n_epochs overall_loss wake_theta wake_psi n_samples
                    n_samples_phi n_samples_theta classification_ratio update_mode
                    reparam_wphi s Hv Hc (or_introl Hn)) as [s' E].
        unfold run. rewrite E. auto. }
      destruct (Nat.eq_dec (batches_per_epoch s) 0) as [Hb|Hb].
      { destruct (@run_returns tensor env n_epochs overall_loss wake_theta wake_psi n_samples
                    n_samples_phi n_samples_theta classification_ratio update_mode
                    reparam_wphi s Hv Hc (or_intror (or_introl Hb))) as [s' E].
        unfold run. rewrite E. auto. }
      destruct (loss_defined mode (labelled_fraction s)) eqn:Hd.
      { destruct (@run_returns tensor env n_epochs overall_loss wake_theta wake_psi n_samples
                    n_samples_phi n_samples_theta classification_ratio update_mode
                    reparam_wphi s Hv Hc (or_intror (or_intror Hd))) as [s' E].
        unfold run. rewrite E. auto. }
      unfold run.
      rewrite (@run_divides_by_zero tensor env n_epochs overall_loss wake_theta wake_psi
                 n_samples n_samples_phi n_samples_theta classification_ratio update_mode
                 reparam_wphi s Hv Hn Hb Hd).
      right. auto.
    + unfold run.
      rewrite (@run_invalid tensor env n_epochs overall_loss wake_theta wake_psi n_samples
                 n_samples_phi n_samples_theta classification_ratio update_mode
                 reparam_wphi s Hv).
      left. auto.
  - intros ex Hc Hv Hn Hb Hd Hi. now apply run_evaluation_raises.
Qed.

Lemma train_outcome_witness :
  (exists s', train (example_env 2) 2 None "ELBO" "ELBO" (Some 1) None None 50%Q "all" true
                example_trainer = Ok s') /\
  train (example_env 128) 2 None "ELBO" "ELBO" (Some 1) None None 50%Q "all" true
    example_trainer = Raise IndexError /\
  train (example_env 2) 2 (Some "ELBO") "ELBO" "ELBO" (Some 1) None None 50%Q "alternate" true
    (MnistTrainer_init (3 # 2) [example_batch] [example_batch] true)
  = Raise ZeroDivisionError.
Proof.
  split; [|split].
  - pose proof (proj1 (proj2 (proj2 (proj2
                  (@train_outcome (list nat) (example_env 2) 2 None "ELBO" "ELBO" (Some 1)
                     None None 50%Q "all" true example_trainer))))) as H.
    cbv zeta in H.
    destruct (train (example_env 2) 2 None "ELBO" "ELBO" (Some 1) None None 50%Q "all" true
                example_trainer) as [s'|ex].
    + now exists s'.
    + exfalso.
      destruct H as [[_ H]|[_ [_ [_ [_ H]]]]]; [|discriminate H|discriminate H].
      intros h. eexists. eexists. split; reflexivity.
  - apply (proj2 (proj2 (proj2 (proj2
             (@train_outcome (list nat) (example_env 128) 2 None "ELBO" "ELBO" (Some 1)
                None None 50%Q "all" true example_trainer))))).
    + intros h. reflexivity.
    + reflexivity.
    + discriminate.
    + discriminate.
    + reflexivity.
    + reflexivity.
  - apply (proj1 (proj2 (proj2
             (@train_outcome (list nat) (example_env 2) 2 (Some "ELBO") "ELBO" "ELBO"
                (Some 1) None None 50%Q "alternate" true
                (MnistTrainer_init (3 # 2) [example_batch] [example_batch] true))))).
    + reflexivity.
    + discriminate.
    + discriminate.
    + reflexivity.
Defined.

(** X4: in the mode [alternate], a labelled fraction above one half (and
    at most one) makes every iteration a supervised one, and a labelled
    fraction above one makes [loss] raise [ZeroDivisionError]:
    [int(1 / labelled_fraction)] is then 1, respectively 0.  With the
    former fraction [loss] ends as its periodic recordings do: it
    returns when the evaluation of the training loader returns a CUBO. *)
Theorem alternate_large_fraction (tensor : Type) (env : Env tensor) (loss_type : string)
    (n_samples : option nat) (reparam : bool) (classification_ratio : Q)
    (s : MnistTrainer tensor) :
  ((1 # 2 < labelled_fraction s)%Q -> (labelled_fraction s <= 1)%Q ->
   loss env loss_type n_samples reparam classification_ratio "alternate" s
   = bind (record_metrics env s)
       (fun s' => Ok (s', {| j_term := JSupervised; ratio := classification_ratio |})) /\
   (cubo_evaluates env (train_loader s) ->
    loss env loss_type n_samples reparam classification_ratio "alternate" s
    = Ok (after_loss s, {| j_term := JSupervised; ratio := classification_ratio |}))) /\
  ((1 < labelled_fraction s)%Q ->
   loss env loss_type n_samples reparam classification_ratio "alternate" s
   = Raise ZeroDivisionError).
Proof.
  assert (Hs : (1 # 2 < labelled_fraction s)%Q -> (labelled_fraction s <= 1)%Q ->
               loss env loss_type n_samples reparam classification_ratio "alternate" s
               = bind (record_metrics env s)
                   (fun s' => Ok (s', {| j_term := JSupervised;
                                         ratio := classification_ratio |}))).
  { unfold loss. destruct (labelled_fraction s) as [n d]. unfold Qlt, Qle.
    cbn [Qnum Qden]. intros H1 H2. destruct n as [|n|n]; try lia.
    rewrite py_int_inverse.
    replace (Z.pos d / Z.pos n)%Z with 1%Z
      by (apply Z.div_unique with (r := (Z.pos d - Z.pos n)%Z); lia).
    change (Qeq_bool (Z.pos n # d) 0) with false.
    cbn [bind String.eqb Ascii.eqb Bool.eqb Z.eqb].
    now rewrite Z.mod_1_r. }
  split.
  - intros H1 H2. split; [now apply Hs|].
    intros Hc. rewrite (Hs H1 H2), (record_metrics_returns _ Hc). reflexivity.
  - unfold loss. destruct (labelled_fraction s) as [n d]. unfold Qlt.
    cbn [Qnum Qden]. intros H1. destruct n as [|n|n]; try lia.
    rewrite py_int_inverse. rewrite Z.div_small by lia. reflexivity.
Qed.

Lemma alternate_large_fraction_witness :
  loss (example_env 2) "ELBO" (Some 5) true 50%Q "alternate"
    (MnistTrainer_init (2 # 3) [example_batch] [example_batch] true)
  = Ok (after_loss (MnistTrainer_init (2 # 3) [example_batch] [example_batch] true),
        {| j_term := JSupervised; ratio := 50%Q |}) /\
  loss (example_env 128) "ELBO" (Some 5) true 50%Q "alternate"
    (MnistTrainer_init (2 # 3) [example_batch] [example_batch] true)
  = Raise IndexError /\
  loss (example_env 2) "ELBO" (Some 5) true 50%Q "alternate"
    (MnistTrainer_init (3 # 2) [example_batch] [example_batch] true)
  = Raise ZeroDivisionError.
Proof.
  split; [|split].
  - apply (proj1 (@alternate_large_fraction (list nat) (example_env 2) "ELBO" (Some 5) true
                    50%Q (MnistTrainer_init (2 # 3) [example_batch] [example_batch] true)));
      [reflexivity | unfold Qle; simpl; lia |].
    intros h. eexists. eexists. split; reflexivity.
  - assert (H : (2 # 3 <= 1)%Q) by (unfold Qle; simpl; lia).
    rewrite (proj1 (proj1 (@alternate_large_fraction (list nat) (example_env 128) "ELBO"
                             (Some 5) true 50%Q
                             (MnistTrainer_init (2 # 3) [example_batch] [example_batch] true))
                      eq_refl H)).
    reflexivity.
  - apply (proj2 (@alternate_large_fraction (list nat) (example_env 2) "ELBO" (Some 5) true
                    50%Q (MnistTrainer_init (3 # 2) [example_batch] [example_batch] true)));
      reflexivity.
Defined.

End TrainerRunFacts.

(** * Properties of [inference], [dic_update] and [dic_concat] *)

Module InferenceFacts.

Import MnistTrainer MnistInference.

(** ** Dictionaries *)

Lemma dict_get_set_same {V : Type} (k : string) (v : V) (d : dict V) :
  dict_get k (dict_set k v d) = Some v.
Proof.
  induction d as [|[k' v'] d IH]; simpl.
  - now rewrite String.eqb_refl.
  - destruct (String.eqb_spec k k') as [->|Hne]; simpl.
    + now rewrite String.eqb_refl.
    + apply String.eqb_neq in Hne. now rewrite Hne.
Qed.

Lemma dict_get_set_other {V : Type} (k k' : string) (v : V) (d : dict V) :
  String.eqb k k' = false -> dict_get k (dict_set k' v d) = dict_get k d.
Proof.
  intros Hne. induction d as [|[k2 v2] d IH]; simpl.
  - now rewrite Hne.
  - destruct (String.eqb_spec k' k2) as [->|Hne2]; simpl.
    + now rewrite Hne.
    + now rewrite IH.
Qed.

Lemma dict_keys_set {V : Type} (k : string) (v : V) (d : dict V) :
  dict_keys (dict_set k v d) = if mem k (dict_keys d) then dict_keys d else dict_keys d ++ [k].
Proof.
  unfold dict_keys, mem. induction d as [|[k' v'] d IH]; simpl; [reflexivity|].
  destruct (String.eqb k k'); simpl; [reflexivity|].
  rewrite IH. now destruct (existsb _ _).
Qed.

Lemma mem_In (k : string) (ks : list string) : mem k ks = true <-> In k ks.
Proof.
  unfold mem. rewrite existsb_exists. split.
  - intros [x [Hx He]]. apply String.eqb_eq in He. now subst.
  - intros H. exists k. split; [assumption|apply String.eqb_refl].
Qed.

Lemma in_keys_set {V : Type} (k k' : string) (v : V) (d : dict V) :
  In k (dict_keys (dict_set k' v d)) -> k = k' \/ In k (dict_keys d).
Proof.
  rewrite dict_keys_set. destruct (mem k' (dict_keys d)); [auto|].
  intros H. apply in_app_or in H as [H|[H|[]]]; auto.
Qed.

Lemma extend_cons {V : Type} (o : option (list V)) (v : V) (l : list V) :
  extend (extend o [v]) l = extend o (v :: l).
Proof. destruct o as [l0|]; simpl; [now rewrite <- app_assoc|reflexivity]. Qed.

Lemma extend_app {V : Type} (o : option (list V)) (l1 l2 : list V) :
  extend (extend o l1) l2 = extend o (l1 ++ l2).
Proof.
  destruct o as [l0|]; simpl; [now rewrite <- app_assoc|].
  destruct l1; simpl; [reflexivity|reflexivity].
Qed.

Lemma dic_update_get {V : Type} (k : string) (new_dic : dict V) (dic : dict (list V)) :
  dict_get k (dic_update dic new_dic) = extend (dict_get k dic) (values_of k new_dic).
Proof.
  unfold dic_update, values_of. revert dic.
  induction new_dic as [|[k' v] nd IH]; intros dic; cbn [fold_left filter map fst snd].
  - destruct (dict_get k dic); simpl; [now rewrite app_nil_r|reflexivity].
  - rewrite IH. destruct (String.eqb_spec k k') as [<-|Hne].
    + cbn [map snd]. rewrite <- extend_cons. f_equal.
      destruct (dict_get k dic) as [li|] eqn:E; now rewrite dict_get_set_same.
    + apply String.eqb_neq in Hne. f_equal.
      destruct (dict_get k' dic); now apply dict_get_set_other.
Qed.

Lemma dic_update_fold_get {V : Type} (k : string) (rs : list (dict V)) (dic : dict (list V)) :
  dict_get k (fold_left dic_update rs dic)
  = extend (dict_get k dic) (flat_map (values_of k) rs).
Proof.
  revert dic. induction rs as [|r rs IH]; intros dic; cbn [fold_left flat_map].
  - destruct (dict_get k dic); simpl; [now rewrite app_nil_r|reflexivity].
  - now rewrite IH, dic_update_get, extend_app.
Qed.

(** In a dictionary, whose keys are distinct, a key has at most one value. *)
Lemma values_of_get {V : Type} (k : string) (d : dict V) :
  NoDup (dict_keys d) ->
  values_of k d = match dict_get k d with
                  | Some v => [v]
                  | None => []
                  end.
Proof.
  unfold values_of, dict_keys. induction d as [|[k' v] d IH]; intros Hd; simpl; [reflexivity|].
  inversion Hd as [|? ? Hn Hd']; subst.
  destruct (String.eqb_spec k k') as [<-|Hne]; simpl.
  - f_equal. clear IH Hd Hd'. induction d as [|[k2 v2] d IH]; simpl; [reflexivity|].
    simpl in Hn. destruct (String.eqb_spec k k2) as [<-|Hne2]; [tauto|].
    apply IH. tauto.
  - now apply IH.
Qed.

Lemma dic_update_keys {V : Type} (k : string) (new_dic : dict V) (dic : dict (list V)) :
  In k (dict_keys (dic_update dic new_dic)) ->
  In k (dict_keys dic) \/ In k (dict_keys new_dic).
Proof.
  unfold dic_update. revert dic.
  induction new_dic as [|[k' v] nd IH]; intros dic; cbn [fold_left fst snd]; [auto|].
  intros H. apply IH in H as [H|H]; [|right; now right].
  destruct (dict_get k' dic); apply in_keys_set in H as [->|H]; auto; right; now left.
Qed.

(** ** The axis of [dic_concat] *)

Section Facts.
Variable tensor : Type.
Variable shape : tensor -> list nat.
Variable torch_cat : list tensor -> nat -> result tensor.
Variable model_inference : tensor -> option tensor -> nat -> dict tensor.
Variable log_ratios_of : dict tensor -> tensor.
Variable cubo : tensor -> dict tensor -> tensor.
Variable iwelbo : tensor -> dict tensor -> tensor.

Lemma first_axis_ok (batch_size : nat) (sh : list nat) :
  forall i dim, first_axis batch_size i sh = Ok dim ->
    i <= dim /\ nth_error sh (dim - i) = Some batch_size /\
    forall j, j < dim - i -> nth_error sh j <> Some batch_size.
Proof.
  induction sh as [|n sh IH]; intros i dim E; simpl in E; [discriminate|].
  destruct (Nat.eqb_spec n batch_size) as [->|Hne].
  - injection E as <-. rewrite Nat.sub_diag. split; [lia|]. split; [reflexivity|].
    intros j Hj. lia.
  - apply IH in E as [H1 [H2 H3]].
    replace (dim - i) with (S (dim - S i)) by lia. split; [lia|]. split; [exact H2|].
    intros [|j] Hj; simpl; [congruence|]. apply H3. lia.
Qed.

Lemma dic_concat_entries (batch_size : nat) (dic : dict (list tensor)) (res : dict tensor) :
  dic_concat shape torch_cat dic batch_size = Ok res ->
  dict_keys res = dict_keys dic /\
  forall i key li, nth_error dic i = Some (key, li) ->
    exists t, nth_error res i = Some (key, t) /\
              concat_entry shape torch_cat batch_size li = Ok t.
Proof.
  unfold dic_concat. revert res.
  induction dic as [|[k li] dic IH]; intros res E; cbn [mapM bind fst snd] in E.
  - injection E as <-. split; [reflexivity|]. intros [|i] key li H; discriminate.
  - destruct (concat_entry shape torch_cat batch_size li) as [t|] eqn:Et;
      cbn [bind] in E; [|discriminate].
    destruct (mapM _ dic) as [rest|] eqn:Er; cbn [bind] in E; [|discriminate].
    injection E as <-. destruct (IH rest eq_refl) as [Hk Hn].
    split; [unfold dict_keys in *; simpl; now rewrite Hk|].
    intros [|i] key li' H; simpl in H.
    + injection H as <- <-. exists t. auto.
    + now apply Hn.
Qed.

(** ** The loop of [inference] *)

Lemma dict_filter_keys {V : Type} (ks : list string) (res : dict V) (k : string) :
  In k (dict_keys (dict_filter ks res)) -> mem k ks = true.
Proof.
  unfold dict_filter.
  assert (H : forall d, (forall k, In k (dict_keys d) -> mem k ks = true) ->
             forall k, In k (dict_keys
                           (fold_left (fun d kv => if mem (fst kv) ks
                                                   then dict_set (fst kv) (snd kv) d else d)
                              res d)) -> mem k ks = true).
  { induction res as [|[k' v] res IH]; intros d Hd; cbn [fold_left fst snd]; [exact Hd|].
    apply IH. destruct (mem k' ks) eqn:Em; [|exact Hd].
    intros k2 H2. apply in_keys_set in H2 as [->|H2]; auto. }
  apply H. intros k2 [].
Qed.

(** What one batch adds: its keys are among the requested ones. *)
Lemma inference_batch_keys (do_supervised : bool) (ks : list string) (n_samples : nat)
    (tensor_all : tensor * tensor) (all_res all_res' : dict (list tensor)) :
  inference_batch model_inference log_ratios_of cubo iwelbo do_supervised (Some ks)
    n_samples tensor_all all_res = Ok all_res' ->
  forall k, In k (dict_keys all_res') -> In k (dict_keys all_res) \/ mem k ks = true.
Proof.
  unfold inference_batch. intros E k Hk. injection E as <-.
  apply dic_update_keys in Hk as [Hk|Hk]; [now left|]. right.
  destruct (mem "log_ratios" ks) eqn:E3;
    [apply in_keys_set in Hk as [->|Hk]; [assumption|]|];
    (destruct (mem "IWELBO" ks) eqn:E2;
     [apply in_keys_set in Hk as [->|Hk]; [assumption|]|]);
    (destruct (mem "CUBO" ks) eqn:E1;
     [apply in_keys_set in Hk as [->|Hk]; [assumption|]|]);
    now apply dict_filter_keys in Hk.
Qed.

(** With only the CUBO requested, what is left of [res] is at most an
    entry under that key, which the computed CUBO replaces. *)
Lemma dict_filter_cubo (res : dict tensor) (c : tensor) :
  dict_set "CUBO" c (dict_filter ["CUBO"] res) = [("CUBO", c)].
Proof.
  unfold dict_filter.
  assert (H : forall d, d = [] \/ (exists v, d = [("CUBO", v)]) ->
             let d' := fold_left (fun d kv => if mem (fst kv) ["CUBO"]
                                              then dict_set (fst kv) (snd kv) d else d)
                         res d in
             d' = [] \/ exists v, d' = [("CUBO", v)]).
  { induction res as [|[k v] res IH]; intros d Hd; cbn [fold_left fst snd]; [exact Hd|].
    apply IH. destruct (mem k ["CUBO"]) eqn:Em; [|exact Hd].
    apply mem_In in Em as [<-|[]]. right.
    destruct Hd as [->|[v' ->]]; [now exists v|]. now exists v. }
  destruct (H [] (or_introl eq_refl)) as [->|[v ->]]; reflexivity.
Qed.

Lemma inference_batch_cubo (do_supervised : bool) (n_samples : nat)
    (tensor_all : tensor * tensor) (all_res : dict (list tensor)) :
  inference_batch model_inference log_ratios_of cubo iwelbo do_supervised (Some ["CUBO"])
    n_samples tensor_all all_res
  = Ok (dic_update all_res
          [("CUBO", cubo_of model_inference log_ratios_of cubo do_supervised n_samples
                      tensor_all)]).
Proof.
  unfold inference_batch, cubo_of.
  change (mem "CUBO" ["CUBO"]) with true.
  change (mem "IWELBO" ["CUBO"]) with false.
  change (mem "log_ratios" ["CUBO"]) with false.
  cbv iota. now rewrite dict_filter_cubo.
Qed.

Lemma inference_loop_cubo (do_supervised : bool) (n_samples : nat)
    (data_loader : list (tensor * tensor)) (l : list tensor) :
  l <> [] ->
  for_each (inference_batch model_inference log_ratios_of cubo iwelbo do_supervised
              (Some ["CUBO"]) n_samples) data_loader [("CUBO", l)]
  = Ok [("CUBO", l ++ map (cubo_of model_inference log_ratios_of cubo do_supervised n_samples)
                        data_loader)].
Proof.
  revert l. induction data_loader as [|b rest IH]; intros l Hl; cbn [for_each map].
  - now rewrite app_nil_r.
  - rewrite inference_batch_cubo. cbn [bind]. unfold dic_update.
    cbn [fold_left fst snd dict_get]. rewrite String.eqb_refl. cbn [dict_set].
    rewrite String.eqb_refl. rewrite IH by (now destruct l).
    now rewrite <- app_assoc.
Qed.

End Facts.

(** X5: [dic_update], applied to the results of the batches in turn,
    collects under each key the values the batches hold for it, in the
    order of the batches; a key no batch holds is not in the result. *)
Theorem dic_update_collects (V : Type) (rs : list (dict V)) (k : string) :
  (forall r, In r rs -> NoDup (dict_keys r)) ->
  dict_get k (fold_left dic_update rs [])
  = match flat_map (fun r => match dict_get k r with
                             | Some v => [v]
                             | None => []
                             end) rs with
    | [] => None
    | v :: l => Some (v :: l)
    end.
Proof.
  intros Hr. rewrite dic_update_fold_get. cbn [dict_get extend].
  replace (flat_map (values_of k) rs)
    with (flat_map (fun r => match dict_get k r with Some v => [v] | None => [] end) rs).
  - now destruct (flat_map _ rs).
  - induction rs as [|r rs IH]; cbn [flat_map]; [reflexivity|].
    rewrite IH by (intros; apply Hr; now right).
    rewrite values_of_get by (apply Hr; now left). reflexivity.
Qed.

Lemma dic_update_collects_witness :
  dict_get "CUBO" (fold_left dic_update
                     [[("CUBO", 1); ("y", 7)]; [("y", 8)]; [("CUBO", 3); ("y", 9)]] [])
  = Some [1; 3].
Proof.
  apply (@dic_update_collects nat
           [[("CUBO", 1); ("y", 7)]; [("y", 8)]; [("CUBO", 3); ("y", 9)]] "CUBO").
  intros r [<-|[<-|[<-|[]]]]; unfold dict_keys; simpl;
    repeat constructor; simpl; intuition discriminate.
Defined.

(** X6: when [dic_concat] returns, it has kept the keys in their order
    and has concatenated the list of each key along the first axis of
    its first tensor whose size is [batch_size]: no earlier axis has that
    size.  So it does not return when the first tensor of some key has no
    axis of size [batch_size]. *)
Theorem dic_concat_first_batch_axis (tensor : Type) (shape : tensor -> list nat)
    (torch_cat : list tensor -> nat -> result tensor)
    (dic : dict (list tensor)) (batch_size : nat) (res : dict tensor) :
  dic_concat shape torch_cat dic batch_size = Ok res ->
  dict_keys res = dict_keys dic /\
  forall i key li, nth_error dic i = Some (key, li) ->
    exists t0 rest dim t,
      li = t0 :: rest /\
      nth_error (shape t0) dim = Some batch_size /\
      (forall j, j < dim -> nth_error (shape t0) j <> Some batch_size) /\
      torch_cat li dim = Ok t /\
      nth_error res i = Some (key, t).
Proof.
  intros E. apply dic_concat_entries in E as [Hk He]. split; [exact Hk|].
  intros i key li Hi. destruct (He i key li Hi) as [t [Hr Hc]].
  unfold concat_entry in Hc. destruct li as [|t0 rest]; [discriminate|].
  destruct (first_axis batch_size 0 (shape t0)) as [dim|] eqn:Ea; cbn [bind] in Hc;
    [|discriminate].
  apply first_axis_ok in Ea as [_ [H1 H2]]. rewrite Nat.sub_0_r in H1, H2.
  exists t0, rest, dim, t. auto.
Qed.

Lemma dic_concat_first_batch_axis_witness :
  let shape := fun t : list nat => t in
  let torch_cat := fun (li : list (list nat)) (dim : nat) => Ok [dim; List.length li] in
  dict_keys [("CUBO", [1; 2])] = dict_keys [("CUBO", [[10; 128; 128]; [10; 128; 60]])] /\
  forall i key li,
    nth_error [("CUBO", [[10; 128; 128]; [10; 128; 60]])] i = Some (key, li) ->
    exists t0 rest dim t,
      li = t0 :: rest /\
      nth_error (shape t0) dim = Some 128 /\
      (forall j, j < dim -> nth_error (shape t0) j <> Some 128) /\
      torch_cat li dim = Ok t /\
      nth_error [("CUBO", [1; 2])] i = Some (key, t).
Proof.
  intros shape torch_cat.
  apply (@dic_concat_first_batch_axis (list nat) shape torch_cat
           [("CUBO", [[10; 128; 128]; [10; 128; 60]])] 128 [("CUBO", [1; 2])]).
  reflexivity.
Defined.

(** X7: [inference] with its default [keys=None] raises [TypeError] on
    the first batch of any loader that has one, at ["CUBO" in keys], and
    returns the empty dictionary on an empty loader.  With [keys] given
    the loop over the batches always completes: what [inference] then
    returns or raises is what [dic_concat] does on the collected lists. *)
Theorem inference_default_keys_raise (tensor : Type) (shape : tensor -> list nat)
    (torch_cat : list tensor -> nat -> result tensor)
    (model_inference : tensor -> option tensor -> nat -> dict tensor)
    (log_ratios_of : dict tensor -> tensor) (cubo iwelbo : tensor -> dict tensor -> tensor)
    (data_loader : list (tensor * tensor)) (batch_size : nat) (do_supervised : bool)
    (n_samples : nat) :
  inference_results shape torch_cat model_inference log_ratios_of cubo iwelbo
    data_loader batch_size do_supervised None n_samples
  = match data_loader with
    | [] => Ok []
    | _ :: _ => Raise TypeError
    end /\
  forall keys, exists all_res,
    for_each (inference_batch model_inference log_ratios_of cubo iwelbo do_supervised
                (Some keys) n_samples) data_loader [] = Ok all_res /\
    inference_results shape torch_cat model_inference log_ratios_of cubo iwelbo
      data_loader batch_size do_supervised (Some keys) n_samples
    = dic_concat shape torch_cat all_res batch_size.
Proof.
  split; [destruct data_loader; reflexivity|].
  intros keys. unfold inference_results.
  assert (H : forall acc, exists all_res,
             for_each (inference_batch model_inference log_ratios_of cubo iwelbo
                         do_supervised (Some keys) n_samples) data_loader acc = Ok all_res).
  { induction data_loader as [|b rest IH]; intros acc; cbn [for_each]; [eauto|].
    unfold inference_batch at 1. cbn [bind]. apply IH. }
  destruct (H []) as [all_res E]. exists all_res. rewrite E. auto.
Qed.

(** X8: [inference] as [loss] calls it, with [keys=["CUBO"]]: the result
    holds the CUBO alone, the values of the batches concatenated along
    the first axis of the first one whose size is [batch_size]; on an
    empty loader it holds no CUBO at all. *)
Theorem inference_cubo_only (tensor : Type) (shape : tensor -> list nat)
    (torch_cat : list tensor -> nat -> result tensor)
    (model_inference : tensor -> option tensor -> nat -> dict tensor)
    (log_ratios_of : dict tensor -> tensor) (cubo iwelbo : tensor -> dict tensor -> tensor)
    (data_loader : list (tensor * tensor)) (batch_size : nat) (do_supervised : bool)
    (n_samples : nat) :
  let cubo_batch := cubo_of model_inference log_ratios_of cubo do_supervised n_samples in
  inference_results shape torch_cat model_inference log_ratios_of cubo iwelbo
    data_loader batch_size do_supervised (Some ["CUBO"]) n_samples
  = match data_loader with
    | [] => Ok []
    | tensor_all :: _ =>
        (dim <- first_axis batch_size 0 (shape (cubo_batch tensor_all)) ;;
         t <- torch_cat (map cubo_batch data_loader) dim ;;
         Ok [("CUBO", t)])%result
    end.
Proof.
  intros cubo_batch. unfold inference_results.
  destruct data_loader as [|b rest]; [reflexivity|].
  cbn [for_each]. rewrite inference_batch_cubo. cbn [bind].
  unfold dic_update. cbn [fold_left fst snd dict_get dict_set].
  rewrite inference_loop_cubo by discriminate. cbn [bind app map].
  unfold dic_concat, concat_entry. cbn [mapM bind fst snd].
  fold cubo_batch.
  destruct (first_axis batch_size 0 (shape (cubo_batch b))) as [dim|]; cbn [bind];
    [|reflexivity].
  now destruct (torch_cat _ dim).
Qed.

(** X9: with [keys] given, [inference] returns nothing it was not asked
    for: every key of its result is one of [keys]. *)
Theorem inference_returns_requested_keys (tensor : Type) (shape : tensor -> list nat)
    (torch_cat : list tensor -> nat -> result tensor)
    (model_inference : tensor -> option tensor -> nat -> dict tensor)
    (log_ratios_of : dict tensor -> tensor) (cubo iwelbo : tensor -> dict tensor -> tensor)
    (data_loader : list (tensor * tensor)) (batch_size : nat) (do_supervised : bool)
    (keys : list string) (n_samples : nat) (res : dict tensor) :
  inference_results shape torch_cat model_inference log_ratios_of cubo iwelbo
    data_loader batch_size do_supervised (Some keys) n_samples = Ok res ->
  incl (dict_keys res) keys.
Proof.
  unfold inference_results. intros E k Hk.
  destruct (for_each (inference_batch model_inference log_ratios_of cubo iwelbo
                        do_supervised (Some keys) n_samples) data_loader [])
    as [all_res|] eqn:El; cbn [bind] in E; [|discriminate].
  apply dic_concat_entries in E as [Hkeys _]. rewrite Hkeys in Hk.
  apply mem_In.
  assert (H : In k (dict_keys (@nil (string * list tensor))) \/ mem k keys = true).
  { revert El Hk.
    apply (@TrainerFacts.for_each_inv _ _
             (inference_batch model_inference log_ratios_of cubo iwelbo do_supervised
                (Some keys) n_samples)
             (fun d => In k (dict_keys d) -> In k (dict_keys (@nil (string * list tensor)))
                       \/ mem k keys = true)
             data_loader); [|auto].
    intros b d d' _ Hd Eb Hk'.
    destruct (inference_batch_keys Eb k Hk') as [H|H]; auto. }
  destruct H as [[]|H]. exact H.
Qed.

Lemma inference_returns_requested_keys_witness :
  incl (dict_keys [("y", [2; 2]); ("CUBO", [2; 2])]) ["CUBO"; "y"].
Proof.
  apply (@inference_returns_requested_keys (list nat) (fun t => t)
           (fun li _ => Ok (List.concat li))
           (fun x _ _ => [("log_pz2", x); ("qc_z1", x)])
           (fun _ => [2]) (fun _ _ => [2]) (fun _ _ => [2])
           [([2], [2]); ([3], [2])] 2 false ["CUBO"; "y"] 10).
  reflexivity.
Defined.

End InferenceFacts.

(** * Properties of the MuData fields *)

Module MuDataFacts.

Import MuData MuDataAccess.

(** What the class built by [MuDataWrapper] sets up in an instance. *)
Lemma wrapped_field (AnnData : Type) (cls : string) (preregister_fn : option (hook AnnData))
    (C : MuDataFieldClass (hook AnnData)) (mod_key : option string) (mod_required : bool)
    (self : MuDataField (hook AnnData)) :
  MuDataWrapper (PyClass cls) preregister_fn = Ok C ->
  cls_init C mod_key mod_required = Ok self ->
  _mod_key (base self) = mod_key /\
  _preregister (base self) = preregister_fn /\
  _adata_field self = cls /\
  (mod_required = true -> mod_key <> None).
Proof.
  unfold MuDataWrapper. cbn [isinstance_type negb]. intros H. injection H as <-.
  cbn [cls_init]. unfold mudata_field_init, BaseMuDataWrapper_init.
  destruct mod_required, mod_key as [k|]; cbn [andb is_none bind]; try discriminate;
    intros H; injection H as <-; destruct preregister_fn; cbn;
    repeat split; try reflexivity; try discriminate.
Qed.

(** X10: a field built with [mod_required=True] never hands out the
    MuData object itself: [get_modality] returns exactly when it is given
    a MuData that holds the modality of the field's key, and what it
    returns is that modality. *)
Theorem required_modality_is_returned (AnnData : Type) (cls : string)
    (preregister_fn : option (hook AnnData)) (C : MuDataFieldClass (hook AnnData))
    (mod_key : option string) (self : MuDataField (hook AnnData))
    (mdata bdata : data AnnData) :
  MuDataWrapper (PyClass cls) preregister_fn = Ok C ->
  cls_init C mod_key true = Ok self ->
  (get_modality (base self) mdata = Ok bdata <->
   exists key mods a,
     mod_key = Some key /\ mdata = IsMuData mods /\
     mod_lookup key mods = Some a /\ bdata = IsAnnData a).
Proof.
  intros HC Hi. destruct (wrapped_field _ _ HC Hi) as [Hk [_ [_ Hr]]].
  unfold get_modality. rewrite Hk.
  destruct mod_key as [key|]; [|now destruct (Hr eq_refl)].
  split.
  - destruct mdata as [a|mods]; [discriminate|].
    destruct (mod_lookup key mods) as [a|] eqn:El; [|discriminate].
    intros H. injection H as <-. now exists key, mods, a.
  - intros [key' [mods [a [Hkey [-> [Hl ->]]]]]]. injection Hkey as <-. now rewrite Hl.
Qed.

Lemma required_modality_is_returned_witness :
  get_modality
    (base {| base := {| _mod_key := Some "rna"; _preregister := @None (hook nat) |};
             _adata_field := "LayerField" |})
    (IsMuData [("protein", 1); ("rna", 2)]) = Ok (IsAnnData 2) <->
  exists key mods a,
    Some "rna" = Some key /\ IsMuData [("protein", 1); ("rna", 2)] = IsMuData mods /\
    mod_lookup key mods = Some a /\ IsAnnData 2 = IsAnnData a.
Proof.
  apply (@required_modality_is_returned nat "LayerField" None
           {| cls_name := "MuDataLayerField";
              cls_init := mudata_field_init (PyClass "LayerField") None |}
           (Some "rna")
           {| base := {| _mod_key := Some "rna"; _preregister := None |};
              _adata_field := "LayerField" |}
           (IsMuData [("protein", 1); ("rna", 2)]) (IsAnnData 2)).
  - reflexivity.
  - reflexivity.
Defined.

(** X11: [register_field] runs the preregister hook first and looks the
    modality up in the MuData as the hook has left it: it returns exactly
    when the hook returns, the modality of the key is there afterwards and
    the wrapped field registers it; a modality the hook adds is found.
    Handed an AnnData, it never reaches the wrapped field. *)
Theorem register_field_after_hook (AnnData registry : Type)
    (adata_register_field : string -> data AnnData -> result registry)
    (cls : string) (h : hook AnnData) (C : MuDataFieldClass (hook AnnData))
    (key : string) (mod_required : bool) (self : MuDataField (hook AnnData))
    (mods : list (string * AnnData)) (r : registry) :
  MuDataWrapper (PyClass cls) (Some h) = Ok C ->
  cls_init C (Some key) mod_required = Ok self ->
  (register_field adata_register_field self (IsMuData mods) = Ok r <->
   exists mods' a,
     on_mudata h (Some key) mods = Ok mods' /\
     mod_lookup key mods' = Some a /\
     adata_register_field cls (IsAnnData a) = Ok r) /\
  (forall a, register_field adata_register_field self (IsAnnData a) <> Ok r).
Proof.
  intros HC Hi. destruct (wrapped_field _ _ HC Hi) as [Hk [Hp [Hf _]]].
  unfold register_field, preregister, get_modality. rewrite Hk, Hp, Hf. split.
  - split.
    + destruct (on_mudata h (Some key) mods) as [mods'|]; cbn [bind]; [|discriminate].
      destruct (mod_lookup key mods') as [a|] eqn:El; cbn [bind]; [|discriminate].
      intros H. now exists mods', a.
    + intros [mods' [a [-> [Hl Hr]]]]. cbn [bind]. rewrite Hl. cbn [bind]. exact Hr.
  - intros a. destruct (on_anndata h (Some key) a); cbn [bind]; discriminate.
Qed.

Lemma register_field_after_hook_witness :
  let h := {| on_anndata := fun _ (a : nat) => Ok a;
              on_mudata := fun _ mods => Ok (mods ++ [("rna", 2)]) |} in
  let self := {| base := {| _mod_key := Some "rna"; _preregister := Some h |};
                 _adata_field := "LayerField" |} in
  let adata_register_field :=
    fun (c : string) (d : data nat) =>
      match d with
      | IsAnnData a => Ok a
      | IsMuData _ => Raise AttributeError
      end in
  (register_field adata_register_field self (IsMuData [("protein", 1)]) = Ok 2 <->
   exists mods' a,
     on_mudata h (Some "rna") [("protein", 1)] = Ok mods' /\
     mod_lookup "rna" mods' = Some a /\
     adata_register_field "LayerField" (IsAnnData a) = Ok 2) /\
  (forall a, register_field adata_register_field self (IsAnnData a) <> Ok 2).
Proof.
  intros h self adata_register_field.
  apply (@register_field_after_hook nat nat adata_register_field "LayerField" h
           {| cls_name := "MuDataLayerField";
              cls_init := mudata_field_init (PyClass "LayerField") (Some h) |}
           "rna" false self [("protein", 1)] 2).
  - reflexivity.
  - reflexivity.
Defined.

End MuDataFacts.

(** * Further properties of [SCHANVAE] *)

Module SCHANVAEMoreFacts.

Import Tensor SCHANVAE SCHANVAEFacts SCHANVAESpec.

(** ** The constructor *)

Lemma insert_unique_increasing (x : Z) (l : list Z) :
  increasing l -> increasing (insert_unique x l).
Proof.
  induction l as [|a l IH]; intros Hl; simpl.
  - split; [intros y []|exact I].
  - destruct Hl as [Ha Hl].
    destruct (Z.ltb_spec x a) as [Hlt|Hge].
    + split; [|split; assumption].
      intros y [<-|Hy]; [assumption|]. specialize (Ha y Hy). lia.
    + destruct (Z.eqb_spec x a) as [->|Hne]; [split; assumption|].
      split; [|now apply IH].
      intros y Hy. apply in_insert_unique in Hy as [->|Hy]; [lia|now apply Ha].
Qed.

Lemma np_unique_increasing (l : list Z) : increasing (np_unique l).
Proof.
  induction l as [|a l IH]; simpl; [exact I|]. now apply insert_unique_increasing.
Qed.

Lemma np_arange_increasing (n : nat) : increasing (np_arange n).
Proof.
  unfold np_arange. generalize 0. induction n as [|n IH]; intros a; simpl; [exact I|].
  split; [|apply IH].
  intros y Hy. apply in_map_iff in Hy as [g [<- Hg]]. apply in_seq in Hg. lia.
Qed.

(** Two increasing lists with the same members are equal. *)
Lemma increasing_ext (l1 l2 : list Z) :
  increasing l1 -> increasing l2 -> (forall x, In x l1 <-> In x l2) -> l1 = l2.
Proof.
  revert l2. induction l1 as [|a l1 IH]; intros [|b l2] H1 H2 H.
  - reflexivity.
  - destruct (proj2 (H b) (or_introl eq_refl)).
  - destruct (proj1 (H a) (or_introl eq_refl)).
  - destruct H1 as [Ha H1], H2 as [Hb H2].
    assert (Hab : a = b).
    { destruct (proj1 (H a) (or_introl eq_refl)) as [E|Hin]; [now symmetry|].
      destruct (proj2 (H b) (or_introl eq_refl)) as [E|Hin']; [assumption|].
      specialize (Ha b Hin'). specialize (Hb a Hin). lia. }
    subst b. f_equal. apply IH; try assumption.
    intros x. split; intros Hx.
    + destruct (proj1 (H x) (or_intror Hx)) as [E|Hin]; [|assumption].
      specialize (Ha x Hx). lia.
    + destruct (proj2 (H x) (or_intror Hx)) as [E|Hin]; [|assumption].
      specialize (Hb x Hx). lia.
Qed.

(** [init_groups] accepts the group designations whose values are the
    integers from 0 up to their number. *)
Lemma init_groups_accepts (lg : list Z) :
  (exists g, init_groups true (Some lg) = Ok g) <->
  exists k : nat, forall x : Z, In x lg <-> (0 <= x < Z.of_nat k)%Z.
Proof.
  split.
  - intros [g E]. apply init_groups_ok in E as [lg' [Hlg [Hu _]]]. injection Hlg as <-.
    set (k := List.length (np_unique lg)) in *.
    exists k. intros x.
    rewrite <- in_np_unique, Hu, in_np_arange. split.
    + intros [i [Hi ->]]. lia.
    + intros Hx. exists (Z.to_nat x). split; lia.
  - intros [k Hk].
    assert (Hu : np_unique lg = np_arange k).
    { apply increasing_ext.
      - apply np_unique_increasing.
      - apply np_arange_increasing.
      - intros x. rewrite in_np_unique, Hk, in_np_arange. split.
        + intros Hx. exists (Z.to_nat x). split; lia.
        + intros [i [Hi ->]]. lia. }
    unfold init_groups. rewrite Hu, length_np_arange, all_eq_refl. cbn [negb]. eauto.
Qed.

(** ** [classify] with groups, entry by entry *)

Lemma nth_row_set (f : R -> R) (w : vec) (mask : list Z) (u : vec) (j : nat) :
  List.length w = List.length mask -> List.length u = List.length mask ->
  j < List.length mask ->
  nth j (row_set f w mask u) 0%R
  = if (nth j mask 0 =? 0)%Z then nth j w 0%R else f (nth j u 0%R).
Proof.
  intros Hw Hu Hj. unfold row_set.
  rewrite nth_map3 with (da := 0%R) (db := 0%Z) (dc := 0%R) by lia. reflexivity.
Qed.

(** After the loop over the groups [i, i + k), the entry of a label of
    such a group is its share within the group times the weight of the
    group; the entries of the other labels are untouched. *)
Lemma row_loop_entry (lg : list Z) (k : nat) :
  forall i t j,
  List.length (u_of t) = List.length lg -> List.length (w_of t) = List.length lg ->
  j < List.length lg ->
  nth j (w_of (row_loop i (map (group_mask lg) (seq i k)) t)) 0%R
  = if ((Z.of_nat i <=? nth j lg 0) && (nth j lg 0 <? Z.of_nat (i + k)))%Z
    then (nth j (u_of t) 0
          / (Rsum (mask_select (u_of t) (group_mask lg (Z.to_nat (nth j lg 0%Z)))) + epsilon)
          * nth (Z.to_nat (nth j lg 0%Z)) (g_of t) 0)%R
    else nth j (w_of t) 0%R.
Proof.
  assert (Hlen : forall g, List.length (group_mask lg g) = List.length lg)
    by (intros g; unfold group_mask; now rewrite length_map).
  induction k as [|k IH]; intros i t j Hu Hw Hj.
  - cbn [seq map row_loop]. rewrite Nat.add_0_r.
    destruct (Z.leb_spec (Z.of_nat i) (nth j lg 0%Z)); cbn [andb]; [|reflexivity].
    destruct (Z.ltb_spec (nth j lg 0%Z) (Z.of_nat i)); [lia|reflexivity].
  - cbn [seq map row_loop].
    assert (Hw' : List.length (w_of (group_row i (group_mask lg i) t)) = List.length lg).
    { unfold group_row, w_of at 1. cbn [snd]. rewrite length_row_set; rewrite ?Hlen; auto. }
    rewrite IH by assumption. clear IH.
    change (u_of (group_row i (group_mask lg i) t)) with (u_of t).
    change (g_of (group_row i (group_mask lg i) t)) with (g_of t).
    unfold group_row at 1, w_of at 1. cbn [snd].
    rewrite nth_row_set by (rewrite ?Hlen; assumption).
    rewrite group_mask_nth by assumption.
    destruct (Z.eqb_spec (nth j lg 0%Z) (Z.of_nat i)) as [Heq|Hne].
    + change (1 =? 0)%Z with false. cbv iota.
      replace ((Z.of_nat (S i) <=? nth j lg 0) && (nth j lg 0 <? Z.of_nat (S i + k)))%Z
        with false by (symmetry; apply andb_false_iff; left; apply Z.leb_gt; lia).
      replace ((Z.of_nat i <=? nth j lg 0) && (nth j lg 0 <? Z.of_nat (i + S k)))%Z
        with true by (symmetry; apply andb_true_iff; split;
                      [apply Z.leb_le|apply Z.ltb_lt]; lia).
      rewrite Heq, Nat2Z.id. reflexivity.
    + change (0 =? 0)%Z with true. cbv iota.
      replace ((Z.of_nat i <=? nth j lg 0) && (nth j lg 0 <? Z.of_nat (i + S k)))%Z
        with ((Z.of_nat (S i) <=? nth j lg 0) && (nth j lg 0 <? Z.of_nat (S i + k)))%Z.
      * reflexivity.
      * replace (i + S k) with (S i + k) by lia. f_equal.
        destruct (Z.leb_spec (Z.of_nat (S i)) (nth j lg 0%Z));
          destruct (Z.leb_spec (Z.of_nat i) (nth j lg 0%Z)); try reflexivity; lia.
Qed.

(** The entries of the output of [classify] with groups. *)
Lemma classify_group_entries (self : SCHANVAE) (lg : list Z) (n : nat)
    (x : mat) (batch_index cont_covs cat_covs : option mat) (z unw_y w_g : mat) :
  use_labels_groups self = true ->
  groups self = Some (n, map (group_mask lg) (seq 0 n)) ->
  (forall v, In v lg -> (0 <= v < Z.of_nat n)%Z) ->
  classify_latent self x batch_index cont_covs cat_covs = Ok z ->
  classifier (nets self) z = PTensor unw_y ->
  classifier_groups (nets self) z = PTensor w_g ->
  List.length w_g = List.length unw_y ->
  (forall row, In row unw_y -> List.length row = List.length lg) ->
  (forall row, In row w_g -> n <= List.length row) ->
  exists w_y,
    classify self x batch_index cont_covs cat_covs = Ok (PTensor w_y) /\
    List.length w_y = List.length unw_y /\
    (forall r, r < List.length unw_y -> List.length (nth r w_y []) = List.length lg) /\
    forall r j, r < List.length unw_y -> j < List.length lg ->
      nth j (nth r w_y []) 0%R
      = (nth j (nth r unw_y []) 0
         / (Rsum (mask_select (nth r unw_y []) (group_mask lg (Z.to_nat (nth j lg 0%Z))))
            + 1 / 100000000)
         * nth (Z.to_nat (nth j lg 0%Z)) (nth r w_g []) 0)%R.
Proof.
  intros Hu Hg Hv Hz Hc Hcg Hl Hsu Hsg.
  eexists. split; [eapply classify_group_rows; eassumption|].
  assert (Hlr : List.length (rows_of w_g unw_y) = List.length unw_y).
  { unfold rows_of. rewrite length_map2; lia. }
  split; [now rewrite !length_map|].
  assert (Hrow : forall r, r < List.length unw_y ->
            nth r (map w_of (map (row_loop 0 (map (group_mask lg) (seq 0 n)))
                               (rows_of w_g unw_y))) []
            = w_of (row_loop 0 (map (group_mask lg) (seq 0 n))
                      (nth r w_g [], nth r unw_y [], map (fun _ => 0%R) (nth r unw_y [])))).
  { intros r Hr. rewrite map_map.
    rewrite nth_indep
      with (d' := w_of (row_loop 0 (map (group_mask lg) (seq 0 n)) ([], [], [])))
      by now rewrite length_map, Hlr.
    rewrite map_nth with (f := fun t => w_of (row_loop 0 (map (group_mask lg) (seq 0 n)) t)).
    now rewrite rows_of_nth by assumption. }
  split.
  - intros r Hr. rewrite Hrow by assumption.
    assert (Hlu : List.length (nth r unw_y []) = List.length lg)
      by (apply Hsu, nth_In; assumption).
    apply (@row_loop_length (List.length lg) (map (group_mask lg) (seq 0 n))).
    + intros m Hm. apply in_map_iff in Hm as [g [<- _]]. unfold group_mask.
      now rewrite length_map.
    + exact Hlu.
    + cbn [u_of w_of fst snd]. now rewrite length_map.
  - intros r j Hr Hj. rewrite Hrow by assumption.
    assert (Hlu : List.length (nth r unw_y []) = List.length lg)
      by (apply Hsu, nth_In; assumption).
    rewrite row_loop_entry; cbn [u_of w_of g_of fst snd]; rewrite ?length_map; auto.
    specialize (Hv (nth j lg 0%Z) (nth_In _ _ Hj)).
    replace ((Z.of_nat 0 <=? nth j lg 0) && (nth j lg 0 <? Z.of_nat (0 + n)))%Z with true
      by (symmetry; apply andb_true_iff; split; [apply Z.leb_le|apply Z.ltb_lt]; lia).
    reflexivity.
Qed.

(** ** The total of a row of the output *)

Lemma sum_over_plus (n : nat) (f h : nat -> R) :
  sum_over n (fun i => (f i + h i)%R) = (sum_over n f + sum_over n h)%R.
Proof.
  induction n as [|n IH]; [unfold sum_over; simpl; lra|].
  rewrite !sum_over_S, IH. lra.
Qed.

Lemma sum_over_le (n : nat) (f h : nat -> R) :
  (forall i, i < n -> (f i <= h i)%R) -> (sum_over n f <= sum_over n h)%R.
Proof.
  induction n as [|n IH]; intros H; [unfold sum_over; simpl; lra|].
  rewrite !sum_over_S. specialize (H n (Nat.lt_succ_diag_r n)) as Hn.
  assert (sum_over n f <= sum_over n h)%R by (apply IH; intros; apply H; lia). lra.
Qed.

(** The entries of a row, summed group by group. *)
Lemma Rsum_by_group (n : nat) (lg : list Z) :
  forall w : vec, List.length w = List.length lg ->
  (forall v, In v lg -> (0 <= v < Z.of_nat n)%Z) ->
  Rsum w = sum_over n (fun g => Rsum (mask_select w (group_mask lg g))).
Proof.
  induction lg as [|a lg IH]; intros [|x w] Hl Hv; simpl in Hl; try lia.
  - symmetry. apply sum_over_zero. intros. reflexivity.
  - rewrite sum_over_ext
      with (g := fun g => ((if (a =? Z.of_nat g)%Z then x else 0)
                           + Rsum (mask_select w (group_mask lg g)))%R).
    + rewrite sum_over_plus, <- IH by (try lia; intros; apply Hv; now right).
      rewrite sum_over_single with (y := Z.to_nat a).
      * specialize (Hv a (or_introl eq_refl)).
        replace (a =? Z.of_nat (Z.to_nat a))%Z with true
          by (symmetry; apply Z.eqb_eq; lia).
        reflexivity.
      * specialize (Hv a (or_introl eq_refl)). lia.
      * intros c _ Hc. destruct (Z.eqb_spec a (Z.of_nat c)) as [->|]; [|reflexivity].
        rewrite Nat2Z.id in Hc. congruence.
    + intros g _. cbn [group_mask map mask_select].
      destruct (Z.eqb_spec a (Z.of_nat g)); cbn [Z.eqb]; cbv iota.
      * reflexivity.
      * fold (group_mask lg g). lra.
Qed.

Lemma Rsum_nonneg (l : vec) : (forall v, In v l -> (0 <= v)%R) -> (0 <= Rsum l)%R.
Proof.
  induction l as [|x l IH]; intros H; simpl; [lra|].
  specialize (H x (or_introl eq_refl)) as Hx.
  assert (0 <= Rsum l)%R by (apply IH; intros; apply H; now right). unfold Rsum in *. lra.
Qed.

Lemma in_mask_select (row : vec) (mask : list Z) (v : R) :
  In v (mask_select row mask) -> In v row.
Proof.
  revert mask. induction row as [|x row IH]; intros [|b mask] H; simpl in *; try contradiction.
  destruct (b =? 0)%Z; [right; eauto|].
  destruct H as [<-|H]; [now left|right; eauto].
Qed.

(** The share [s / (s + 1e-8)] of a weight is below the weight. *)
Lemma share_le (s w : R) : (0 <= s)%R -> (0 <= w)%R -> (s / (s + epsilon) * w <= w)%R.
Proof.
  intros Hs Hw. unfold epsilon.
  assert (Hd : (0 < s + 1 / 100000000)%R) by lra.
  assert (Hq : (s / (s + 1 / 100000000) <= 1)%R).
  { apply Rmult_le_reg_r with (r := (s + 1 / 100000000)%R); [assumption|].
    unfold Rdiv at 1. rewrite Rmult_assoc, Rinv_l by lra. lra. }
  nra.
Qed.

(** ** Failures of [loss] *)

Lemma loss_unfold_marginal (self : SCHANVAE) (tensors : Tensors)
    (inference_outputs : InferenceOutputs) (generative_ouputs : GenerativeOutputs)
    (kl_weight : R) (labelled_tensors : option Tensors) (classification_ratio : option R)
    (y : option (list nat)) (feed_labels : bool) :
  labelled_tensors = None \/ n_version self <> 1%Z ->
  fed_labels feed_labels tensors = Ok y ->
  loss self tensors inference_outputs generative_ouputs feed_labels kl_weight
    labelled_tensors classification_ratio
  = loss_marginal self (z inference_outputs)
      (get_reconstruction_loss (nets self) (X_KEY tensors) (px_rate generative_ouputs)
         (px_r generative_ouputs) (px_dropout generative_ouputs))
      (kl_divergence_z2_of self
         (snd (broadcast_labels y (z inference_outputs) (n_labels self)))
         (fst (broadcast_labels y (z inference_outputs) (n_labels self))))
      (loss_z1_unweight_of self
         (snd (broadcast_labels y (z inference_outputs) (n_labels self)))
         (fst (broadcast_labels y (z inference_outputs) (n_labels self))))
      (loss_z1_weight_of inference_outputs)
      (kl_divergence_l_of self tensors inference_outputs)
      kl_weight labelled_tensors classification_ratio.
Proof.
  intros Hv Hy. unfold loss. rewrite Hy. cbn [bind].
  destruct (broadcast_labels y (z inference_outputs) (n_labels self)) as [ys z1s].
  cbn [fst snd].
  destruct labelled_tensors as [lt|]; [|reflexivity].
  destruct Hv as [Hv|Hv]; [discriminate|].
  apply Z.eqb_neq in Hv. now rewrite Hv.
Qed.

Lemma iadd_length (a b c : vec) : iadd a b = Ok c -> List.length c = List.length a.
Proof.
  unfold iadd. destruct (List.length b =? List.length a) eqn:E.
  - intros H. injection H as <-. apply Nat.eqb_eq in E. now rewrite length_map2.
  - destruct b as [|y [|y' b]]; try discriminate.
    intros H. injection H as <-. now rewrite length_map.
Qed.

Lemma iadd01_length (a : vec) (t : tens01) (c : vec) :
  iadd01 a t = Ok c -> List.length c = List.length a.
Proof.
  destruct t as [r|v]; simpl.
  - intros H. injection H as <-. now rewrite length_map.
  - apply iadd_length.
Qed.

Lemma Rsum_map2_plus (a b : vec) :
  List.length a = List.length b -> Rsum (map2 Rplus a b) = (Rsum a + Rsum b)%R.
Proof.
  revert b. induction a as [|x a IH]; intros [|y b] H; simpl in *; try lia; [lra|].
  unfold Rsum in *. rewrite IH by lia. lra.
Qed.

Lemma mean_map2_plus (a b : vec) :
  List.length a = List.length b -> mean (map2 Rplus a b) = (mean a + mean b)%R.
Proof.
  intros H. unfold mean. rewrite length_map2, Rsum_map2_plus, <- H by assumption.
  unfold Rdiv. ring.
Qed.

Lemma mean_scale (c : R) (l : vec) : mean (map (fun x => (x * c)%R) l) = (c * mean l)%R.
Proof. unfold mean. rewrite Rsum_scale, length_map. unfold Rdiv. ring. Qed.

(** ** [classification_loss] *)

Lemma mapM_ok_inv {A B : Type} (f : A -> result B) (l : list A) (ys : list B) :
  mapM f l = Ok ys -> forall x, In x l -> exists y, f x = Ok y.
Proof.
  revert ys. induction l as [|a l IH]; intros ys E x Hx; [destruct Hx|].
  simpl in E. destruct (f a) as [y|] eqn:Ea; cbn [bind] in E; [|discriminate].
  destruct (mapM f l) as [ys'|] eqn:El; cbn [bind] in E; [|discriminate].
  destruct Hx as [<-|Hx]; [eauto|]. eapply IH; eauto.
Qed.

Lemma mapM_raise_inv {A B : Type} (f : A -> result B) (l : list A) (e : exn) :
  mapM f l = Raise e -> exists x, In x l /\ f x = Raise e.
Proof.
  induction l as [|a l IH]; intros E; [discriminate|].
  simpl in E. destruct (f a) as [y|e'] eqn:Ea; cbn [bind] in E.
  - destruct (mapM f l) as [ys'|e'] eqn:El; cbn [bind] in E; [discriminate|].
    injection E as ->. destruct (IH eq_refl) as [x [Hx Hf]]. exists x. split; [now right|auto].
  - injection E as ->. exists a. split; [now left|assumption].
Qed.

Lemma level_labels_value (y : list (list nat)) (total_level : nat) :
  level_labels y total_level
  = if forallb (fun row => total_level <=? List.length row) y
    then Ok (map (fun i => map (fun row => nth i row 0) y) (seq 0 total_level))
    else Raise IndexError.
Proof.
  destruct (forallb _ y) eqn:Ef.
  - rewrite forallb_forall in Ef. unfold level_labels. apply mapM_ok.
    intros i Hi. apply in_seq in Hi. apply mapM_ok. intros row Hrow.
    specialize (Ef row Hrow). apply Nat.leb_le in Ef.
    destruct (nth_error row i) as [l|] eqn:En.
    + f_equal. symmetry. now apply nth_error_nth.
    + apply nth_error_None in En. lia.
  - destruct (level_labels y total_level) as [tl|e] eqn:E.
    + exfalso. assert (Ht : forallb (fun row => total_level <=? List.length row) y = true);
        [|congruence].
      apply forallb_forall. intros row Hrow. apply Nat.leb_le.
      destruct total_level as [|k]; [lia|].
      unfold level_labels in E.
      destruct (mapM_ok_inv _ _ E k) as [lk Ek]; [apply in_seq; lia|].
      destruct (mapM_ok_inv _ _ Ek row Hrow) as [l El].
      destruct (nth_error row k) eqn:En; [|discriminate].
      assert (k < List.length row) by (apply nth_error_Some; congruence). lia.
    + f_equal. unfold level_labels in E.
      apply mapM_raise_inv in E as [i [_ E]].
      apply mapM_raise_inv in E as [row [_ E]].
      destruct (nth_error row i); [discriminate|]. now injection E.
Qed.

Lemma nth_error_last {A : Type} (l : list A) (d : A) :
  l <> [] -> nth_error l (List.length l - 1) = Some (last l d).
Proof.
  induction l as [|a l IH]; intros H; [congruence|].
  destruct l as [|b l]; [reflexivity|].
  replace (List.length (a :: b :: l) - 1) with (S (List.length (b :: l) - 1))
    by (cbn [List.length]; lia).
  cbn [nth_error]. rewrite IH by discriminate. reflexivity.
Qed.

(** X12: the constructor returns an object exactly when [num_classes]
    is not empty, its last entry is not zero unless a prior is given, and,
    with [use_labels_groups], the group designations are given and their
    values are the integers from 0 up to some number. *)
Theorem constructor_succeeds_iff (nw : Networks) (num_classes : list nat)
    (y_prior : option vec) (labels_groups : option (list Z)) (use_labels_groups : bool)
    (n_version : Z) :
  (exists self, SCHANVAE_init nw num_classes y_prior labels_groups use_labels_groups
                  n_version = Ok self) <->
  num_classes <> [] /\
  (y_prior = None -> last num_classes 0 <> 0) /\
  (use_labels_groups = true ->
   exists lg k, labels_groups = Some lg /\
                forall x : Z, In x lg <-> (0 <= x < Z.of_nat k)%Z).
Proof.
  unfold SCHANVAE_init. split.
  - intros [self E].
    destruct num_classes as [|c nc]; [discriminate|].
    rewrite (@nth_error_last _ (c :: nc) 0) in E by discriminate. cbn [bind] in E.
    split; [discriminate|].
    set (n := last (c :: nc) 0) in *. split.
    + intros ->. destruct (Nat.eqb_spec n 0); [discriminate|assumption].
    + intros ->.
      destruct (match y_prior with Some p => _ | None => _ end); [|discriminate].
      cbn [bind] in E.
      destruct (init_groups true labels_groups) as [g|] eqn:Eg; [|discriminate].
      destruct (init_groups_ok _ Eg) as [lg [-> _]].
      destruct (proj1 (init_groups_accepts lg) (ex_intro _ g Eg)) as [k Hk].
      now exists lg, k.
  - intros [Hnc [Hp Hg]].
    rewrite (@nth_error_last _ num_classes 0) by assumption. cbn [bind].
    assert (Hprior : exists p, match y_prior with
                               | Some p => Ok p
                               | None => if last num_classes 0 =? 0
                                         then Raise ZeroDivisionError
                                         else Ok (repeat (1 / INR (last num_classes 0%nat))%R
                                                    (last num_classes 0))
                               end = Ok p).
    { destruct y_prior as [p|]; [eauto|].
      destruct (Nat.eqb_spec (last num_classes 0) 0) as [E|_]; [|eauto].
      now destruct (Hp eq_refl). }
    destruct Hprior as [p ->]. cbn [bind].
    destruct use_labels_groups.
    + destruct (Hg eq_refl) as [lg [k [-> Hk]]].
      destruct (proj2 (init_groups_accepts lg) (ex_intro _ k Hk)) as [g ->].
      cbn [bind]. eauto.
    + cbn [init_groups bind]. eauto.
Qed.

(** X13: with [use_labels_groups], and classifiers that return tensors
    of matching shapes, each entry of the output of [classify] is the
    label classifier's output for the label, divided by the sum of its
    outputs over the labels of the same group plus [1e-8], times the
    probability the group classifier gives that group. *)
Theorem classify_group_entry (nw : Networks) (num_classes : list nat)
    (y_prior : option vec) (lg : list Z) (n_version : Z) (self : SCHANVAE)
    (x : mat) (batch_index cont_covs cat_covs : option mat) (z unw_y w_g : mat) :
  SCHANVAE_init nw num_classes y_prior (Some lg) true n_version = Ok self ->
  classify_latent self x batch_index cont_covs cat_covs = Ok z ->
  classifier nw z = PTensor unw_y ->
  classifier_groups nw z = PTensor w_g ->
  List.length w_g = List.length unw_y ->
  (forall row, In row unw_y -> List.length row = List.length lg) ->
  (forall row, In row w_g -> List.length (np_unique lg) <= List.length row) ->
  exists w_y,
    classify self x batch_index cont_covs cat_covs = Ok (PTensor w_y) /\
    List.length w_y = List.length unw_y /\
    (forall r, r < List.length unw_y -> List.length (nth r w_y []) = List.length lg) /\
    forall r j, r < List.length unw_y -> j < List.length lg ->
      nth j (nth r w_y []) 0%R
      = (nth j (nth r unw_y []) 0
         / (Rsum (mask_select (nth r unw_y []) (group_mask lg (Z.to_nat (nth j lg 0%Z))))
            + 1 / 100000000)
         * nth (Z.to_nat (nth j lg 0%Z)) (nth r w_g []) 0)%R.
Proof.
  intros Hi Hz Hc Hcg Hl Hsu Hsg.
  pose proof (SCHANVAE_init_nets _ _ _ _ _ _ Hi) as Hn.
  apply SCHANVAE_init_groups in Hi as [Hg [_ Hu]].
  apply init_groups_ok in Hg as [lg' [Hlg [Ha Hg]]].
  injection Hlg as <-.
  apply classify_group_entries with (z := z) (n := List.length (np_unique lg));
    try assumption; try (rewrite Hn; assumption).
  intros v Hv. apply in_np_unique in Hv. rewrite Ha in Hv.
  apply in_np_arange in Hv as [g [Hg' ->]]. lia.
Qed.

Lemma classify_group_entry_witness :
  exists w_y,
    classify group_model [[0%R]; [1%R]] None None None = Ok (PTensor w_y) /\
    List.length w_y = 2 /\
    (forall r, r < 2 -> List.length (nth r w_y []) = 2) /\
    forall r j, r < 2 -> j < 2 ->
      nth j (nth r w_y []) 0%R
      = (nth j (nth r [[1 / 2; 1 / 2]; [1 / 2; 1 / 2]]%R []) 0
         / (Rsum (mask_select (nth r [[1 / 2; 1 / 2]; [1 / 2; 1 / 2]]%R [])
                    (group_mask [0%Z; 1%Z] (Z.to_nat (nth j [0%Z; 1%Z] 0%Z))))
            + 1 / 100000000)
         * nth (Z.to_nat (nth j [0%Z; 1%Z] 0%Z)) (nth r [[1 / 2; 1 / 2]; [1 / 2; 1 / 2]]%R []) 0)%R.
Proof.
  apply (@classify_group_entry group_nets [2] None [0%Z; 1%Z] 0 group_model
           [[0%R]; [1%R]] None None None [[0%R]; [1%R]]
           [[1 / 2; 1 / 2]; [1 / 2; 1 / 2]]%R [[1 / 2; 1 / 2]; [1 / 2; 1 / 2]]%R);
    try reflexivity.
  - intros row [<-|[<-|[]]]; reflexivity.
  - intros row [<-|[<-|[]]]; simpl; lia.
Defined.

(** X14: under the same conditions, a row of the output of [classify]
    sums to the sum over the groups of [s / (s + 1e-8)] times the
    probability of the group, [s] being the sum of the label classifier's
    outputs over the labels of the group; when no output of the two
    classifiers is negative, that is at most the sum of the group
    probabilities of the row. *)
Theorem classify_group_row_total (nw : Networks) (num_classes : list nat)
    (y_prior : option vec) (lg : list Z) (n_version : Z) (self : SCHANVAE)
    (x : mat) (batch_index cont_covs cat_covs : option mat) (z unw_y w_g : mat) :
  SCHANVAE_init nw num_classes y_prior (Some lg) true n_version = Ok self ->
  classify_latent self x batch_index cont_covs cat_covs = Ok z ->
  classifier nw z = PTensor unw_y ->
  classifier_groups nw z = PTensor w_g ->
  List.length w_g = List.length unw_y ->
  (forall row, In row unw_y -> List.length row = List.length lg) ->
  (forall row, In row w_g -> List.length (np_unique lg) <= List.length row) ->
  exists w_y,
    classify self x batch_index cont_covs cat_covs = Ok (PTensor w_y) /\
    forall r, r < List.length unw_y ->
      let s := fun g => Rsum (mask_select (nth r unw_y []) (group_mask lg g)) in
      Rsum (nth r w_y [])
      = sum_over (List.length (np_unique lg))
          (fun g => (s g / (s g + 1 / 100000000) * nth g (nth r w_g []) 0)%R) /\
      ((forall row v, In row unw_y -> In v row -> (0 <= v)%R) ->
       (forall row v, In row w_g -> In v row -> (0 <= v)%R) ->
       (Rsum (nth r w_y [])
        <= sum_over (List.length (np_unique lg)) (fun g => nth g (nth r w_g []) 0%R))%R).
Proof.
  intros Hi Hz Hc Hcg Hl Hsu Hsg.
  pose proof (SCHANVAE_init_nets _ _ _ _ _ _ Hi) as Hn.
  apply SCHANVAE_init_groups in Hi as [Hg [_ Hu]].
  apply init_groups_ok in Hg as [lg' [Hlg [Ha Hg]]].
  injection Hlg as <-.
  set (n := List.length (np_unique lg)) in *.
  assert (Hrange : forall v, In v lg -> (0 <= v < Z.of_nat n)%Z).
  { intros v Hv. apply in_np_unique in Hv. rewrite Ha in Hv.
    apply in_np_arange in Hv as [g [Hg' ->]]. lia. }
  rewrite <- Hn in Hc, Hcg.
  destruct (@classify_group_entries self lg n x batch_index cont_covs cat_covs z unw_y w_g
              Hu Hg Hrange Hz Hc Hcg Hl Hsu Hsg) as [w_y [E [Hlw [Hrows _]]]].
  destruct (@classify_group_sum self lg n x batch_index cont_covs cat_covs z unw_y w_g
              Hu Hg Hz Hc Hcg Hl Hsu Hsg) as [w_y' [E' [_ Hsum]]].
  assert (w_y' = w_y) by congruence. subst w_y'.
  exists w_y. split; [exact E|].
  intros r Hr s.
  assert (Htotal : Rsum (nth r w_y [])
                   = sum_over n (fun g => (s g / (s g + 1 / 100000000)
                                           * nth g (nth r w_g []) 0)%R)).
  { rewrite (@Rsum_by_group n lg (nth r w_y [])) by (auto using Hrows).
    apply sum_over_ext. intros g Hg'. now apply Hsum. }
  split; [exact Htotal|].
  intros Hpu Hpg. rewrite Htotal.
  assert (Hin_u : In (nth r unw_y []) unw_y) by now apply nth_In.
  assert (Hin_g : In (nth r w_g []) w_g) by (apply nth_In; lia).
  apply sum_over_le. intros g Hg'. apply share_le.
  - apply Rsum_nonneg. intros v Hv. apply in_mask_select in Hv. eauto.
  - apply (Hpg (nth r w_g [])); [assumption|].
    apply nth_In. specialize (Hsg _ Hin_g). lia.
Qed.

Lemma classify_group_row_total_witness :
  exists w_y,
    classify group_model [[0%R]; [1%R]] None None None = Ok (PTensor w_y) /\
    forall r, r < 2 ->
      let s := fun g => Rsum (mask_select (nth r [[1 / 2; 1 / 2]; [1 / 2; 1 / 2]]%R [])
                                (group_mask [0%Z; 1%Z] g)) in
      Rsum (nth r w_y [])
      = sum_over 2
          (fun g => (s g / (s g + 1 / 100000000)
                     * nth g (nth r [[1 / 2; 1 / 2]; [1 / 2; 1 / 2]]%R []) 0)%R) /\
      ((forall row v, In row [[1 / 2; 1 / 2]; [1 / 2; 1 / 2]]%R -> In v row -> (0 <= v)%R) ->
       (forall row v, In row [[1 / 2; 1 / 2]; [1 / 2; 1 / 2]]%R -> In v row -> (0 <= v)%R) ->
       (Rsum (nth r w_y [])
        <= sum_over 2 (fun g => nth g (nth r [[1 / 2; 1 / 2]; [1 / 2; 1 / 2]]%R []) 0%R))%R).
Proof.
  apply (@classify_group_row_total group_nets [2] None [0%Z; 1%Z] 0 group_model
           [[0%R]; [1%R]] None None None [[0%R]; [1%R]]
           [[1 / 2; 1 / 2]; [1 / 2; 1 / 2]]%R [[1 / 2; 1 / 2]; [1 / 2; 1 / 2]]%R);
    try reflexivity.
  - intros row [<-|[<-|[]]]; reflexivity.
  - intros row [<-|[<-|[]]]; simpl; lia.
Defined.

(** X15: with labelled tensors and the default
    [classification_ratio=None], the variants [n_version = 0] and
    [n_version = 1] of [loss] never return: the product of the
    classification loss and the ratio raises [TypeError], unless an
    earlier step has raised.  For [n_version = 1] the exception is that
    [TypeError] once the labels and the classification loss are there. *)
Theorem labelled_loss_needs_ratio (self : SCHANVAE) (tensors : Tensors)
    (inference_outputs : InferenceOutputs) (generative_ouputs : GenerativeOutputs)
    (feed_labels : bool) (kl_weight : R) (lt : Tensors) :
  n_version self = 0%Z \/ n_version self = 1%Z ->
  (forall r, loss self tensors inference_outputs generative_ouputs feed_labels kl_weight
               (Some lt) None <> Ok r) /\
  (n_version self = 1%Z ->
   forall y c, fed_labels feed_labels tensors = Ok y ->
               classification_loss self lt = Ok c ->
               loss self tensors inference_outputs generative_ouputs feed_labels kl_weight
                 (Some lt) None = Raise TypeError).
Proof.
  intros Hv. split.
  - intros r. unfold loss.
    destruct (fed_labels feed_labels tensors) as [y|]; cbn [bind]; [|discriminate].
    destruct (broadcast_labels y (z inference_outputs) (n_labels self)) as [ys z1s].
    destruct Hv as [Hv|Hv]; rewrite Hv; cbn [Z.eqb Pos.eqb]; cbv iota.
    + unfold loss_marginal.
      destruct (marginal_terms _ _ _ _ _ _ _ _) as [[[[l rl] kd] kc]|]; cbn [bind];
        [|discriminate].
      rewrite Hv. cbn [Z.eqb]. cbv iota.
      destruct (classification_loss self lt); cbn [bind times_ratio]; discriminate.
    + destruct (classification_loss self lt); cbn [bind times_ratio]; discriminate.
  - intros Hv1 y c Hy Hc. unfold loss. rewrite Hy. cbn [bind].
    destruct (broadcast_labels y (z inference_outputs) (n_labels self)) as [ys z1s].
    rewrite Hv1. cbn [Z.eqb Pos.eqb]. cbv iota. rewrite Hc. reflexivity.
Qed.

Lemma labelled_loss_needs_ratio_witness :
  (forall r, loss (hier_model 1 1) two_cells two_cells_inference two_cells_generative
               false 1 (Some two_cells) None <> Ok r) /\
  (n_version (hier_model 1 1) = 1%Z ->
   forall y c, fed_labels false two_cells = Ok y ->
               classification_loss (hier_model 1 1) two_cells = Ok c ->
               loss (hier_model 1 1) two_cells two_cells_inference two_cells_generative
                 false 1 (Some two_cells) None = Raise TypeError).
Proof.
  apply (@labelled_loss_needs_ratio (hier_model 1 1) two_cells two_cells_inference
           two_cells_generative false 1 two_cells).
  right. reflexivity.
Defined.

(** X16: outside the variant for labelled tensors with [n_version = 1],
    [loss] takes item 1 of the classifier's output: with a classifier
    that returns fewer than two levels it raises [IndexError]. *)
Theorem marginal_loss_needs_two_levels (self : SCHANVAE) (tensors : Tensors)
    (inference_outputs : InferenceOutputs) (generative_ouputs : GenerativeOutputs)
    (feed_labels : bool) (kl_weight : R) (labelled_tensors : option Tensors)
    (classification_ratio : option R) (levels : list mat) (y : option (list nat)) :
  classifier (nets self) (z inference_outputs) = PLevels levels ->
  List.length levels < 2 ->
  labelled_tensors = None \/ n_version self <> 1%Z ->
  fed_labels feed_labels tensors = Ok y ->
  loss self tensors inference_outputs generative_ouputs feed_labels kl_weight
    labelled_tensors classification_ratio = Raise IndexError.
Proof.
  intros Hc Hl Hv Hy.
  rewrite (@loss_unfold_marginal self tensors inference_outputs generative_ouputs kl_weight
             labelled_tensors classification_ratio y feed_labels Hv Hy).
  unfold loss_marginal, marginal_terms. rewrite Hc. unfold index1.
  destruct (nth_error levels 1) eqn:E; [|reflexivity].
  assert (1 < List.length levels) by (apply nth_error_Some; congruence). lia.
Qed.

Lemma marginal_loss_needs_two_levels_witness :
  loss one_level_model two_cells two_cells_inference two_cells_generative false 1 None None
  = Raise IndexError.
Proof.
  apply (@marginal_loss_needs_two_levels one_level_model two_cells two_cells_inference
           two_cells_generative false 1 None None
           [[[1 / 2; 1 / 2]; [1 / 2; 1 / 2]]%R] None).
  - reflexivity.
  - simpl. lia.
  - left. reflexivity.
  - reflexivity.
Defined.

(** X17: item 1 of the classifier's output is used as the probabilities
    of the [n_labels] labels of the last level.  When its rows have
    another length (as for the middle level of a hierarchy of three
    levels), neither being 1, [loss] on a batch without labels raises
    the [RuntimeError] of the product of mismatched shapes. *)
Theorem marginal_loss_level_mismatch (self : SCHANVAE) (tensors : Tensors)
    (inference_outputs : InferenceOutputs) (generative_ouputs : GenerativeOutputs)
    (kl_weight : R) (labelled_tensors : option Tensors) (classification_ratio : option R)
    (levels : list mat) (probs : mat) (B c : nat) :
  classifier (nets self) (z inference_outputs) = PLevels levels ->
  nth_error levels 1 = Some probs ->
  labelled_tensors = None \/ n_version self <> 1%Z ->
  0 < B -> List.length probs = B ->
  (forall row, In row probs -> List.length row = c) ->
  1 < c -> 1 < n_labels self -> c <> n_labels self ->
  List.length (loss_z1_unweight_of self
                 (snd (broadcast_labels None (z inference_outputs) (n_labels self)))
                 (fst (broadcast_labels None (z inference_outputs) (n_labels self))))
  = n_labels self * B ->
  loss self tensors inference_outputs generative_ouputs false kl_weight
    labelled_tensors classification_ratio
  = Raise (RuntimeError "The size of tensor a must match the size of tensor b").
Proof.
  intros Hc Hp Hv HB Hlp Hrows Hc1 Hn1 Hne Hlu.
  rewrite (@loss_unfold_marginal self tensors inference_outputs generative_ouputs kl_weight
             labelled_tensors classification_ratio None false Hv eq_refl).
  unfold loss_marginal, marginal_terms. rewrite Hc. unfold index1. rewrite Hp. cbn [bind].
  unfold weight_by_probs at 1. rewrite (@view_ok (n_labels self) B) by (auto; lia).
  cbn [bind]. unfold mul_probs, bmul, transpose.
  rewrite (@ncols_chunks (n_labels self) B) by (auto; lia).
  unfold bzip at 1. rewrite length_map, length_seq, Hlp, Nat.eqb_refl.
  destruct B as [|B']; [lia|]. destruct probs as [|p0 probs']; [discriminate|].
  cbn [seq map combine mapM fst snd].
  set (row0 := map _ (chunks (S B') (n_labels self) _)).
  assert (Hl0 : List.length row0 = n_labels self)
    by (unfold row0; now rewrite length_map, length_chunks).
  assert (Hlp0 : List.length p0 = c) by (apply Hrows; now left).
  assert (Hz : bzip (fun x y : R => Ok (x * y)%R) row0 p0
               = Raise (RuntimeError "The size of tensor a must match the size of tensor b")).
  { unfold bzip. rewrite Hl0, Hlp0.
    replace (n_labels self =? c) with false by (symmetry; apply Nat.eqb_neq; congruence).
    destruct row0 as [|a [|a' row0']]; cbn [List.length] in Hl0; try lia.
    destruct p0 as [|b [|b' p0']]; cbn [List.length] in Hlp0; try lia.
    reflexivity. }
  rewrite Hz. reflexivity.
Qed.

Lemma marginal_loss_level_mismatch_witness :
  loss three_level_model two_cells two_cells_inference two_cells_generative false 1 None None
  = Raise (RuntimeError "The size of tensor a must match the size of tensor b").
Proof.
  apply (@marginal_loss_level_mismatch three_level_model two_cells two_cells_inference
           two_cells_generative 1 None None
           [[[1]; [1]]; [[1 / 3; 1 / 3; 1 / 3]; [1 / 3; 1 / 3; 1 / 3]];
            [[1 / 2; 1 / 2]; [1 / 2; 1 / 2]]]%R
           [[1 / 3; 1 / 3; 1 / 3]; [1 / 3; 1 / 3; 1 / 3]]%R 2 3);
    try reflexivity; try (simpl; lia).
  intros row [<-|[<-|[]]]; reflexivity.
Defined.

(** X18: on a batch without labels and without labelled tensors, what
    [loss] records adds up: the total is the mean of the recorded
    reconstruction loss (which holds the two z1 terms as well) plus
    [kl_weight] times the mean of the recorded local KL divergence. *)
Theorem unlabelled_total_adds_up (self : SCHANVAE) (tensors : Tensors)
    (inference_outputs : InferenceOutputs) (generative_ouputs : GenerativeOutputs)
    (kl_weight : R) (classification_ratio : option R) (B : nat) (probs : mat) :
  batch_shapes self tensors inference_outputs generative_ouputs B probs ->
  exists lr kl_divergence,
    loss self tensors inference_outputs generative_ouputs false kl_weight None
      classification_ratio = Ok lr /\
    kl_local lr = KLTensor kl_divergence /\
    List.length (reconstruction_loss lr) = B /\
    List.length kl_divergence = B /\
    loss_total lr = (mean (reconstruction_loss lr) + kl_weight * mean kl_divergence)%R.
Proof.
  intros Hs.
  destruct (@loss_unlabelled_value self tensors inference_outputs generative_ouputs
              kl_weight classification_ratio B probs Hs) as [lr [E _]].
  exists lr. pose proof E as E0.
  rewrite (@loss_unfold_marginal self tensors inference_outputs generative_ouputs kl_weight
             None classification_ratio None false (or_introl eq_refl) eq_refl) in E.
  unfold loss_marginal in E.
  destruct (marginal_terms _ _ _ _ _ _ _ _) as [[[[l rl] kd] kc]|] eqn:Em; cbn [bind] in E;
    [|discriminate].
  injection E as <-. cbn [kl_local reconstruction_loss loss_total].
  exists kd. split; [exact E0|]. split; [reflexivity|].
  unfold marginal_terms in Em.
  destruct Hs as [Sb Sc Sl Sr Sw Sk Su Skl Sp Spr Spc Spy].
  rewrite Sp in Em. cbn [bind] in Em.
  rewrite (@weight_by_probs_ok (n_labels self) B) in Em by assumption. cbn [bind] in Em.
  destruct (badd _ _) as [rhs|] eqn:E1 in Em; cbn [bind] in Em; [|discriminate].
  destruct (iadd _ rhs) as [rl'|] eqn:E2 in Em; cbn [bind] in Em; [|discriminate].
  rewrite (@weight_by_probs_ok (n_labels self) B) in Em by assumption. cbn [bind] in Em.
  destruct (kl_categorical _ _) as [kc'|] eqn:E3 in Em; cbn [bind] in Em; [|discriminate].
  destruct (iadd _ kc') as [kd1|] eqn:E4 in Em; cbn [bind] in Em; [|discriminate].
  destruct (iadd01 kd1 _) as [kd2|] eqn:E5 in Em; cbn [bind] in Em; [|discriminate].
  apply iadd_length in E2, E4. apply iadd01_length in E5.
  rewrite length_map, length_seq in E4.
  assert (L1 : List.length rl' = B) by congruence.
  assert (L2 : List.length kd2 = B) by congruence.
  rewrite badd_same in Em by (rewrite length_map; congruence). cbn [bind] in Em.
  injection Em as <- <- <- <-.
  split; [assumption|]. split; [assumption|].
  rewrite mean_map2_plus by (rewrite length_map; congruence).
  now rewrite mean_scale.
Qed.

Lemma unlabelled_total_adds_up_witness :
  exists lr kl_divergence,
    loss (hier_model 0 0) two_cells two_cells_inference two_cells_generative false 1 None None
    = Ok lr /\
    kl_local lr = KLTensor kl_divergence /\
    List.length (reconstruction_loss lr) = 2 /\
    List.length kl_divergence = 2 /\
    loss_total lr = (mean (reconstruction_loss lr) + 1 * mean kl_divergence)%R.
Proof.
  exact (@unlabelled_total_adds_up (hier_model 0 0) two_cells two_cells_inference
           two_cells_generative 1 None 2 [[1; 0]; [1; 0]]%R (two_cells_shapes 0 0)).
Defined.

(** X19: [classification_loss], once [classify] has returned, takes
    column [i] of the labels as the true labels of level [i], for each
    level of [num_classes], and returns the sum of the two hierarchical
    losses; it raises [IndexError] when a row of the labels has fewer
    entries than there are levels. *)
Theorem classification_loss_levels (self : SCHANVAE) (labelled_dataset : Tensors)
    (predictions : pred) :
  classify self (X_KEY labelled_dataset) (Some (BATCH_KEY labelled_dataset))
    (CONT_COVS_KEY labelled_dataset) (CAT_COVS_KEY labelled_dataset) = Ok predictions ->
  classification_loss self labelled_dataset
  = if forallb (fun row => List.length (num_classes self) <=? List.length row)
         (LABELS_KEY labelled_dataset)
    then
      let true_labels :=
        map (fun i => map (fun row => nth i row 0) (LABELS_KEY labelled_dataset))
          (seq 0 (List.length (num_classes self))) in
      Ok (calculate_dloss (nets self) predictions true_labels
          + calculate_lloss (nets self) predictions true_labels)%R
    else Raise IndexError.
Proof.
  intros Hc. unfold classification_loss. rewrite Hc. cbn [bind].
  rewrite level_labels_value. now destruct (forallb _ _).
Qed.

Lemma classification_loss_levels_witness :
  classification_loss (hier_model 0 1) two_cells
  = if forallb (fun row => List.length (num_classes (hier_model 0 1)) <=? List.length row)
         (LABELS_KEY two_cells)
    then
      let true_labels :=
        map (fun i => map (fun row => nth i row 0) (LABELS_KEY two_cells))
          (seq 0 (List.length (num_classes (hier_model 0 1)))) in
      Ok (calculate_dloss (nets (hier_model 0 1)) (PLevels [[[1]; [1]]; [[1; 0]; [1; 0]]]%R)
            true_labels
          + calculate_lloss (nets (hier_model 0 1)) (PLevels [[[1]; [1]]; [[1; 0]; [1; 0]]]%R)
              true_labels)%R
    else Raise IndexError.
Proof.
  apply (@classification_loss_levels (hier_model 0 1) two_cells
           (PLevels [[[1]; [1]]; [[1; 0]; [1; 0]]]%R)).
  reflexivity.
Defined.

(** X20: with the labels fed and outside the variant for labelled
    tensors with [n_version = 1], the terms of [loss] have one entry for
    each cell, yet are reshaped to [n_labels] rows: on a batch whose
    number of cells is not a multiple of [n_labels], [loss] raises the
    [RuntimeError] of [view]. *)
Theorem fed_labels_need_divisible_batch (self : SCHANVAE) (tensors : Tensors)
    (inference_outputs : InferenceOutputs) (generative_ouputs : GenerativeOutputs)
    (kl_weight : R) (labelled_tensors : option Tensors) (classification_ratio : option R)
    (y : list nat) (probs : probs_t) :
  last_label (LABELS_KEY tensors) = Ok y ->
  labelled_tensors = None \/ n_version self <> 1%Z ->
  index1 (classifier (nets self) (z inference_outputs)) = Ok probs ->
  List.length (loss_z1_unweight_of self (z inference_outputs)
                 (map (one_hot_row (n_labels self)) y))
  = List.length (z inference_outputs) ->
  List.length (z inference_outputs) mod n_labels self <> 0 ->
  loss self tensors inference_outputs generative_ouputs true kl_weight
    labelled_tensors classification_ratio
  = Raise (RuntimeError "shape is invalid for input").
Proof.
  intros Hy Hv Hp Hl Hm.
  assert (Hf : fed_labels true tensors = Ok (Some y))
    by (unfold fed_labels; now rewrite Hy).
  rewrite (@loss_unfold_marginal self tensors inference_outputs generative_ouputs kl_weight
             labelled_tensors classification_ratio (Some y) true Hv Hf).
  cbn [broadcast_labels fst snd].
  unfold loss_marginal, marginal_terms. rewrite Hp. cbn [bind].
  unfold weight_by_probs at 1, view. rewrite Hl.
  apply Nat.eqb_neq in Hm. rewrite Hm. cbn [negb]. rewrite !orb_true_r. reflexivity.
Qed.

Lemma fed_labels_need_divisible_batch_witness :
  loss (hier_model 0 0) one_cell one_cell_inference one_cell_generative true 1 None None
  = Raise (RuntimeError "shape is invalid for input").
Proof.
  apply (@fed_labels_need_divisible_batch (hier_model 0 0) one_cell one_cell_inference
           one_cell_generative 1 None None [0] (P2 [[1; 0]]%R)); try reflexivity.
  - left. reflexivity.
  - simpl. lia.
Defined.

End SCHANVAEMoreFacts.
